(** * Mangum: the WebSocket connection store and its handler

    A shallow embedding of [mangum/backends/dynamodb.py],
    [mangum/websockets.py] and [Mangum.handle_ws] of [mangum/adapter.py].

    Python values are a small inductive type, exceptions are data, and every
    operation that talks to AWS is a function on an explicit [world]: the
    DynamoDB tables, the process environment, the dict objects that are passed
    by reference, the answers of the API Gateway management API and the log of
    the AWS calls made so far. *)

From Stdlib Require Import ZArith Ascii String List Bool.
From stdpp Require Import base gmap strings.

Import ListNotations.
Set Warnings "-register-all".
Local Open Scope string_scope.
Local Open Scope Z_scope.

(** ** Python values *)

(** The values that occur in events, scopes and configuration mappings.
    A [dict] keeps its insertion order ([headers.items()] and [json.dumps]
    depend on it), so it is an association list; its keys are [str]. *)
Inductive pyval : Type :=
| PNone
| PBool (b : bool)
| PInt (n : Z)
| PStr (s : string)
| PBytes (bs : list Byte.byte)
| PList (xs : list pyval)
| PTuple (xs : list pyval)
| PDict (kvs : list (string * pyval)).

Abbreviation dict := (list (string * pyval)).

(** [bool(v)]. *)
Definition truthy (v : pyval) : bool :=
  match v with
  | PNone => false
  | PBool b => b
  | PInt n => negb (n =? 0)
  | PStr s => negb (String.eqb s "")
  | PBytes bs => negb (Nat.eqb (length bs) 0)
  | PList xs | PTuple xs => negb (Nat.eqb (length xs) 0)
  | PDict kvs => negb (Nat.eqb (length kvs) 0)
  end.

(** [v == s] for a [str] literal [s]. *)
Definition py_eq_str (v : pyval) (s : string) : bool :=
  match v with
  | PStr s' => String.eqb s' s
  | _ => false
  end.

(** A [str] is held as the UTF-8 text of its code points. A surrogate code
    point (U+D800 to U+DFFF) has no UTF-8 form and is held in the
    generalised form, the byte 0xED followed by a byte from 0xA0 to 0xBF and
    one more; well-formed UTF-8 never has such a pair. *)
Fixpoint has_surrogate (s : string) : bool :=
  match s with
  | EmptyString => false
  | String c s' =>
      match s' with
      | String d _ =>
          (N_of_ascii c =? 237)%N
          && (160 <=? N_of_ascii d)%N && (N_of_ascii d <=? 191)%N
      | EmptyString => false
      end
      || has_surrogate s'
  end.

(** The bytes [s.encode()] gives for a [str] without surrogates: the text
    itself. *)
Definition encode (s : string) : list Byte.byte := list_byte_of_string s.

(** *** Dictionaries *)

(** [d.get(k)]. *)
Fixpoint dict_get (k : string) (d : dict) : option pyval :=
  match d with
  | [] => None
  | (k', v) :: d' => if String.eqb k' k then Some v else dict_get k d'
  end.

(** [d[k] = v]: an existing key keeps its position, a new key goes last. *)
Fixpoint dict_set (k : string) (v : pyval) (d : dict) : dict :=
  match d with
  | [] => [(k, v)]
  | (k', v') :: d' =>
      if String.eqb k' k then (k', v) :: d' else (k', v') :: dict_set k v d'
  end.

(** [del d[k]], for a key that is present. *)
Definition dict_del (k : string) (d : dict) : dict :=
  List.filter (fun kv => negb (String.eqb (fst kv) k)) d.

(** [d.update(u)]. *)
Definition dict_update (d u : dict) : dict :=
  fold_left (fun acc kv => dict_set (fst kv) (snd kv) acc) u d.

(** [dict(pairs)] and the dict displays [{k: v, ...}]: a repeated key keeps
    its first position and its last value. *)
Definition dict_of_pairs (kvs : dict) : dict := dict_update [] kvs.

Definition dict_keys (d : dict) : list string := map fst d.

(** ** Exceptions *)

(** The [response] mapping carried by a botocore [ClientError]. *)
Record response_metadata := { HTTPStatusCode : option Z }.

Record error_response := {
  Error_Code : string;
  ResponseMetadata : option response_metadata
}.

(** The argument of a [WebSocketError]: a message, an f-string whose hole is
    a value, or the exception it wraps. *)
Inductive ws_arg :=
| WsMsg (m : string)
| WsFmt (prefix : string) (v : pyval)
| WsExc (r : error_response).

Inductive exn :=
| KeyError (k : string)
| TypeError
| AttributeError
| ValueError
| ImportError (m : string)
| UnicodeEncodeError
| ParamValidationError
| EndpointConnectionError
| ClientError (r : error_response)
| WebSocketError (a : ws_arg).

Inductive result (A : Type) :=
| Ok (a : A)
| Raise (e : exn).

Arguments Ok {A} a.
Arguments Raise {A} e.

(** ** JSON *)

(** The text that [json.dumps] writes and [json.loads] reads is represented
    by the document it denotes. *)
Inductive json : Type :=
| JNull
| JBool (b : bool)
| JNum (n : Z)
| JStr (s : string)
| JArr (xs : list json)
| JObj (kvs : list (string * json)).

(** [[f(x) for x in l]] for an [f] that may raise. *)
Fixpoint traverse {A B} (f : A -> result B) (l : list A) : result (list B) :=
  match l with
  | [] => Ok []
  | x :: l' =>
      match f x with
      | Raise e => Raise e
      | Ok y =>
          match traverse f l' with
          | Raise e => Raise e
          | Ok ys => Ok (y :: ys)
          end
      end
  end.

(** [json.dumps]: lists and tuples both become arrays; [bytes] is not
    serialisable ([TypeError]). *)
Fixpoint json_dumps (v : pyval) : result json :=
  match v with
  | PNone => Ok JNull
  | PBool b => Ok (JBool b)
  | PInt n => Ok (JNum n)
  | PStr s => Ok (JStr s)
  | PBytes _ => Raise TypeError
  | PList xs | PTuple xs =>
      match traverse json_dumps xs with
      | Raise e => Raise e
      | Ok js => Ok (JArr js)
      end
  | PDict kvs =>
      match
        traverse (fun kv =>
                    match json_dumps (snd kv) with
                    | Raise e => Raise e
                    | Ok j => Ok (fst kv, j)
                    end) kvs
      with
      | Raise e => Raise e
      | Ok js => Ok (JObj js)
      end
  end.

(** [json.loads]: arrays become lists, objects become dicts (a repeated
    name keeps its last value). *)
Fixpoint json_loads (j : json) : pyval :=
  match j with
  | JNull => PNone
  | JBool b => PBool b
  | JNum n => PInt n
  | JStr s => PStr s
  | JArr xs => PList (map json_loads xs)
  | JObj kvs =>
      PDict (dict_of_pairs (map (fun kv => (fst kv, json_loads (snd kv))) kvs))
  end.

(** What a JSON round trip does to a value: tuples come back as lists. *)
Fixpoint json_norm (v : pyval) : pyval :=
  match v with
  | PList xs | PTuple xs => PList (map json_norm xs)
  | PDict kvs => PDict (map (fun kv => (fst kv, json_norm (snd kv))) kvs)
  | _ => v
  end.

(** A value as Python builds it: no dict has a repeated key. *)
Fixpoint py_wf (v : pyval) : bool :=
  match v with
  | PList xs | PTuple xs => forallb py_wf xs
  | PDict kvs =>
      bool_decide (NoDup (map fst kvs))
      && forallb (fun kv => py_wf (snd kv)) kvs
  | _ => true
  end.

(** ** The world *)

(** A DynamoDB table is named by the endpoint override and the region of the
    resource it was opened through, and by its table name. *)
Abbreviation table_key := (option string * string * string)%type.

(** The items of the connection table: [connectionId] is the primary key. *)
Record item := {
  connectionId : string;
  initial_scope : json
}.

Definition item_has_attr (it : item) (attr : string) : bool :=
  String.eqb attr "connectionId" || String.eqb attr "initial_scope".

(** The condition expressions the code uses. *)
Inductive condition :=
| attribute_not_exists (attr : string).

(** A condition is evaluated against the item stored under the same key. *)
Definition condition_holds (c : condition) (existing : option item) : bool :=
  match c, existing with
  | attribute_not_exists _, None => true
  | attribute_not_exists attr, Some it => negb (item_has_attr it attr)
  end.

(** The calls made to AWS, oldest first. *)
Inductive aws_call :=
| DescribeTable (t : table_key)
| PutItem (t : table_key) (it : item) (cond : option condition)
| GetItem (t : table_key) (c : string)
| DeleteItem (t : table_key) (c : string)
| PostToConnection (url : string) (c : string) (data : list Byte.byte).

Record world := {
  environ : gmap string string;
  heap : gmap nat dict;
  tables : gmap table_key (gmap string item);
  gateway : string -> string -> list Byte.byte -> option exn;
  calls : list aws_call
}.

Definition set_heap (h : gmap nat dict) (w : world) : world :=
  {| environ := environ w; heap := h; tables := tables w;
     gateway := gateway w; calls := calls w |}.

Definition set_tables (t : gmap table_key (gmap string item)) (w : world) : world :=
  {| environ := environ w; heap := heap w; tables := t;
     gateway := gateway w; calls := calls w |}.

Definition log_call (c : aws_call) (w : world) : world :=
  {| environ := environ w; heap := heap w; tables := tables w;
     gateway := gateway w; calls := calls w ++ [c] |}.

(** The scope stored under connection id [c] in table [t], if any. *)
Definition stored (t : table_key) (c : string) (w : world) : option item :=
  tables w !! t ≫= (fun tb => tb !! c).

(** ** Computations: state and exceptions *)

(** A computation runs in a world and either returns or raises; what it did
    to the world before raising stays done. *)
Definition M (A : Type) : Type := world -> result A * world.

Definition ret {A} (a : A) : M A := fun w => (Ok a, w).

Definition raise {A} (e : exn) : M A := fun w => (Raise e, w).

Definition bind {A B} (m : M A) (k : A -> M B) : M B :=
  fun w =>
    match m w with
    | (Ok a, w') => k a w'
    | (Raise e, w') => (Raise e, w')
    end.

Notation "x <- m ;; k" := (bind m (fun x => k))
  (at level 20, m at level 99, k at level 200, only parsing).
Notation "m ;;; k" := (bind m (fun _ => k))
  (at level 100, k at level 200, right associativity, only parsing).

Definition lift {A} (r : result A) : M A := fun w => (r, w).

(** [try: m  except E as exc: h exc]; [h] answers [None] for the exceptions
    the clause does not catch. *)
Definition try_except {A} (m : M A) (h : exn -> option (M A)) : M A :=
  fun w =>
    match m w with
    | (Ok a, w') => (Ok a, w')
    | (Raise e, w') =>
        match h e with
        | Some k => k w'
        | None => (Raise e, w')
        end
    end.

(** [try: m  except E as exc: h exc  else: k]; what [k] raises is not
    caught. *)
Definition try_except_else {A B} (m : M A) (h : exn -> option (M B))
    (k : A -> M B) : M B :=
  fun w =>
    match m w with
    | (Ok a, w') => k a w'
    | (Raise e, w') =>
        match h e with
        | Some k' => k' w'
        | None => (Raise e, w')
        end
    end.

(** [x or y] on [Optional[str]] values. *)
Definition truthy_opt (o : option string) : bool :=
  match o with
  | Some s => negb (String.eqb s "")
  | None => false
  end.

Definition or_opt (x y : option string) : option string :=
  if truthy_opt x then x else y.

(** ** boto3: DynamoDB *)

Definition error_of (code : string) (status : Z) : error_response :=
  {| Error_Code := code;
     ResponseMetadata := Some {| HTTPStatusCode := Some status |} |}.

Definition ResourceNotFound : exn :=
  ClientError (error_of "ResourceNotFoundException" 400).

Definition ConditionalCheckFailed : exn :=
  ClientError (error_of "ConditionalCheckFailedException" 400).

(** The requests below are modelled for the names and keys DynamoDB
    accepts: a table name and the key attribute [connectionId] are non-empty
    strings. botocore refuses the empty table name before any request is
    made ([ParamValidationError]) and DynamoDB answers a request whose key
    is the empty string with a [ValidationException]; these refusals are not
    modelled, and the theorems on the outcome of a request suppose a
    non-empty name and key, or an item already stored under the key. *)

(** [client.describe_table(TableName=...)]. *)
Definition describe_table (t : table_key) : M unit :=
  fun w =>
    let w := log_call (DescribeTable t) w in
    match tables w !! t with
    | Some _ => (Ok tt, w)
    | None => (Raise ResourceNotFound, w)
    end.

(** [table.put_item(Item=..., ConditionExpression=...)]: one atomic
    conditional write. *)
Definition put_item (t : table_key) (it : item) (cond : option condition) : M unit :=
  fun w =>
    let w := log_call (PutItem t it cond) w in
    match tables w !! t with
    | None => (Raise ResourceNotFound, w)
    | Some tb =>
        if match cond with
           | Some c => condition_holds c (tb !! connectionId it)
           | None => true
           end
        then (Ok tt, set_tables (<[t := <[connectionId it := it]> tb]> (tables w)) w)
        else (Raise ConditionalCheckFailed, w)
    end.

(** The response of [table.get_item]: it has an ["Item"] entry only when an
    item is stored under the key. *)
Record get_item_output := { Item : option item }.

Definition get_item (t : table_key) (c : string) : M get_item_output :=
  fun w =>
    let w := log_call (GetItem t c) w in
    match tables w !! t with
    | None => (Raise ResourceNotFound, w)
    | Some tb => (Ok {| Item := tb !! c |}, w)
    end.

(** [table.delete_item(Key=...)]: deleting an absent key is not an error. *)
Definition delete_item (t : table_key) (c : string) : M unit :=
  fun w =>
    let w := log_call (DeleteItem t c) w in
    match tables w !! t with
    | None => (Raise ResourceNotFound, w)
    | Some tb => (Ok tt, set_tables (<[t := delete c tb]> (tables w)) w)
    end.

(** [os.environ[k]]. *)
Definition environ_getitem (k : string) : M string :=
  fun w =>
    match environ w !! k with
    | Some v => (Ok v, w)
    | None => (Raise (KeyError k), w)
    end.

(** [os.environ.get(k, None)]. *)
Definition environ_get (k : string) : M (option string) :=
  fun w => (Ok (environ w !! k), w).

(** ** mangum/backends/dynamodb.py *)

(** [backends/base.py] is the interface of the connection stores. *)
Class WebSocketBackend (B : Type) := {
  backend_create : B -> string -> json -> M unit;
  backend_fetch : B -> string -> M json;
  backend_delete : B -> string -> M unit
}.

Record DynamoDBBackend := {
  table_name : string;
  region_name : option string;
  endpoint_url : option string;
  table : table_key
}.

(** [DynamoDBBackend(table_name, region_name, endpoint_url)]: the dataclass
    constructor followed by [__post_init__]. *)
Definition DynamoDBBackend_init (table_name : string)
    (region_name endpoint_url : option string) : M DynamoDBBackend :=
  region <- (if truthy_opt region_name
             then ret (default "" region_name)
             else environ_getitem "AWS_REGION") ;;
  let dynamodb_resource := (endpoint_url, region) in
  try_except
    (describe_table (dynamodb_resource, table_name))
    (fun exc =>
       match exc with
       | ClientError r => Some (raise (WebSocketError (WsExc r)))
       | _ => None
       end) ;;;
  ret {| table_name := table_name; region_name := region_name;
         endpoint_url := endpoint_url;
         table := (dynamodb_resource, table_name) |}.

Definition DynamoDBBackend_create (self : DynamoDBBackend)
    (connection_id : string) (initial_scope : json) : M unit :=
  put_item (table self)
    {| connectionId := connection_id; initial_scope := initial_scope |}
    (Some (attribute_not_exists "connectionId")).

Definition DynamoDBBackend_fetch (self : DynamoDBBackend)
    (connection_id : string) : M json :=
  it <- try_except
          (out <- get_item (table self) connection_id ;;
           match Item out with
           | Some it => ret it
           | None => raise (KeyError "Item")
           end)
          (fun exc =>
             match exc with
             | KeyError _ =>
                 Some (raise (WebSocketError
                                (WsMsg ("Connection not found: " +:+ connection_id))))
             | _ => None
             end) ;;
  ret (initial_scope it).

Definition DynamoDBBackend_delete (self : DynamoDBBackend)
    (connection_id : string) : M unit :=
  delete_item (table self) connection_id.

#[export] Instance DynamoDBBackend_backend : WebSocketBackend DynamoDBBackend := {
  backend_create := DynamoDBBackend_create;
  backend_fetch := DynamoDBBackend_fetch;
  backend_delete := DynamoDBBackend_delete
}.

(** ** Strings *)

(** [needle in s] for two [str]. *)
Fixpoint str_contains (needle s : string) : bool :=
  String.prefix needle s
  || match s with
     | EmptyString => false
     | String _ s' => str_contains needle s'
     end.

(** [s.split(sep)] for a one-character separator. *)
Fixpoint str_split (sep : Ascii.ascii) (s : string) : list string :=
  match s with
  | EmptyString => [EmptyString]
  | String c s' =>
      if Ascii.eqb c sep
      then EmptyString :: str_split sep s'
      else
        match str_split sep s' with
        | [] => [String c EmptyString]
        | part :: parts => String c part :: parts
        end
  end.

(** [s[n:]]. *)
Fixpoint str_drop (n : nat) (s : string) : string :=
  match n, s with
  | O, _ => s
  | S n', String _ s' => str_drop n' s'
  | S _, EmptyString => EmptyString
  end.

(** ** Python helpers used by the facade *)

(** [v[k]] for a [str] key: only a dict can be subscripted by a [str]. *)
Definition py_getitem (v : pyval) (k : string) : result pyval :=
  match v with
  | PDict d =>
      match dict_get k d with
      | Some x => Ok x
      | None => Raise (KeyError k)
      end
  | _ => Raise TypeError
  end.

(** [v.items()]. *)
Definition py_items (v : pyval) : result dict :=
  match v with
  | PDict d => Ok d
  | _ => Raise AttributeError
  end.

(** [v.encode()]: only [str] has the method, and the strict UTF-8 codec
    refuses a surrogate. *)
Definition py_encode (v : pyval) : result pyval :=
  match v with
  | PStr s =>
      if has_surrogate s then Raise UnicodeEncodeError else Ok (PBytes (encode s))
  | _ => Raise AttributeError
  end.

(** [v.update(u)]. *)
Definition py_update (v : pyval) (u : dict) : result pyval :=
  match v with
  | PDict d => Ok (PDict (dict_update d u))
  | _ => Raise AttributeError
  end.

(** [[[k.encode(), v.encode()] for k, v in items if keep]]. *)
Fixpoint encode_pairs (keep : bool) (items : dict) : result (list pyval) :=
  match items with
  | [] => Ok []
  | (k, v) :: items' =>
      if keep then
        match py_encode (PStr k) with
        | Raise e => Raise e
        | Ok k' =>
            match py_encode v with
            | Raise e => Raise e
            | Ok v' =>
                match encode_pairs keep items' with
                | Raise e => Raise e
                | Ok rest => Ok (PList [k'; v'] :: rest)
                end
            end
        end
      else encode_pairs keep items'
  end.

(** The value a keyword argument annotated [str] must have; boto3 rejects
    anything else it is handed. *)
Definition expect_str (v : pyval) : result string :=
  match v with
  | PStr s => Ok s
  | _ => Raise ParamValidationError
  end.

(** The same for [Optional[str]] with default [None]. *)
Definition expect_opt_str (o : option pyval) : result (option string) :=
  match o with
  | None | Some PNone => Ok None
  | Some (PStr s) => Ok (Some s)
  | Some _ => Raise ParamValidationError
  end.

(** The region a [region_name] argument stands for: a [str] is itself, any
    other falsy value gives way to the environment like [None] does, and
    anything else is rejected by boto3. *)
Definition expect_region (v : pyval) : result (option string) :=
  match v with
  | PStr s => Ok (Some s)
  | _ => if truthy v then Raise ParamValidationError else Ok None
  end.

(** [DynamoDBBackend] called with the keyword arguments [kwargs]: an
    unexpected keyword, or no [table_name], is a [TypeError]. The dataclass
    checks no types: [__post_init__] first settles the region
    ([self.region_name or os.environ["AWS_REGION"]], a [KeyError] when both
    are missing), and only then is boto3 handed the region, the endpoint
    and, last, the table name. *)
Definition DynamoDBBackend_kwargs (kwargs : dict) : M DynamoDBBackend :=
  if forallb (fun k => existsb (String.eqb k)
                         ["table_name"; "region_name"; "endpoint_url"])
       (dict_keys kwargs)
  then
    match dict_get "table_name" kwargs with
    | None => raise TypeError
    | Some tn =>
        let region_name := default PNone (dict_get "region_name" kwargs) in
        (if truthy region_name then ret tt
         else (environ_getitem "AWS_REGION" ;;; ret tt)) ;;;
        rn <- lift (expect_region region_name) ;;
        eu <- lift (expect_opt_str (dict_get "endpoint_url" kwargs)) ;;
        tn <- lift (expect_str tn) ;;
        DynamoDBBackend_init tn rn eu
    end
  else raise TypeError.

(** The dict object at reference [l]; a reference that was never allocated
    reads as the empty dict. *)
Definition deref (l : nat) : M dict :=
  fun w => (Ok (default [] (heap w !! l)), w).

(** [d.pop(k)] on the dict object at reference [l]: the object itself
    loses the key. *)
Definition dict_pop (l : nat) (k : string) : M pyval :=
  fun w =>
    let d := default [] (heap w !! l) in
    match dict_get k d with
    | Some v => (Ok v, set_heap (<[l := dict_del k d]> (heap w)) w)
    | None => (Raise (KeyError k), w)
    end.

(** The world right after [ws_config.pop("backend")] on the dict [d] at
    reference [l]. *)
Definition popped (l : nat) (d : dict) (w : world) : world :=
  set_heap (<[l := dict_del "backend" d]> (heap w)) w.

(** A headers mapping from [str] to [str], and the shape [fetch] gives it
    back in: an empty mapping stays as it is, any other becomes the list of
    the encoded [[key, value]] pairs. *)
Definition str_dict (hs : list (string * string)) : pyval :=
  PDict (map (fun kv => (fst kv, PStr (snd kv))) hs).

Definition restored_headers (hs : list (string * string)) : pyval :=
  match hs with
  | [] => PDict []
  | _ => PList (map (fun kv => PList [PBytes (encode (fst kv));
                                      PBytes (encode (snd kv))]) hs)
  end.

(** No key and no value of the mapping has a surrogate: all of them can be
    encoded. *)
Definition encodable (hs : list (string * string)) : bool :=
  forallb (fun kv => negb (has_surrogate (fst kv)) && negb (has_surrogate (snd kv)))
    hs.

(** ** boto3: the API Gateway management API *)

(** [client.post_to_connection(ConnectionId=..., Data=...)] through the
    client made for [endpoint_url]. *)
Definition apigw_post_to_connection (endpoint_url connection_id : string)
    (data : list Byte.byte) : M unit :=
  fun w =>
    let w := log_call (PostToConnection endpoint_url connection_id data) w in
    match gateway w endpoint_url connection_id data with
    | None => (Ok tt, w)
    | Some e => (Raise e, w)
    end.

(** [exc.response.get("ResponseMetadata", {}).get("HTTPStatusCode")]. *)
Definition status_code_of (r : error_response) : option Z :=
  match ResponseMetadata r with
  | Some m => HTTPStatusCode m
  | None => None
  end.

(** A store that keeps nothing, to run the examples that need some
    local-file backend. *)
#[export] Instance NullBackend : WebSocketBackend unit := {
  backend_create := fun _ _ _ => ret tt;
  backend_fetch := fun _ c => raise (KeyError c);
  backend_delete := fun _ _ => ret tt
}.

Section Mangum.

(** ** mangum/websockets.py *)

(** [mangum/backends/sqlite3.py] is not among the sources: the local-file
    backend is a parameter, some store behind the backend interface with
    some constructor. *)
Context {SQLite3Backend : Type} `{!WebSocketBackend SQLite3Backend}.
Variable SQLite3Backend_init : dict -> M SQLite3Backend.

(** The object held in [self._backend]; a method call dispatches on its
    class. *)
Inductive backend :=
| SQLite3 (b : SQLite3Backend)
| DynamoDB (b : DynamoDBBackend).

#[export] Instance backend_backend : WebSocketBackend backend := {
  backend_create b :=
    match b with
    | SQLite3 s => backend_create s
    | DynamoDB d => backend_create d
    end;
  backend_fetch b :=
    match b with
    | SQLite3 s => backend_fetch s
    | DynamoDB d => backend_fetch d
    end;
  backend_delete b :=
    match b with
    | SQLite3 s => backend_delete s
    | DynamoDB d => backend_delete d
    end
}.

(** [ws_config] is a reference: the dict belongs to the caller.
    [_backend] and [scope] are unset until assigned. *)
Record WebSocket := {
  connection_id : string;
  api_gateway_endpoint_url : string;
  ws_config : option nat;
  _backend : option backend;
  scope : option pyval
}.

Definition set_backend (b : backend) (self : WebSocket) : WebSocket :=
  {| connection_id := connection_id self;
     api_gateway_endpoint_url := api_gateway_endpoint_url self;
     ws_config := ws_config self;
     _backend := Some b;
     scope := scope self |}.

Definition set_scope (sc : pyval) (self : WebSocket) : WebSocket :=
  {| connection_id := connection_id self;
     api_gateway_endpoint_url := api_gateway_endpoint_url self;
     ws_config := ws_config self;
     _backend := _backend self;
     scope := Some sc |}.

(** [self._backend]. *)
Definition get_backend (self : WebSocket) : M backend :=
  match _backend self with
  | Some b => ret b
  | None => raise AttributeError
  end.

Definition WebSocket_post_init (self : WebSocket) : M WebSocket :=
  match ws_config self with
  | None =>
      raise (WebSocketError
               (WsMsg "A `ws_config` argument is required to configure WebSocket support."))
  | Some l =>
      backend <- dict_pop l "backend" ;;
      self <- (if py_eq_str backend "sqlite3"
               then
                 kwargs <- deref l ;;
                 b <- SQLite3Backend_init kwargs ;;
                 ret (set_backend (SQLite3 b) self)
               else ret self) ;;
      if py_eq_str backend "dynamodb"
      then
        kwargs <- deref l ;;
        b <- DynamoDBBackend_kwargs kwargs ;;
        ret (set_backend (DynamoDB b) self)
      else raise (WebSocketError (WsFmt "Invalid backend specified: " backend))
  end.

(** [WebSocket(connection_id, api_gateway_endpoint_url, ws_config)]. *)
Definition WebSocket_init (connection_id api_gateway_endpoint_url : string)
    (ws_config : option nat) : M WebSocket :=
  WebSocket_post_init
    {| connection_id := connection_id;
       api_gateway_endpoint_url := api_gateway_endpoint_url;
       ws_config := ws_config;
       _backend := None;
       scope := None |}.

Definition WebSocket_create (self : WebSocket) (initial_scope : pyval) : M unit :=
  initial_scope_json <- lift (json_dumps initial_scope) ;;
  b <- get_backend self ;;
  backend_create b (connection_id self) initial_scope_json.

Definition WebSocket_fetch (self : WebSocket) : M WebSocket :=
  b <- get_backend self ;;
  initial_scope <- backend_fetch b (connection_id self) ;;
  let sc := json_loads initial_scope in
  query_string <- lift (py_getitem sc "query_string") ;;
  headers <- lift (py_getitem sc "headers") ;;
  headers <- (if truthy headers
              then
                items <- lift (py_items headers) ;;
                pairs <- lift (encode_pairs (truthy headers) items) ;;
                ret (PList pairs)
              else ret headers) ;;
  query_string <- lift (py_encode query_string) ;;
  sc <- lift (py_update sc [("headers", headers); ("query_string", query_string)]) ;;
  ret (set_scope sc self).

Definition WebSocket_delete (self : WebSocket) : M unit :=
  b <- get_backend self ;;
  backend_delete b (connection_id self).

Definition WebSocket_post_to_connection (self : WebSocket)
    (msg_data : list Byte.byte) : M unit :=
  try_except
    (apigw_post_to_connection (api_gateway_endpoint_url self)
       (connection_id self) msg_data)
    (fun exc =>
       match exc with
       | ClientError r =>
           let status_code := status_code_of r in
           Some (if bool_decide (status_code = Some 410)
                 then WebSocket_delete self
                 else raise (WebSocketError (WsExc r)))
       | _ => None
       end).

(** ** mangum.connections and mangum.protocols.websockets *)

(** Modelled from the spec: [mangum/connections.py], from which the adapter
    imports [WebSocket], is missing. Spec 4.4: a Connection wraps one
    connection identifier and owns a ConnectionStore; [establish(scope)]
    stores the scope ([create]), [resume()] restores it ([fetch]) and
    [terminate()] removes it ([delete]). The store is the durable backend
    of [backends/dynamodb.py]; it "requires a table/collection name and a
    region/location parameter". *)
Record Connection := {
  conn_id : string;
  conn_api_gateway_endpoint_url : option string;
  conn_store : DynamoDBBackend;
  conn_scope : option pyval
}.

(** Modelled from the spec: the constructor the adapter calls as
    [WebSocket(connection_id, dynamodb_region=..., dynamodb_table_name=...,
    dynamodb_endpoint=..., api_gateway_endpoint_url=...)]. Spec 4.2 and 7:
    the store "requires a table/collection name and a region/location
    parameter", and missing backend parameters are a configuration error.
    So without a table name, or without a region (neither the argument nor
    [AWS_REGION]), it raises the configuration error before anything else;
    otherwise it opens the store, which verifies that the table exists. *)
Definition Connection_init (connection_id : string)
    (dynamodb_region dynamodb_table_name dynamodb_endpoint
       api_gateway_endpoint_url : option string) : M Connection :=
  match dynamodb_table_name with
  | None => raise (WebSocketError (WsMsg "A table name is required."))
  | Some name =>
      env_region <- environ_get "AWS_REGION" ;;
      match or_opt dynamodb_region env_region with
      | None => raise (WebSocketError (WsMsg "A region is required."))
      | Some _ =>
          store <- DynamoDBBackend_init name dynamodb_region dynamodb_endpoint ;;
          ret {| conn_id := connection_id;
                 conn_api_gateway_endpoint_url := api_gateway_endpoint_url;
                 conn_store := store;
                 conn_scope := None |}
      end
  end.

(** Modelled from the spec: [accept] is [establish]. The scope is
    serialised and created in the store; a failed [create] (a duplicate
    id, a medium error) is a failure "the caller reports as a server
    error", that is a [WebSocketError]. *)
Definition Connection_accept (self : Connection) (initial_scope : pyval) : M unit :=
  initial_scope_json <- lift (json_dumps initial_scope) ;;
  try_except
    (backend_create (conn_store self) (conn_id self) initial_scope_json)
    (fun exc =>
       match exc with
       | ClientError r => Some (raise (WebSocketError (WsExc r)))
       | _ => None
       end).

(** Modelled from the spec: [connect] is [resume]; it "requires fetch to
    succeed" and yields the restored context. *)
Definition Connection_connect (self : Connection) : M Connection :=
  initial_scope <- backend_fetch (conn_store self) (conn_id self) ;;
  ret {| conn_id := conn_id self;
         conn_api_gateway_endpoint_url := conn_api_gateway_endpoint_url self;
         conn_store := conn_store self;
         conn_scope := Some (json_loads initial_scope) |}.

(** Modelled from the spec: [disconnect] is [terminate], a [delete]. *)
Definition Connection_disconnect (self : Connection) : M unit :=
  backend_delete (conn_store self) (conn_id self).

(** Modelled from the spec: [mangum/protocols/websockets.py] is missing.
    Spec 4.1: a cycle is constructed with a connection and a configuration;
    [enqueue(message)] "appends one inbound message to an ordered queue". *)
Record WebSocketCycle := {
  cycle_websocket : Connection;
  cycle_log_level : string;
  cycle_queue : list pyval
}.

Definition WebSocketCycle_init (websocket : Connection) (log_level : string)
    : WebSocketCycle :=
  {| cycle_websocket := websocket; cycle_log_level := log_level;
     cycle_queue := [] |}.

Definition put_message (message : pyval) (self : WebSocketCycle) : WebSocketCycle :=
  {| cycle_websocket := cycle_websocket self;
     cycle_log_level := cycle_log_level self;
     cycle_queue := cycle_queue self ++ [message] |}.

(** The application and the run of a cycle on it are parameters: the
    application is the user's, the cycle engine is missing. *)
Context {ASGIApp : Type}.
Variable WebSocketCycle_call : WebSocketCycle -> ASGIApp -> M pyval.

(** Built-ins that are used and not modelled: [str.lower], [int] and the
    conversion of a value inside an f-string. *)
Variable str_lower : string -> string.
Variable py_int : pyval -> result Z.
Variable py_format : pyval -> string.

(** ** mangum/adapter.py *)

Record Mangum := {
  app : ASGIApp;
  enable_lifespan : bool;
  api_gateway_base_path : option string;
  text_mime_types : option (list string);
  app_ws_path : option string;
  mangum_api_gateway_endpoint_url : option string;
  dynamodb_region : option string;
  dynamodb_table_name : option string;
  dynamodb_endpoint : option string;
  log_level : string
}.

(** [needle in v]. *)
Definition py_contains (needle : string) (v : pyval) : result bool :=
  match v with
  | PStr s => Ok (str_contains needle s)
  | PList xs | PTuple xs => Ok (existsb (fun x => py_eq_str x needle) xs)
  | PDict d => Ok (existsb (String.eqb needle) (dict_keys d))
  | _ => Raise TypeError
  end.

(** [v.split(":")]. *)
Definition py_split_colon (v : pyval) : result (list pyval) :=
  match v with
  | PStr s => Ok (map PStr (str_split ":"%char s))
  | PBytes _ => Raise TypeError
  | _ => Raise AttributeError
  end.

(** [v.get(k, d)]. *)
Definition py_get (v : pyval) (k : string) (d : pyval) : result pyval :=
  match v with
  | PDict kvs => Ok (default d (dict_get k kvs))
  | _ => Raise AttributeError
  end.

Definition get_server (headers : dict) : M pyval :=
  let server_name := default (PStr "mangum") (dict_get "host" headers) in
  has_colon <- lift (py_contains ":" server_name) ;;
  name_port <- (if negb has_colon
                then ret (server_name,
                          default (PInt 80) (dict_get "x-forwarded-port" headers))
                else
                  parts <- lift (py_split_colon server_name) ;;
                  match parts with
                  | [name; port] => ret (name, port)
                  | _ => raise ValueError
                  end) ;;
  port <- lift (py_int (snd name_port)) ;;
  ret (PTuple [fst name_port; PInt port]).

(** [{k.lower(): v for k, v in event.get("headers").items()}
     if event.get("headers") else {}]. *)
Definition lowered_headers (event : dict) : M dict :=
  let h := default PNone (dict_get "headers" event) in
  if truthy h
  then
    items <- lift (py_items h) ;;
    ret (dict_of_pairs (map (fun kv => (str_lower (fst kv), snd kv)) items))
  else ret [].

(** [except WebSocketError as exc: k]. *)
Definition except_WebSocketError {A} (k : M A) (exc : exn) : option (M A) :=
  match exc with
  | WebSocketError _ => Some k
  | _ => None
  end.

(** The module constant [__ERR__]: empty, boto3 being installed. *)
Definition ERR : string := "".

Definition status (code : Z) : pyval := PDict [("statusCode", PInt code)].

Definition guard_message : string :=
  "The `dynamodb_region` and `dynamodb_table_name` are required.".

Definition handle_ws (self : Mangum) (event : dict) (context : pyval) : M pyval :=
  (if negb (String.eqb ERR "") then raise (ImportError ERR) else ret tt) ;;;
  env_region <- environ_get "AWS_REGION" ;;
  let dynamodb_region_ := or_opt (dynamodb_region self) env_region in
  let dynamodb_table_name_ := dynamodb_table_name self in
  if negb (existsb truthy_opt [dynamodb_region_; dynamodb_table_name_])
  then raise (WebSocketError (WsMsg guard_message))
  else
    request_context <- lift (py_getitem (PDict event) "requestContext") ;;
    event_type <- lift (py_getitem request_context "eventType") ;;
    connection_id <- lift (py_getitem request_context "connectionId") ;;
    let response := status 200 in
    if py_eq_str event_type "CONNECT" then
      headers <- lowered_headers event ;;
      server <- get_server headers ;;
      identity <- lift (py_get request_context "identity" (PDict [])) ;;
      source_ip <- lift (py_get identity "sourceIp" PNone) ;;
      let client := PTuple [source_ip; PInt 0] in
      let initial_scope :=
        PDict [("type", PStr "websocket");
               ("path", PStr (default "/" (or_opt (app_ws_path self) (Some "/"))));
               ("headers", PDict headers);
               ("raw_path", PNone);
               ("root_path", PStr "");
               ("scheme", default (PStr "wss") (dict_get "x-forwarded-proto" headers));
               ("query_string", PStr "");
               ("server", server);
               ("client", client);
               ("aws", PDict [("event", PDict event); ("context", PNone)])] in
      try_except
        (connection_id <- lift (expect_str connection_id) ;;
         websocket <- Connection_init connection_id (dynamodb_region self)
                        (dynamodb_table_name self) (dynamodb_endpoint self) None ;;
         Connection_accept websocket initial_scope ;;;
         ret response)
        (except_WebSocketError (ret (status 500)))
    else if py_eq_str event_type "MESSAGE" then
      stage <- lift (py_getitem request_context "stage") ;;
      domain_name <- lift (py_getitem request_context "domainName") ;;
      let api_gateway_endpoint_url :=
        or_opt (mangum_api_gateway_endpoint_url self)
          (Some ("http://" +:+ py_format domain_name +:+ "/" +:+ py_format stage)) in
      try_except_else
        (connection_id <- lift (expect_str connection_id) ;;
         websocket <- Connection_init connection_id (dynamodb_region self)
                        (dynamodb_table_name self) (dynamodb_endpoint self)
                        (mangum_api_gateway_endpoint_url self) ;;
         Connection_connect websocket)
        (except_WebSocketError (ret (status 500)))
        (fun websocket =>
           let asgi_cycle := WebSocketCycle_init websocket (log_level self) in
           let asgi_cycle :=
             put_message (PDict [("type", PStr "websocket.connect")]) asgi_cycle in
           body <- lift (py_getitem (PDict event) "body") ;;
           let asgi_cycle :=
             put_message
               (PDict [("type", PStr "websocket.receive");
                       ("path", PStr (default "/" (or_opt (app_ws_path self) (Some "/"))));
                       ("bytes", PNone);
                       ("text", body)]) asgi_cycle in
           WebSocketCycle_call asgi_cycle (app self))
    else if py_eq_str event_type "DISCONNECT" then
      connection_id <- lift (expect_str connection_id) ;;
      websocket <- Connection_init connection_id (dynamodb_region self)
                     (dynamodb_table_name self) (dynamodb_endpoint self)
                     (mangum_api_gateway_endpoint_url self) ;;
      Connection_disconnect websocket ;;;
      ret response
    else ret response.

(** The guard of [handle_ws] lets the event through. *)
Definition configured (self : Mangum) (w : world) : bool :=
  existsb truthy_opt
    [or_opt (dynamodb_region self) (environ w !! "AWS_REGION");
     dynamodb_table_name self].

(** An API Gateway WebSocket event of type [ty] for connection [c], with
    request context [req]. *)
Definition ws_event (event : dict) (ty c : string) (req : dict) : Prop :=
  dict_get "requestContext" event = Some (PDict req)
  /\ dict_get "eventType" req = Some (PStr ty)
  /\ dict_get "connectionId" req = Some (PStr c).


(** The two messages queued for a MESSAGE event with body [body]. *)
Definition message_queue (self : Mangum) (body : pyval) : list pyval :=
  [PDict [("type", PStr "websocket.connect")];
   PDict [("type", PStr "websocket.receive");
          ("path", PStr (default "/" (or_opt (app_ws_path self) (Some "/"))));
          ("bytes", PNone);
          ("text", body)]].

(** *** The HTTP path *)

(** Library functions that are used and not modelled: [urllib.parse.unquote],
    [urllib.parse.urlencode(..., doseq=True)] and [base64.b64decode]. *)
Variable unquote : pyval -> result pyval.
Variable urlencode : pyval -> result string.
Variable b64decode : pyval -> result (list Byte.byte).

Definition DEFAULT_TEXT_MIME_TYPES : list string :=
  ["application/json";
   "application/javascript";
   "application/xml";
   "application/vnd.api+json"].

Definition strip_base_path (self : Mangum) (path : pyval) : result pyval :=
  match
    (if truthy_opt (api_gateway_base_path self)
     then
       let script_name := "/" +:+ default "" (api_gateway_base_path self) in
       match path with
       | PStr p =>
           if String.prefix script_name p
           then Ok (PStr (str_drop (String.length script_name) p))
           else Ok path
       | PBytes _ => Raise TypeError
       | _ => Raise AttributeError
       end
     else Ok path)
  with
  | Raise e => Raise e
  | Ok path => unquote (if truthy path then path else PStr "/")
  end.

(** Modelled from the spec: [mangum/protocols/http.py] is missing. Spec 4.1:
    a cycle is "constructed with a connection scope and a configuration"
    (the text types, the log level), and [enqueue(message)] "appends one
    inbound message to an ordered queue". Its run on the application is a
    parameter. *)
Record HTTPCycle := {
  http_scope : pyval;
  http_text_mime_types : list string;
  http_log_level : string;
  http_queue : list pyval
}.

Definition HTTPCycle_init (scope : pyval) (text_mime_types : list string)
    (log_level : string) : HTTPCycle :=
  {| http_scope := scope; http_text_mime_types := text_mime_types;
     http_log_level := log_level; http_queue := [] |}.

Definition http_put_message (message : pyval) (self : HTTPCycle) : HTTPCycle :=
  {| http_scope := http_scope self;
     http_text_mime_types := http_text_mime_types self;
     http_log_level := http_log_level self;
     http_queue := http_queue self ++ [message] |}.

Variable HTTPCycle_call : HTTPCycle -> ASGIApp -> M pyval.

Definition handle_http (self : Mangum) (event : dict) (context : pyval)
    (is_http_api : bool) : M pyval :=
  request_context <- lift (py_getitem (PDict event) "requestContext") ;;
  parts <- (if is_http_api
            then
              http <- lift (py_getitem request_context "http") ;;
              source_ip <- lift (py_getitem http "sourceIp") ;;
              let query_string := default PNone (dict_get "rawQueryString" event) in
              path <- lift (py_getitem http "path") ;;
              http_method <- lift (py_getitem http "method") ;;
              ret (source_ip, query_string, path, http_method)
            else
              identity <- lift (py_get request_context "identity" (PDict [])) ;;
              source_ip <- lift (py_get identity "sourceIp" PNone) ;;
              multi_value_query_string_params <-
                lift (py_getitem (PDict event) "multiValueQueryStringParameters") ;;
              query_string <-
                (if truthy multi_value_query_string_params
                 then
                   encoded <- lift (urlencode multi_value_query_string_params) ;;
                   lift (py_encode (PStr encoded))
                 else ret (PBytes [])) ;;
              path <- lift (py_getitem (PDict event) "path") ;;
              http_method <- lift (py_getitem (PDict event) "httpMethod") ;;
              ret (source_ip, query_string, path, http_method)) ;;
  let source_ip := fst (fst (fst parts)) in
  let query_string := snd (fst (fst parts)) in
  let path := snd (fst parts) in
  let http_method := snd parts in
  headers <- lowered_headers event ;;
  server <- get_server headers ;;
  let client := PTuple [source_ip; PInt 0] in
  encoded_headers <- lift (encode_pairs true headers) ;;
  stripped <- lift (strip_base_path self path) ;;
  let scope :=
    PDict [("type", PStr "http");
           ("http_version", PStr "1.1");
           ("method", http_method);
           ("headers", PList encoded_headers);
           ("path", stripped);
           ("raw_path", PNone);
           ("root_path", PStr "");
           ("scheme", default (PStr "https") (dict_get "x-forwarded-proto" headers));
           ("query_string", query_string);
           ("server", server);
           ("client", client);
           ("asgi", PDict [("version", PStr "3.0")]);
           ("aws.event", PDict event);
           ("aws.context", context)] in
  let is_binary := default (PBool false) (dict_get "isBase64Encoded" event) in
  let body :=
    let b := default PNone (dict_get "body" event) in
    if truthy b then b else PBytes [] in
  body <- (if truthy is_binary
           then
             decoded <- lift (b64decode body) ;;
             ret (PBytes decoded)
           else
             match body with
             | PBytes _ => ret body
             | _ => lift (py_encode body)
             end) ;;
  let text_mime_types :=
    match text_mime_types self with
    | Some (t :: ts) => ((t :: ts) ++ DEFAULT_TEXT_MIME_TYPES)%list
    | _ => DEFAULT_TEXT_MIME_TYPES
    end in
  let asgi_cycle := HTTPCycle_init scope text_mime_types (log_level self) in
  let asgi_cycle :=
    http_put_message
      (PDict [("type", PStr "http.request");
              ("body", body);
              ("more_body", PBool false)]) asgi_cycle in
  HTTPCycle_call asgi_cycle (app self).

(** [mangum/lifespan.py] is missing: reading [self.lifespan.is_supported]
    and running [self.lifespan.shutdown()] to completion are parameters. *)
Variable lifespan_is_supported : M bool.
Variable lifespan_shutdown : M unit.

Definition handler (self : Mangum) (event : dict) (context : pyval) : M pyval :=
  request_context <- lift (py_getitem (PDict event) "requestContext") ;;
  is_ws <- lift (py_contains "eventType" request_context) ;;
  response <- (if is_ws
               then handle_ws self event context
               else
                 request_context <- lift (py_getitem (PDict event) "requestContext") ;;
                 is_http_api <- lift (py_contains "http" request_context) ;;
                 handle_http self event context is_http_api) ;;
  (if enable_lifespan self
   then
     is_supported <- lifespan_is_supported ;;
     if is_supported then lifespan_shutdown else ret tt
   else ret tt) ;;;
  ret response.

(** [Mangum.__call__]. *)
Definition Mangum_call (self : Mangum) (event : dict) (context : pyval) : M pyval :=
  response <- handler self event context ;;
  ret response.

End Mangum.

Arguments WebSocket : clear implicits.
Arguments backend : clear implicits.
Arguments Mangum : clear implicits.

(** ** mangum/scope.py *)

Module Scopes.

(** The holder of an ASGI HTTP scope, with the types of its annotations. *)
Record Scope := {
  method : string;
  headers : list (list (list Byte.byte));
  path : string;
  scheme : string;
  query_string : list Byte.byte;
  server : string * Z;
  client : string * Z;
  trigger_event : dict;
  trigger_context : pyval;
  event_type : string;
  type : string;
  http_version : string;
  raw_path : option string;
  root_path : string;
  asgi : list (string * string)
}.

(** The dataclass constructor called with the required fields only. *)
Definition Scope_init (method : string) (headers : list (list (list Byte.byte)))
    (path scheme : string) (query_string : list Byte.byte)
    (server client : string * Z) (trigger_event : dict) (trigger_context : pyval)
    (event_type : string) : Scope :=
  {| method := method; headers := headers; path := path; scheme := scheme;
     query_string := query_string; server := server; client := client;
     trigger_event := trigger_event; trigger_context := trigger_context;
     event_type := event_type;
     type := "http"; http_version := "1.1"; raw_path := None; root_path := "";
     asgi := [("version", "3.0")] |}.

Definition py_address (a : string * Z) : pyval := PTuple [PStr (fst a); PInt (snd a)].

Definition as_dict (self : Scope) : pyval :=
  PDict [("type", PStr (type self));
         ("http_version", PStr (http_version self));
         ("method", PStr (method self));
         ("headers", PList (map (fun h => PList (map PBytes h)) (headers self)));
         ("path", PStr (path self));
         ("raw_path", match raw_path self with
                      | Some p => PStr p
                      | None => PNone
                      end);
         ("root_path", PStr (root_path self));
         ("scheme", PStr (scheme self));
         ("query_string", PBytes (query_string self));
         ("server", py_address (server self));
         ("client", py_address (client self));
         ("asgi", str_dict (asgi self));
         ("aws.event", PDict (trigger_event self));
         ("aws.context", trigger_context self);
         ("aws.eventType", PStr (event_type self))].

End Scopes.

(** ** A concrete deployment *)

(** One table in one region, connection id ["abc"], a gateway that reports
    the connection ["abc"] as gone and ["def"] as forbidden, and two
    configuration dicts at references 0 and 1. *)
Definition example_table : table_key := (None, "us-east-1", "connections").

Definition example_backend : DynamoDBBackend :=
  {| table_name := "connections"; region_name := Some "us-east-1";
     endpoint_url := None; table := example_table |}.

Definition example_headers : list (string * string) := [("host", "example.org")].

Definition example_fields : dict :=
  [("type", PStr "websocket");
   ("path", PStr "/");
   ("headers", str_dict example_headers);
   ("scheme", PStr "wss");
   ("query_string", PStr "");
   ("server", PTuple [PStr "example.org"; PInt 80]);
   ("client", PTuple [PNone; PInt 0])].

Definition example_scope : pyval := PDict example_fields.

Definition example_doc : json :=
  JObj [("type", JStr "websocket");
        ("path", JStr "/");
        ("headers", JObj [("host", JStr "example.org")]);
        ("scheme", JStr "wss");
        ("query_string", JStr "");
        ("server", JArr [JStr "example.org"; JNum 80]);
        ("client", JArr [JNull; JNum 0])].

Definition example_item : item :=
  {| connectionId := "abc"; initial_scope := example_doc |}.

Definition gone : error_response := error_of "GoneException" 410.

Definition forbidden : error_response := error_of "ForbiddenException" 403.

Definition example_gateway (url c : string) (data : list Byte.byte) : option exn :=
  if String.eqb c "abc" then Some (ClientError gone)
  else if String.eqb c "def" then Some (ClientError forbidden)
  else None.

Definition sqlite3_config : dict :=
  [("backend", PStr "sqlite3"); ("file_path", PStr "mangum.sqlite3")].

Definition dynamodb_config : dict :=
  [("backend", PStr "dynamodb"); ("table_name", PStr "connections");
   ("region_name", PStr "us-east-1")].

(** No scope is stored. *)
Definition absent_world : world :=
  {| environ := ∅;
     heap := {[ 0%nat := sqlite3_config; 1%nat := dynamodb_config ]};
     tables := {[ example_table := ∅ ]};
     gateway := example_gateway;
     calls := [] |}.

(** The scope of ["abc"] is stored. *)
Definition open_world : world :=
  {| environ := ∅;
     heap := {[ 0%nat := sqlite3_config; 1%nat := dynamodb_config ]};
     tables := {[ example_table := {[ "abc" := example_item ]} ]};
     gateway := example_gateway;
     calls := [] |}.

(** The table does not exist. *)
Definition bare_world : world :=
  {| environ := ∅; heap := ∅; tables := ∅;
     gateway := example_gateway; calls := [] |}.

Definition example_websocket (c : string) : WebSocket unit :=
  {| connection_id := c;
     api_gateway_endpoint_url := "https://example.org/dev";
     ws_config := Some 1%nat;
     _backend := Some (DynamoDB example_backend);
     scope := None |}.

(** A local-file backend constructor that always succeeds. *)
Definition example_sqlite3 (kwargs : dict) : M unit := ret tt.

(** A cycle that answers with the messages it was given. *)
Definition example_cycle (cycle : WebSocketCycle) (app : unit) : M pyval :=
  ret (PList (cycle_queue cycle)).

Definition example_int (v : pyval) : result Z :=
  match v with
  | PInt n => Ok n
  | _ => Raise ValueError
  end.

Definition example_mangum (region table : option string) : Mangum unit :=
  {| app := tt; enable_lifespan := false; api_gateway_base_path := None;
     text_mime_types := None; app_ws_path := None;
     mangum_api_gateway_endpoint_url := None;
     dynamodb_region := region; dynamodb_table_name := table;
     dynamodb_endpoint := None; log_level := "info" |}.

Definition example_context (ty : string) : dict :=
  [("eventType", PStr ty); ("connectionId", PStr "abc");
   ("stage", PStr "dev"); ("domainName", PStr "example.org")].

Definition example_event (ty : string) : dict :=
  [("requestContext", PDict (example_context ty)); ("body", PStr "ping")].

Definition example_handle : Mangum unit -> dict -> pyval -> M pyval :=
  handle_ws example_cycle (fun s => s) example_int (fun _ => "").

(** *** More of the deployment *)

(** The world after the construction from the configuration at reference 1,
    and the object and the world after a fetch of ["abc"]. *)
Definition constructed_world : world :=
  snd (WebSocket_init example_sqlite3 "abc" "https://example.org/dev" (Some 1%nat)
         absent_world).

Definition fetched_websocket : WebSocket unit :=
  match fst (WebSocket_fetch (example_websocket "abc") open_world) with
  | Ok ws => ws
  | Raise _ => example_websocket "abc"
  end.

Definition fetched_world : world :=
  snd (WebSocket_fetch (example_websocket "abc") open_world).

Definition fetched_scope : pyval :=
  default PNone (scope fetched_websocket).

(** Two configurations that cannot work: a misspelt keyword and a backend
    that does not exist. *)
Definition misspelt_config : dict :=
  [("backend", PStr "dynamodb"); ("table", PStr "connections")].

Definition redis_config : dict := [("backend", PStr "redis")].

Definition misconfigured_world : world :=
  {| environ := ∅;
     heap := {[ 0%nat := misspelt_config; 1%nat := redis_config ]};
     tables := {[ example_table := ∅ ]};
     gateway := example_gateway;
     calls := [] |}.

(** A table whose item for ["abc"] lacks the query string. *)
Definition truncated_item : item :=
  {| connectionId := "abc";
     initial_scope := JObj [("type", JStr "websocket"); ("headers", JObj [])] |}.

Definition truncated_world : world :=
  {| environ := ∅; heap := ∅;
     tables := {[ example_table := {[ "abc" := truncated_item ]} ]};
     gateway := example_gateway;
     calls := [] |}.

(** [int] on the decimal digits of a port. *)
Fixpoint decimal (s : string) (acc : Z) : option Z :=
  match s with
  | EmptyString => Some acc
  | String c s' =>
      let n := Z.of_nat (nat_of_ascii c) - 48 in
      if (0 <=? n) && (n <=? 9) then decimal s' (10 * acc + n) else None
  end.

Definition example_port (v : pyval) : result Z :=
  match v with
  | PInt n => Ok n
  | PStr (String c s) =>
      match decimal (String c s) 0 with
      | Some n => Ok n
      | None => Raise ValueError
      end
  | PStr EmptyString => Raise ValueError
  | _ => Raise TypeError
  end.

Definition based_mangum : Mangum unit :=
  {| app := tt; enable_lifespan := true; api_gateway_base_path := Some "api";
     text_mime_types := Some ["text/plain"]; app_ws_path := None;
     mangum_api_gateway_endpoint_url := None;
     dynamodb_region := Some "us-east-1";
     dynamodb_table_name := Some "connections";
     dynamodb_endpoint := None; log_level := "info" |}.

(** A cycle that answers with the messages it was given, an [unquote] and
    an [urlencode] that change nothing, a [b64decode] of nothing, and a
    lifespan that is supported. *)
Definition example_http_cycle (cycle : HTTPCycle) (app : unit) : M pyval :=
  ret (PList (http_queue cycle)).

Definition example_unquote (v : pyval) : result pyval := Ok v.

Definition example_urlencode (v : pyval) : result string := Ok "".

Definition example_b64decode (v : pyval) : result (list Byte.byte) := Ok [].

Definition example_handler : Mangum unit -> dict -> pyval -> M pyval :=
  handler example_cycle (fun s => s) example_port (fun _ => "") example_unquote
    example_urlencode example_b64decode example_http_cycle (ret true) (ret tt).

Definition ping_event : dict :=
  [("requestContext", PDict [("eventType", PStr "PING");
                             ("connectionId", PStr "abc")])].

Definition ipv6_headers : dict := [("host", PStr "[::1]:8000")].

Definition ipv6_connect_event : dict :=
  [("requestContext", PDict (example_context "CONNECT"));
   ("headers", PDict ipv6_headers)].

(** A REST API event and an HTTP API event. *)
Definition rest_event : dict :=
  [("requestContext", PDict [("identity", PDict [("sourceIp", PStr "10.0.0.1")])]);
   ("multiValueQueryStringParameters", PNone);
   ("path", PStr "/api/users");
   ("httpMethod", PStr "GET");
   ("headers", PDict [("host", PStr "example.org")]);
   ("body", PNone)].

Definition http_api_event : dict :=
  [("requestContext",
    PDict [("http", PDict [("sourceIp", PStr "10.0.0.1");
                           ("path", PStr "/users");
                           ("method", PStr "POST")])]);
   ("rawQueryString", PStr "a=1");
   ("headers", PDict [("host", PStr "example.org:8000")]);
   ("body", PStr "hi")].

(** A cycle that answers with three fields of its scope. *)
Definition scope_cycle (cycle : HTTPCycle) (app : unit) : M pyval :=
  match http_scope cycle with
  | PDict d =>
      ret (PList [default PNone (dict_get "path" d);
                  default PNone (dict_get "query_string" d);
                  default PNone (dict_get "server" d)])
  | _ => raise TypeError
  end.

(** Headers that differ in case only, and an event with nothing but a
    request context. *)
Definition mixed_case_headers : dict :=
  [("Host", PStr "first.example.org"); ("Accept", PStr "*/*");
   ("HOST", PStr "second.example.org")].

Definition mixed_case_event : dict := [("headers", PDict mixed_case_headers)].

(** ASCII lower-casing, for the examples. *)
Definition ascii_lower (c : ascii) : ascii :=
  let n := nat_of_ascii c in
  if (Nat.leb 65 n && Nat.leb n 90)%bool then ascii_of_nat (n + 32) else c.

Fixpoint example_lower (s : string) : string :=
  match s with
  | EmptyString => EmptyString
  | String c s' => String (ascii_lower c) (example_lower s')
  end.

Definition bare_event : dict := [("requestContext", PDict [])].

(** Two REST events without [multiValueQueryStringParameters]: one whose
    request context names the caller, one whose [identity] is null. *)
Definition identified_event : dict :=
  [("requestContext", PDict [("identity", PDict [("sourceIp", PStr "10.0.0.1")])])].

Definition anonymous_event : dict :=
  [("requestContext", PDict [("identity", PNone)])].

(** The deployment with the management API out of reach: every post fails
    to connect. *)
Definition unreachable_gateway (url c : string) (data : list Byte.byte)
    : option exn :=
  Some EndpointConnectionError.

Definition unreachable_world : world :=
  {| environ := ∅;
     heap := {[ 0%nat := sqlite3_config; 1%nat := dynamodb_config ]};
     tables := {[ example_table := {[ "abc" := example_item ]} ]};
     gateway := unreachable_gateway;
     calls := [] |}.

(** The [str] whose one code point is the lone surrogate U+DC80, and a
    world in which the scope stored for ["abc"] has it as query string. *)
Definition lone_surrogate : string :=
  String (ascii_of_N 237) (String (ascii_of_N 178) (String (ascii_of_N 128) EmptyString)).

Definition surrogate_item : item :=
  {| connectionId := "abc";
     initial_scope := JObj [("headers", JObj []);
                            ("query_string", JStr lone_surrogate)] |}.

Definition surrogate_world : world :=
  {| environ := ∅;
     heap := ∅;
     tables := {[ example_table := {[ "abc" := surrogate_item ]} ]};
     gateway := example_gateway;
     calls := [] |}.

(** * Properties *)

(** ** Dictionaries *)

Lemma dict_get_del_eq (k : string) (d : dict) :
  dict_get k (dict_del k d) = None.
Proof.
  induction d as [|[k' v] d IH]; simpl; [reflexivity|].
  destruct (String.eqb k' k) eqn:E; simpl; [exact IH|].
  rewrite E. exact IH.
Qed.

Lemma dict_get_del_ne (k k' : string) (d : dict) :
  k <> k' -> dict_get k' (dict_del k d) = dict_get k' d.
Proof.
  intros Hne. induction d as [|[k0 v] d IH]; simpl; [reflexivity|].
  destruct (String.eqb k0 k) eqn:E; simpl.
  - apply String.eqb_eq in E. subst k0.
    destruct (String.eqb k k') eqn:E'; [|exact IH].
    apply String.eqb_eq in E'. contradiction.
  - destruct (String.eqb k0 k'); [reflexivity|exact IH].
Qed.

Lemma dict_get_None_notin (k : string) (d : dict) :
  dict_get k d = None <-> ~ In k (map fst d).
Proof.
  induction d as [|[k' v] d IH]; simpl; [tauto|].
  destruct (String.eqb k' k) eqn:E.
  - apply String.eqb_eq in E. split; [discriminate|]. intros H. exfalso. auto.
  - apply String.eqb_neq in E. rewrite IH. tauto.
Qed.

Lemma dict_set_fresh (k : string) (v : pyval) (d : dict) :
  ~ In k (map fst d) -> dict_set k v d = (d ++ [(k, v)])%list.
Proof.
  induction d as [|[k' v'] d IH]; simpl; intros Hk; [reflexivity|].
  destruct (String.eqb k' k) eqn:E.
  - apply String.eqb_eq in E. exfalso. auto.
  - f_equal. apply IH. tauto.
Qed.

Lemma dict_update_fresh (u acc : dict) :
  List.NoDup (map fst (acc ++ u)%list) -> dict_update acc u = (acc ++ u)%list.
Proof.
  revert acc. induction u as [|[k v] u IH]; intros acc Hnd; simpl.
  - unfold dict_update. simpl. symmetry. apply app_nil_r.
  - unfold dict_update in *. simpl.
    assert (Hk : ~ In k (map fst acc)).
    { rewrite map_app in Hnd. simpl in Hnd.
      apply List.NoDup_remove_2 in Hnd. intros Hin. apply Hnd.
      apply in_or_app. left. exact Hin. }
    rewrite (dict_set_fresh k v acc Hk).
    rewrite IH; rewrite <- app_assoc; simpl; [reflexivity|exact Hnd].
Qed.

Lemma dict_of_pairs_NoDup (d : dict) :
  List.NoDup (map fst d) -> dict_of_pairs d = d.
Proof. intros H. unfold dict_of_pairs. apply (dict_update_fresh d []). exact H. Qed.

(** ** Running computations *)

Ltac unfold_M :=
  unfold bind, ret, raise, lift, try_except, try_except_else in *.

(** ** The DynamoDB backend *)

Lemma put_item_duplicate (t : table_key) (it old : item) (w : world) :
  stored t (connectionId it) w = Some old ->
  put_item t it (Some (attribute_not_exists "connectionId")) w
  = (Raise ConditionalCheckFailed,
     log_call (PutItem t it (Some (attribute_not_exists "connectionId"))) w).
Proof.
  unfold stored, put_item. simpl.
  destruct (tables w !! t) as [tb|] eqn:Ht; simpl; [|discriminate].
  intros ->. reflexivity.
Qed.

Lemma put_item_fresh (t : table_key) (it : item) (tb : gmap string item) (w : world) :
  tables w !! t = Some tb ->
  tb !! connectionId it = None ->
  put_item t it (Some (attribute_not_exists "connectionId")) w
  = (Ok tt,
     set_tables (<[t := <[connectionId it := it]> tb]> (tables w))
       (log_call (PutItem t it (Some (attribute_not_exists "connectionId"))) w)).
Proof.
  intros Ht Hc. unfold put_item. simpl. rewrite Ht. simpl. rewrite Hc. reflexivity.
Qed.

Lemma fetch_present (b : DynamoDBBackend) (c : string) (it : item) (w : world) :
  stored (table b) c w = Some it ->
  DynamoDBBackend_fetch b c w
  = (Ok (initial_scope it), log_call (GetItem (table b) c) w).
Proof.
  unfold stored, DynamoDBBackend_fetch, get_item. unfold_M. simpl.
  destruct (tables w !! table b) as [tb|]; simpl; [|discriminate].
  intros ->. reflexivity.
Qed.

Lemma fetch_absent (b : DynamoDBBackend) (c : string) (w : world) :
  is_Some (tables w !! table b) ->
  stored (table b) c w = None ->
  DynamoDBBackend_fetch b c w
  = (Raise (WebSocketError (WsMsg ("Connection not found: " +:+ c))),
     log_call (GetItem (table b) c) w).
Proof.
  intros [tb Ht]. unfold stored, DynamoDBBackend_fetch, get_item. unfold_M. simpl.
  rewrite Ht. simpl. intros ->. reflexivity.
Qed.

Lemma delete_reachable (b : DynamoDBBackend) (c : string) (tb : gmap string item)
    (w : world) :
  tables w !! table b = Some tb ->
  DynamoDBBackend_delete b c w
  = (Ok tt,
     set_tables (<[table b := delete c tb]> (tables w))
       (log_call (DeleteItem (table b) c) w)).
Proof.
  intros Ht. unfold DynamoDBBackend_delete, delete_item. simpl. rewrite Ht.
  reflexivity.
Qed.

(** C2: a create for an id that already has a stored scope fails with the
    error of the failed conditional write, the store keeps the scope it
    had, and the only call made is that one conditional write (no read
    comes before it). *)
Theorem create_duplicate_fails (b : DynamoDBBackend) (c : string) (s2 : json)
    (old : item) (w : world) :
  stored (table b) c w = Some old ->
  exists w',
    DynamoDBBackend_create b c s2 w = (Raise ConditionalCheckFailed, w')
    /\ tables w' = tables w
    /\ stored (table b) c w' = Some old
    /\ calls w' = (calls w ++
         [PutItem (table b) {| connectionId := c; initial_scope := s2 |}
            (Some (attribute_not_exists "connectionId"))])%list.
Proof.
  intros Hold. unfold DynamoDBBackend_create.
  rewrite (put_item_duplicate _ _ old) by exact Hold.
  eexists. split; [reflexivity|]. repeat split. exact Hold.
Qed.

(** C5: fetching a non-empty id with no stored scope, whether never created
    or just deleted, raises the not-found [WebSocketError]; nothing is
    returned and the store is left as it was. *)
Theorem fetch_absent_not_found (b : DynamoDBBackend) (c : string) (w : world) :
  c <> "" ->
  is_Some (tables w !! table b) ->
  let not_found := WebSocketError (WsMsg ("Connection not found: " +:+ c)) in
  (stored (table b) c w = None ->
   exists w', DynamoDBBackend_fetch b c w = (Raise not_found, w')
              /\ tables w' = tables w)
  /\ (exists w1 w2, DynamoDBBackend_delete b c w = (Ok tt, w1)
                    /\ DynamoDBBackend_fetch b c w1 = (Raise not_found, w2)
                    /\ tables w2 = tables w1).
Proof.
  intros _ Hsome not_found. split.
  - intros Habs. rewrite fetch_absent by assumption.
    eexists. split; reflexivity.
  - destruct Hsome as [tb Ht].
    rewrite (delete_reachable b c tb w Ht).
    do 2 eexists. split; [reflexivity|].
    rewrite fetch_absent.
    + split; reflexivity.
    + simpl. rewrite lookup_insert_eq. eauto.
    + unfold stored. simpl. rewrite lookup_insert_eq. simpl.
      apply lookup_delete_eq.
Qed.

(** C8: with the table reachable, a delete of a non-empty id succeeds
    whether or not a scope is stored, a second delete succeeds too and
    changes nothing, and a delete of an absent id leaves the store as it
    was. *)
Theorem delete_idempotent (b : DynamoDBBackend) (c : string) (w : world) :
  c <> "" ->
  is_Some (tables w !! table b) ->
  exists w1 w2,
    DynamoDBBackend_delete b c w = (Ok tt, w1)
    /\ DynamoDBBackend_delete b c w1 = (Ok tt, w2)
    /\ stored (table b) c w1 = None
    /\ tables w2 = tables w1
    /\ (stored (table b) c w = None -> tables w1 = tables w).
Proof.
  intros _ [tb Ht].
  rewrite (delete_reachable b c tb w Ht).
  eexists. eexists. split; [reflexivity|].
  split.
  - apply delete_reachable. simpl. apply lookup_insert_eq.
  - split; [|split].
    + unfold stored. simpl. rewrite lookup_insert_eq. simpl. apply lookup_delete_eq.
    + simpl. rewrite insert_insert_eq. f_equal.
      apply delete_id. apply lookup_delete_eq.
    + unfold stored. rewrite Ht. simpl. intros Habs.
      rewrite (delete_id tb c Habs). apply insert_id. exact Ht.
Qed.

Lemma DynamoDBBackend_init_heap (name : string) (region endpoint : option string)
    (w : world) :
  heap (snd (DynamoDBBackend_init name region endpoint w)) = heap w.
Proof.
  unfold DynamoDBBackend_init, environ_getitem, describe_table. unfold_M.
  destruct (truthy_opt region); simpl.
  - destruct (tables w !! _); reflexivity.
  - destruct (environ w !! "AWS_REGION"); simpl; [|reflexivity].
    destruct (tables w !! _); reflexivity.
Qed.

Lemma DynamoDBBackend_kwargs_heap (kwargs : dict) (w : world) :
  heap (snd (DynamoDBBackend_kwargs kwargs w)) = heap w.
Proof.
  unfold DynamoDBBackend_kwargs.
  destruct (forallb _ _); [|reflexivity].
  destruct (dict_get "table_name" kwargs) as [tn|]; [|reflexivity].
  unfold_M.
  assert (Hrest : forall w',
    heap w' = heap w ->
    heap (snd (match expect_region (default PNone (dict_get "region_name" kwargs)) with
               | Ok rn =>
                   match expect_opt_str (dict_get "endpoint_url" kwargs) with
                   | Ok eu =>
                       match expect_str tn with
                       | Ok tn' => DynamoDBBackend_init tn' rn eu w'
                       | Raise e => (Raise e, w')
                       end
                   | Raise e => (Raise e, w')
                   end
               | Raise e => (Raise e, w')
               end)) = heap w).
  { intros w' Hw'.
    destruct (expect_region _); simpl; [|exact Hw'].
    destruct (expect_opt_str _); simpl; [|exact Hw'].
    destruct (expect_str tn); simpl; [|exact Hw'].
    rewrite DynamoDBBackend_init_heap. exact Hw'. }
  destruct (truthy (default PNone (dict_get "region_name" kwargs))).
  - apply Hrest. reflexivity.
  - unfold environ_getitem.
    destruct (environ w !! "AWS_REGION"); simpl; [|reflexivity].
    apply Hrest. reflexivity.
Qed.

(** ** JSON *)

Lemma pyval_nested_ind (P : pyval -> Prop) :
  P PNone ->
  (forall b, P (PBool b)) ->
  (forall n, P (PInt n)) ->
  (forall s, P (PStr s)) ->
  (forall bs, P (PBytes bs)) ->
  (forall xs, Forall P xs -> P (PList xs)) ->
  (forall xs, Forall P xs -> P (PTuple xs)) ->
  (forall kvs, Forall (fun kv => P (snd kv)) kvs -> P (PDict kvs)) ->
  forall v, P v.
Proof.
  intros HN HB HI HS HBy HL HT HD. fix IH 1.
  intros [ | b | n | s | bs | xs | xs | kvs].
  - exact HN.
  - apply HB.
  - apply HI.
  - apply HS.
  - apply HBy.
  - apply HL. revert xs. fix IHxs 1. intros [|x xs].
    + constructor.
    + constructor; [apply IH | apply IHxs].
  - apply HT. revert xs. fix IHxs 1. intros [|x xs].
    + constructor.
    + constructor; [apply IH | apply IHxs].
  - apply HD. revert kvs. fix IHkvs 1. intros [|[k x] kvs].
    + constructor.
    + constructor; [apply IH | apply IHkvs].
Qed.

Lemma loads_dumps_items (xs : list pyval) :
  Forall (fun x => forall j, py_wf x = true -> json_dumps x = Ok j ->
                             json_loads j = json_norm x) xs ->
  forall js, forallb py_wf xs = true ->
             traverse json_dumps xs = Ok js ->
             map json_loads js = map json_norm xs.
Proof.
  induction 1 as [|x xs Hx _ IH]; intros js Hwf Hd; simpl in *.
  - inversion Hd. reflexivity.
  - apply andb_true_iff in Hwf as [Hwx Hwxs].
    destruct (json_dumps x) as [j|e] eqn:Ex; [|discriminate].
    destruct (traverse json_dumps xs) as [js'|e] eqn:Et; [|discriminate].
    inversion Hd; subst. simpl. f_equal; auto.
Qed.

Lemma loads_dumps_fields (kvs : dict) :
  Forall (fun kv => forall j, py_wf (snd kv) = true -> json_dumps (snd kv) = Ok j ->
                              json_loads j = json_norm (snd kv)) kvs ->
  forall js, forallb (fun kv => py_wf (snd kv)) kvs = true ->
             traverse (fun kv => match json_dumps (snd kv) with
                                 | Raise e => Raise e
                                 | Ok j => Ok (fst kv, j)
                                 end) kvs = Ok js ->
             map (fun kv => (fst kv, json_loads (snd kv))) js
             = map (fun kv => (fst kv, json_norm (snd kv))) kvs.
Proof.
  induction 1 as [|[k x] kvs Hx _ IH]; intros js Hwf Hd; simpl in *.
  - inversion Hd. reflexivity.
  - apply andb_true_iff in Hwf as [Hwx Hwxs].
    destruct (json_dumps x) as [j|e] eqn:Ex; [|discriminate].
    destruct (traverse _ kvs) as [js'|e] eqn:Et; [|discriminate].
    inversion Hd; subst. simpl. f_equal; [f_equal|]; auto.
Qed.

(** Reading back what was written gives the value with its tuples turned
    into lists. *)
Lemma loads_dumps (v : pyval) :
  forall j, py_wf v = true -> json_dumps v = Ok j -> json_loads j = json_norm v.
Proof.
  induction v as [ | b | n | s | bs | xs IH | xs IH | kvs IH] using pyval_nested_ind;
    intros j Hwf Hd; simpl in *; try (inversion Hd; reflexivity).
  - destruct (traverse json_dumps xs) as [js|e] eqn:Et; [|discriminate].
    inversion Hd; subst. simpl. f_equal. apply loads_dumps_items; assumption.
  - destruct (traverse json_dumps xs) as [js|e] eqn:Et; [|discriminate].
    inversion Hd; subst. simpl. f_equal. apply loads_dumps_items; assumption.
  - apply andb_true_iff in Hwf as [Hnd Hwf].
    destruct (traverse _ kvs) as [js|e] eqn:Et; [|discriminate].
    inversion Hd; subst. simpl. f_equal.
    rewrite (loads_dumps_fields kvs IH js Hwf Et).
    apply dict_of_pairs_NoDup. rewrite map_map. simpl.
    apply NoDup_ListNoDup. apply bool_decide_eq_true in Hnd. exact Hnd.
Qed.

Lemma dict_get_norm (k : string) (d : dict) :
  dict_get k (map (fun kv => (fst kv, json_norm (snd kv))) d)
  = json_norm <$> dict_get k d.
Proof.
  induction d as [|[k' v] d IH]; simpl; [reflexivity|].
  destruct (String.eqb k' k); [reflexivity|exact IH].
Qed.

Lemma encode_pairs_str_dict (hs : list (string * string)) :
  encodable hs = true ->
  encode_pairs true (map (fun kv => (fst kv, PStr (snd kv))) hs)
  = Ok (map (fun kv => PList [PBytes (encode (fst kv)); PBytes (encode (snd kv))]) hs).
Proof.
  induction hs as [|[k v] hs IH]; simpl; [reflexivity|].
  intros H. apply andb_true_iff in H as [Hkv Hhs].
  apply andb_true_iff in Hkv as [Hk Hv].
  apply negb_true_iff in Hk, Hv. rewrite Hk, Hv, (IH Hhs). reflexivity.
Qed.

Section Facade.

Context {SQLite3Backend : Type} `{!WebSocketBackend SQLite3Backend}.
Variable SQLite3Backend_init : dict -> M SQLite3Backend.

Abbreviation new_WebSocket := (WebSocket_init SQLite3Backend_init).

Lemma pop_backend (l : nat) (d : dict) (tag : pyval) (w : world) :
  heap w !! l = Some d ->
  dict_get "backend" d = Some tag ->
  dict_pop l "backend" w = (Ok tag, popped l d w).
Proof. intros Hl Hd. unfold dict_pop. rewrite Hl. simpl. rewrite Hd. reflexivity. Qed.

Lemma deref_popped (l : nat) (d : dict) (w : world) :
  deref l (popped l d w) = (Ok (dict_del "backend" d), popped l d w).
Proof. unfold deref, popped. simpl. rewrite lookup_insert_eq. reflexivity. Qed.

Lemma WebSocket_init_no_backend (c url : string) (l : nat) (d : dict) (w : world) :
  heap w !! l = Some d ->
  dict_get "backend" d = None ->
  new_WebSocket c url (Some l) w = (Raise (KeyError "backend"), w).
Proof.
  intros Hl Hd. unfold WebSocket_init, WebSocket_post_init. simpl.
  unfold bind, dict_pop. rewrite Hl. simpl. rewrite Hd. reflexivity.
Qed.

Lemma WebSocket_init_heap (c url : string) (l : nat) (d : dict) (tag : pyval)
    (w : world) :
  (forall kw w0, heap (snd (SQLite3Backend_init kw w0)) = heap w0) ->
  heap w !! l = Some d ->
  dict_get "backend" d = Some tag ->
  heap (snd (new_WebSocket c url (Some l) w)) = <[l := dict_del "backend" d]> (heap w).
Proof.
  intros Hsql Hl Hd. unfold WebSocket_init, WebSocket_post_init. simpl.
  unfold bind at 1. rewrite (pop_backend l d tag w Hl Hd).
  unfold bind at 1.
  destruct (py_eq_str tag "sqlite3") eqn:Esq.
  - unfold bind at 1. rewrite deref_popped.
    unfold bind at 1.
    pose proof (Hsql (dict_del "backend" d) (popped l d w)) as Hh.
    destruct (SQLite3Backend_init (dict_del "backend" d) (popped l d w))
      as [[b|e] w2]; simpl in Hh; unfold ret; simpl.
    + destruct (py_eq_str tag "dynamodb") eqn:Edy.
      * destruct tag; try discriminate. simpl in Esq, Edy.
        apply String.eqb_eq in Esq. apply String.eqb_eq in Edy. congruence.
      * unfold raise. simpl. exact Hh.
    + exact Hh.
  - unfold ret at 1.
    destruct (py_eq_str tag "dynamodb").
    + unfold bind at 1. rewrite deref_popped. unfold bind.
      pose proof (DynamoDBBackend_kwargs_heap (dict_del "backend" d) (popped l d w)) as Hh.
      destruct (DynamoDBBackend_kwargs (dict_del "backend" d) (popped l d w))
        as [[b|e] w2]; simpl in Hh; unfold ret; simpl; exact Hh.
    + reflexivity.
Qed.

(** C9: constructing a [WebSocket] pops ["backend"] out of the caller's
    own [ws_config] dict: whatever the construction answers, the dict no
    longer has the key, and any later construction from the same dict
    raises [KeyError]; a dict that never had the key raises that
    [KeyError] too, not a [WebSocketError]. (The local-file backend's
    constructor gets a copy of the remaining entries and is taken to
    leave dict objects alone.) *)
Theorem post_init_pops_backend (c url : string) (l : nat) (d : dict) (w : world) :
  (forall kw w0, heap (snd (SQLite3Backend_init kw w0)) = heap w0) ->
  heap w !! l = Some d ->
  (forall tag, dict_get "backend" d = Some tag ->
     exists r w1,
       new_WebSocket c url (Some l) w = (r, w1)
       /\ heap w1 !! l = Some (dict_del "backend" d)
       /\ dict_get "backend" (dict_del "backend" d) = None
       /\ forall c2 url2,
            new_WebSocket c2 url2 (Some l) w1 = (Raise (KeyError "backend"), w1))
  /\ (dict_get "backend" d = None ->
      new_WebSocket c url (Some l) w = (Raise (KeyError "backend"), w)).
Proof.
  intros Hsql Hl. split.
  - intros tag Hd.
    pose proof (WebSocket_init_heap c url l d tag w Hsql Hl Hd) as Hh.
    destruct (new_WebSocket c url (Some l) w) as [r w1]. simpl in Hh.
    exists r, w1. split; [reflexivity|].
    assert (Hl1 : heap w1 !! l = Some (dict_del "backend" d))
      by (rewrite Hh; apply lookup_insert_eq).
    split; [exact Hl1|]. split; [apply dict_get_del_eq|].
    intros c2 url2.
    apply (WebSocket_init_no_backend c2 url2 l _ w1 Hl1), dict_get_del_eq.
  - intros Hd. apply (WebSocket_init_no_backend c url l d w Hl Hd).
Qed.

(** C4 (the defect): with the tag ["sqlite3"] the construction never
    succeeds. The local-file backend is built, but the second [if] is not
    an [elif]: its [else] branch then raises the invalid-backend
    [WebSocketError]. *)
Theorem sqlite3_tag_never_constructs (c url : string) (l : nat) (d : dict)
    (w : world) :
  heap w !! l = Some d ->
  dict_get "backend" d = Some (PStr "sqlite3") ->
  (exists e w', new_WebSocket c url (Some l) w = (Raise e, w'))
  /\ (forall b w1,
        SQLite3Backend_init (dict_del "backend" d) (popped l d w) = (Ok b, w1) ->
        new_WebSocket c url (Some l) w
        = (Raise (WebSocketError (WsFmt "Invalid backend specified: " (PStr "sqlite3"))),
           w1)).
Proof.
  intros Hl Hd.
  assert (Hrun : new_WebSocket c url (Some l) w
                 = match SQLite3Backend_init (dict_del "backend" d) (popped l d w) with
                   | (Ok _, w1) =>
                       (Raise (WebSocketError
                                 (WsFmt "Invalid backend specified: " (PStr "sqlite3"))),
                        w1)
                   | (Raise e, w1) => (Raise e, w1)
                   end).
  { unfold WebSocket_init, WebSocket_post_init. simpl.
    unfold bind at 1. rewrite (pop_backend l d _ w Hl Hd). simpl.
    unfold bind at 1. unfold bind at 1. rewrite deref_popped.
    unfold bind at 1.
    destruct (SQLite3Backend_init (dict_del "backend" d) (popped l d w))
      as [[b|e] w1]; reflexivity. }
  split.
  - rewrite Hrun.
    destruct (SQLite3Backend_init (dict_del "backend" d) (popped l d w))
      as [[b|e] w1]; eauto.
  - intros b w1 Hb. rewrite Hrun, Hb. reflexivity.
Qed.

(** The rest of the dispatch of C4 holds: the tag ["dynamodb"] selects the
    durable backend whenever its constructor succeeds, and any other tag
    but ["sqlite3"] raises the invalid-backend [WebSocketError]. *)
Lemma dynamodb_tag_selects_DynamoDB (c url : string) (l : nat) (d : dict)
    (w : world) (b : DynamoDBBackend) (w1 : world) :
  heap w !! l = Some d ->
  dict_get "backend" d = Some (PStr "dynamodb") ->
  DynamoDBBackend_kwargs (dict_del "backend" d) (popped l d w) = (Ok b, w1) ->
  new_WebSocket c url (Some l) w
  = (Ok {| connection_id := c; api_gateway_endpoint_url := url;
           ws_config := Some l; _backend := Some (DynamoDB b); scope := None |},
     w1).
Proof.
  intros Hl Hd Hb. unfold WebSocket_init, WebSocket_post_init. simpl.
  unfold bind at 1. rewrite (pop_backend l d _ w Hl Hd). simpl.
  unfold bind at 1. unfold ret at 1.
  unfold bind at 1. rewrite deref_popped. unfold bind. rewrite Hb. reflexivity.
Qed.

Lemma unknown_tag_is_invalid (c url : string) (l : nat) (d : dict) (tag : pyval)
    (w : world) :
  heap w !! l = Some d ->
  dict_get "backend" d = Some tag ->
  py_eq_str tag "sqlite3" = false ->
  py_eq_str tag "dynamodb" = false ->
  new_WebSocket c url (Some l) w
  = (Raise (WebSocketError (WsFmt "Invalid backend specified: " tag)), popped l d w).
Proof.
  intros Hl Hd Hs Hy. unfold WebSocket_init, WebSocket_post_init. simpl.
  unfold bind at 1. rewrite (pop_backend l d _ w Hl Hd).
  rewrite Hs, Hy. reflexivity.
Qed.

(** A [WebSocket] that was constructed holds the durable backend: no other
    path of [__post_init__] returns. *)
Lemma constructed_backend_is_DynamoDB (c url : string) (cfg : option nat)
    (w w' : world) (ws : WebSocket SQLite3Backend) :
  new_WebSocket c url cfg w = (Ok ws, w') ->
  exists b, _backend ws = Some (DynamoDB b).
Proof.
  unfold WebSocket_init, WebSocket_post_init. simpl.
  destruct cfg as [l|]; [|discriminate].
  unfold bind at 1.
  destruct (dict_pop l "backend" w) as [[tag|e] w1]; [|discriminate].
  unfold bind at 1.
  destruct (py_eq_str tag "sqlite3") eqn:Esq.
  - unfold bind at 1. unfold deref at 1. unfold bind at 1.
    destruct (SQLite3Backend_init _ w1) as [[b|e] w2]; [|discriminate].
    unfold ret at 1.
    destruct (py_eq_str tag "dynamodb") eqn:Edy; [|discriminate].
    destruct tag; try discriminate. simpl in Esq, Edy.
    apply String.eqb_eq in Esq. apply String.eqb_eq in Edy. congruence.
  - unfold ret at 1.
    destruct (py_eq_str tag "dynamodb"); [|discriminate].
    unfold bind at 1. unfold deref at 1. unfold bind.
    destruct (DynamoDBBackend_kwargs _ w1) as [[b|e] w2]; [|discriminate].
    unfold ret. intros H. inversion H. subst. simpl. eauto.
Qed.

(** The facade hands the errors of the backend on: a duplicate create and a
    fetch of an absent id fail as the backend does. *)
Lemma WebSocket_create_duplicate (self : WebSocket SQLite3Backend)
    (b : DynamoDBBackend) (s : pyval) (doc : json) (old : item) (w : world) :
  _backend self = Some (DynamoDB b) ->
  json_dumps s = Ok doc ->
  stored (table b) (connection_id self) w = Some old ->
  exists w',
    WebSocket_create self s w = (Raise ConditionalCheckFailed, w')
    /\ tables w' = tables w.
Proof.
  intros Hb Hd Hold. unfold WebSocket_create, get_backend. rewrite Hd, Hb.
  unfold_M. simpl.
  destruct (create_duplicate_fails b (connection_id self) doc old w Hold)
    as (w' & Hc & Ht & _).
  exists w'. split; assumption.
Qed.

Lemma WebSocket_fetch_absent (self : WebSocket SQLite3Backend)
    (b : DynamoDBBackend) (w : world) :
  _backend self = Some (DynamoDB b) ->
  is_Some (tables w !! table b) ->
  stored (table b) (connection_id self) w = None ->
  WebSocket_fetch self w
  = (Raise (WebSocketError
              (WsMsg ("Connection not found: " +:+ connection_id self))),
     log_call (GetItem (table b) (connection_id self)) w).
Proof.
  intros Hb Hs Habs. unfold WebSocket_fetch, get_backend. rewrite Hb.
  unfold bind at 1. unfold ret at 1. unfold bind at 1. simpl backend_fetch.
  rewrite (fetch_absent b _ w Hs Habs). reflexivity.
Qed.

Lemma delete_through_facade (self : WebSocket SQLite3Backend) (b : DynamoDBBackend)
    (w : world) :
  _backend self = Some (DynamoDB b) ->
  WebSocket_delete self w = DynamoDBBackend_delete b (connection_id self) w.
Proof. intros Hb. unfold WebSocket_delete, get_backend. rewrite Hb. reflexivity. Qed.

(** An exception of the transport that is not a [ClientError] is not
    caught at all. *)
Lemma post_to_connection_other_exception (self : WebSocket SQLite3Backend)
    (msg_data : list Byte.byte) (e : exn) (w : world) :
  gateway w (api_gateway_endpoint_url self) (connection_id self) msg_data = Some e ->
  (forall r, e <> ClientError r) ->
  WebSocket_post_to_connection self msg_data w
  = (Raise e,
     log_call (PostToConnection (api_gateway_endpoint_url self)
                 (connection_id self) msg_data) w).
Proof.
  intros Hgw Hne. unfold WebSocket_post_to_connection, try_except,
    apigw_post_to_connection. simpl. rewrite Hgw.
  destruct e; try reflexivity. exfalso. apply (Hne r). reflexivity.
Qed.

(** C3, as the code has it: whatever error the management API answers a
    post with, one of three things happens. A [ClientError] with status 410
    makes the connection delete its own stored scope and return normally
    (the connection id being a key and the store reachable). A
    [ClientError] with any other status raises [WebSocketError] around that
    error. An error that is not a [ClientError] (the endpoint cannot be
    reached, say) is not caught: it leaves as it is, not as a
    [WebSocketError]. In the last two cases the post is the only call made,
    so the stored scope is not deleted. *)
Theorem post_to_connection_gone_or_error (self : WebSocket SQLite3Backend)
    (b : DynamoDBBackend) (msg_data : list Byte.byte) (e : exn) (w : world) :
  _backend self = Some (DynamoDB b) ->
  gateway w (api_gateway_endpoint_url self) (connection_id self) msg_data = Some e ->
  let posted :=
    PostToConnection (api_gateway_endpoint_url self) (connection_id self) msg_data in
  (forall r, e = ClientError r ->
     status_code_of r = Some 410 ->
     connection_id self <> "" ->
     is_Some (tables w !! table b) ->
     exists w',
       WebSocket_post_to_connection self msg_data w = (Ok tt, w')
       /\ stored (table b) (connection_id self) w' = None
       /\ calls w'
          = (calls w ++ [posted; DeleteItem (table b) (connection_id self)])%list)
  /\ (forall r, e = ClientError r ->
        status_code_of r <> Some 410 ->
        WebSocket_post_to_connection self msg_data w
        = (Raise (WebSocketError (WsExc r)), log_call posted w))
  /\ ((forall r, e <> ClientError r) ->
      WebSocket_post_to_connection self msg_data w = (Raise e, log_call posted w)).
Proof.
  intros Hb Hgw posted.
  assert (Hpost : apigw_post_to_connection (api_gateway_endpoint_url self)
                    (connection_id self) msg_data w
                  = (Raise e, log_call posted w)).
  { unfold apigw_post_to_connection. simpl. rewrite Hgw. reflexivity. }
  split; [|split].
  - intros r -> H410 _ [tb Ht].
    unfold WebSocket_post_to_connection, try_except. rewrite Hpost.
    rewrite H410. rewrite bool_decide_eq_true_2 by reflexivity.
    rewrite (delete_through_facade self b _ Hb).
    rewrite (delete_reachable b _ tb) by exact Ht.
    eexists. split; [reflexivity|]. split.
    + unfold stored. simpl. rewrite lookup_insert_eq. simpl. apply lookup_delete_eq.
    + simpl. rewrite <- app_assoc. reflexivity.
  - intros r -> Hne.
    unfold WebSocket_post_to_connection, try_except. rewrite Hpost.
    rewrite bool_decide_eq_false_2 by exact Hne. reflexivity.
  - intros Hne. apply post_to_connection_other_exception; assumption.
Qed.

Lemma create_fresh (self : WebSocket SQLite3Backend) (b : DynamoDBBackend)
    (tb : gmap string item) (s : pyval) (doc : json) (w : world) :
  _backend self = Some (DynamoDB b) ->
  tables w !! table b = Some tb ->
  tb !! connection_id self = None ->
  json_dumps s = Ok doc ->
  let it := {| connectionId := connection_id self; initial_scope := doc |} in
  WebSocket_create self s w
  = (Ok tt,
     set_tables (<[table b := <[connection_id self := it]> tb]> (tables w))
       (log_call (PutItem (table b) it (Some (attribute_not_exists "connectionId"))) w)).
Proof.
  intros Hb Ht Hc Hd it. unfold WebSocket_create, get_backend. rewrite Hd, Hb.
  unfold_M. simpl. unfold DynamoDBBackend_create.
  apply (put_item_fresh (table b) it tb w Ht Hc).
Qed.

Lemma fetch_restores (self : WebSocket SQLite3Backend) (b : DynamoDBBackend)
    (d : dict) (doc : json) (q : string) (hs : list (string * string)) (w : world) :
  _backend self = Some (DynamoDB b) ->
  stored (table b) (connection_id self) w
  = Some {| connectionId := connection_id self; initial_scope := doc |} ->
  json_loads doc = json_norm (PDict d) ->
  dict_get "query_string" d = Some (PStr q) ->
  has_surrogate q = false ->
  dict_get "headers" d = Some (str_dict hs) ->
  encodable hs = true ->
  WebSocket_fetch self w
  = (Ok (set_scope
           (PDict (dict_update (map (fun kv => (fst kv, json_norm (snd kv))) d)
                     [("headers", restored_headers hs);
                      ("query_string", PBytes (encode q))]))
           self),
     log_call (GetItem (table b) (connection_id self)) w).
Proof.
  intros Hb Hst Hld Hq Hsq Hh Hhs. unfold WebSocket_fetch, get_backend. rewrite Hb.
  unfold bind at 1. unfold ret at 1.
  unfold bind at 1. simpl backend_fetch.
  rewrite (fetch_present b _ _ w Hst). simpl initial_scope.
  rewrite Hld. simpl json_norm.
  unfold py_getitem. rewrite !dict_get_norm, Hq, Hh. simpl fmap.
  rewrite map_map. cbn [fst snd json_norm].
  destruct hs as [|h hs].
  - unfold_M. simpl. rewrite Hsq. reflexivity.
  - unfold_M.
    change (truthy (PDict (map (fun x : string * string => (fst x, PStr (snd x)))
                             (h :: hs)))) with true.
    cbv beta iota. unfold py_items.
    rewrite (encode_pairs_str_dict _ Hhs). unfold py_encode. rewrite Hsq.
    reflexivity.
Qed.

(** C1, as the code has it: on a non-empty id with no stored scope, create
    followed by fetch succeeds and hands back the scope as JSON round-trips
    it (tuples come back as lists), except that a headers mapping that is
    not empty comes back as the list of its encoded [[key, value]] pairs
    and the query string comes back encoded as bytes; the scope is a
    serialisable mapping whose query string and header names and values
    are [str] without surrogates, so that they can be encoded. *)
Theorem create_fetch_restores (self : WebSocket SQLite3Backend)
    (b : DynamoDBBackend) (tb : gmap string item) (d : dict) (doc : json)
    (q : string) (hs : list (string * string)) (w : world) :
  _backend self = Some (DynamoDB b) ->
  connection_id self <> "" ->
  tables w !! table b = Some tb ->
  tb !! connection_id self = None ->
  py_wf (PDict d) = true ->
  json_dumps (PDict d) = Ok doc ->
  dict_get "query_string" d = Some (PStr q) ->
  has_surrogate q = false ->
  dict_get "headers" d = Some (str_dict hs) ->
  encodable hs = true ->
  exists w',
    (WebSocket_create self (PDict d) ;;; WebSocket_fetch self) w
    = (Ok (set_scope
             (PDict (dict_update (map (fun kv => (fst kv, json_norm (snd kv))) d)
                       [("headers", restored_headers hs);
                        ("query_string", PBytes (encode q))]))
             self),
       w').
Proof.
  intros Hb _ Ht Hc Hwf Hd Hq Hsq Hh Hhs.
  unfold bind. rewrite (create_fresh self b tb _ doc w Hb Ht Hc Hd).
  eexists. apply fetch_restores with (b := b) (doc := doc); try assumption.
  - unfold stored. simpl. rewrite lookup_insert_eq. simpl.
    apply lookup_insert_eq.
  - apply loads_dumps; assumption.
Qed.

End Facade.

(** ** The handler *)

Lemma DynamoDBBackend_init_ok (name : string) (region endpoint : option string)
    (r : string) (w : world) :
  or_opt region (environ w !! "AWS_REGION") = Some r ->
  is_Some (tables w !! (endpoint, r, name)) ->
  DynamoDBBackend_init name region endpoint w
  = (Ok {| table_name := name; region_name := region; endpoint_url := endpoint;
           table := (endpoint, r, name) |},
     log_call (DescribeTable (endpoint, r, name)) w).
Proof.
  intros Hr [tb Ht]. unfold DynamoDBBackend_init, or_opt in *.
  unfold bind at 1.
  destruct (truthy_opt region).
  - subst region. unfold ret at 1. simpl.
    unfold bind, try_except, describe_table. simpl. rewrite Ht. reflexivity.
  - unfold environ_getitem. rewrite Hr.
    unfold bind, try_except, describe_table. simpl. rewrite Ht. reflexivity.
Qed.

Lemma DynamoDBBackend_init_no_table (name : string) (region endpoint : option string)
    (r : string) (w : world) :
  or_opt region (environ w !! "AWS_REGION") = Some r ->
  tables w !! (endpoint, r, name) = None ->
  DynamoDBBackend_init name region endpoint w
  = (Raise (WebSocketError (WsExc (error_of "ResourceNotFoundException" 400))),
     log_call (DescribeTable (endpoint, r, name)) w).
Proof.
  intros Hr Ht. unfold DynamoDBBackend_init, or_opt in *.
  unfold bind at 1.
  destruct (truthy_opt region).
  - subst region. unfold ret at 1. simpl.
    unfold bind, try_except, describe_table. simpl. rewrite Ht. reflexivity.
  - unfold environ_getitem. rewrite Hr.
    unfold bind, try_except, describe_table. simpl. rewrite Ht. reflexivity.
Qed.

Lemma DynamoDBBackend_init_no_region (name : string) (region endpoint : option string)
    (w : world) :
  or_opt region (environ w !! "AWS_REGION") = None ->
  DynamoDBBackend_init name region endpoint w = (Raise (KeyError "AWS_REGION"), w).
Proof.
  intros Hr. unfold DynamoDBBackend_init, or_opt in *.
  unfold bind at 1.
  destruct (truthy_opt region) eqn:E.
  - subst region. discriminate.
  - unfold environ_getitem. rewrite Hr. reflexivity.
Qed.

Section Handler.

Context {ASGIApp : Type}.
Variable WebSocketCycle_call : WebSocketCycle -> ASGIApp -> M pyval.
Variable str_lower : string -> string.
Variable py_int : pyval -> result Z.
Variable py_format : pyval -> string.

Abbreviation handle :=
  (handle_ws WebSocketCycle_call str_lower py_int py_format).

(** The three branches of the handler, once the guard is passed and the
    event type is read. *)
Lemma handle_ws_unconfigured (self : Mangum ASGIApp) (event : dict)
    (context : pyval) (w : world) :
  configured self w = false ->
  handle self event context w = (Raise (WebSocketError (WsMsg guard_message)), w).
Proof.
  unfold configured. intros Hc. unfold handle_ws. simpl.
  unfold bind, environ_get, ret. simpl in *. rewrite Hc. reflexivity.
Qed.

Lemma handle_ws_message (self : Mangum ASGIApp) (event req : dict) (c : string)
    (stage domain : pyval) (context : pyval) (w : world) :
  configured self w = true ->
  ws_event event "MESSAGE" c req ->
  dict_get "stage" req = Some stage ->
  dict_get "domainName" req = Some domain ->
  handle self event context w
  = try_except_else
      (websocket <- Connection_init c (dynamodb_region self)
                      (dynamodb_table_name self) (dynamodb_endpoint self)
                      (mangum_api_gateway_endpoint_url self) ;;
       Connection_connect websocket)
      (except_WebSocketError (ret (status 500)))
      (fun websocket =>
         body <- lift (py_getitem (PDict event) "body") ;;
         WebSocketCycle_call
           {| cycle_websocket := websocket; cycle_log_level := log_level self;
              cycle_queue := message_queue self body |} (app self)) w.
Proof.
  unfold configured. intros Hc (Hreq & Hty & Hid) Hst Hdn.
  unfold handle_ws. simpl.
  unfold bind at 1. unfold ret at 1.
  unfold bind at 1. unfold environ_get.
  simpl in Hc. simpl. rewrite Hc. simpl.
  unfold bind at 1, lift at 1. rewrite Hreq.
  unfold bind at 1, lift at 1. simpl. rewrite Hty.
  unfold bind at 1, lift at 1. rewrite Hid. simpl.
  unfold bind at 1, lift at 1. rewrite Hst.
  unfold bind at 1, lift at 1. rewrite Hdn.
  unfold try_except_else. unfold bind at 1. unfold lift at 1. simpl.
  reflexivity.
Qed.

Lemma handle_ws_disconnect (self : Mangum ASGIApp) (event req : dict) (c : string)
    (context : pyval) (w : world) :
  configured self w = true ->
  ws_event event "DISCONNECT" c req ->
  handle self event context w
  = (websocket <- Connection_init c (dynamodb_region self)
                    (dynamodb_table_name self) (dynamodb_endpoint self)
                    (mangum_api_gateway_endpoint_url self) ;;
     Connection_disconnect websocket ;;;
     ret (status 200)) w.
Proof.
  unfold configured. intros Hc (Hreq & Hty & Hid).
  unfold handle_ws. simpl.
  unfold bind at 1. unfold ret at 1.
  unfold bind at 1. unfold environ_get.
  simpl in Hc. simpl. rewrite Hc. simpl.
  unfold bind at 1, lift at 1. rewrite Hreq.
  unfold bind at 1, lift at 1. simpl. rewrite Hty.
  unfold bind at 1, lift at 1. rewrite Hid. simpl.
  reflexivity.
Qed.


Lemma Connection_init_no_table (c name region : string) (r e url : option string)
    (w : world) :
  or_opt r (environ w !! "AWS_REGION") = Some region ->
  tables w !! (e, region, name) = None ->
  Connection_init c r (Some name) e url w
  = (Raise (WebSocketError (WsExc (error_of "ResourceNotFoundException" 400))),
     log_call (DescribeTable (e, region, name)) w).
Proof.
  intros Hr Ht. unfold Connection_init. unfold bind at 1. unfold environ_get.
  cbv beta iota. rewrite Hr. unfold bind.
  rewrite (DynamoDBBackend_init_no_table name r e region w Hr Ht). reflexivity.
Qed.

Lemma Connection_init_no_region (c name : string) (r e url : option string)
    (w : world) :
  or_opt r (environ w !! "AWS_REGION") = None ->
  Connection_init c r (Some name) e url w
  = (Raise (WebSocketError (WsMsg "A region is required.")), w).
Proof.
  intros Hr. unfold Connection_init. unfold bind at 1. unfold environ_get.
  cbv beta iota. rewrite Hr. reflexivity.
Qed.

(** What the clause [except WebSocketError] of the handler guards never
    raises a [WebSocketError], whatever the guarded block does. *)
Lemma try_except_WebSocketError {A} (m : M A) (x : A) (w : world) :
  forall a w',
    try_except m (except_WebSocketError (ret x)) w <> (Raise (WebSocketError a), w').
Proof.
  intros a w'. unfold try_except.
  destruct (m w) as [[y|e] w1]; [discriminate|].
  destruct e; simpl; discriminate.
Qed.

Lemma bind_no_WebSocketError {A B} (m : M A) (k : A -> M B) (w : world) :
  (forall a w', m w <> (Raise (WebSocketError a), w')) ->
  (forall y w1 a w', m w = (Ok y, w1) -> k y w1 <> (Raise (WebSocketError a), w')) ->
  forall a w', bind m k w <> (Raise (WebSocketError a), w').
Proof.
  intros Hm Hk a w'. unfold bind.
  destruct (m w) as [[y|e] w1] eqn:E.
  - apply (Hk y w1 a w' eq_refl).
  - intros H. inversion H; subst. apply (Hm a w'). reflexivity.
Qed.

Lemma lift_no_WebSocketError {A} (r : result A) (w : world) :
  (forall a, r <> Raise (WebSocketError a)) ->
  forall a w', lift r w <> (Raise (WebSocketError a), w').
Proof. intros Hr a w' H. unfold lift in H. inversion H. apply (Hr a). assumption. Qed.

Lemma py_get_no_WebSocketError (v : pyval) (k : string) (d : pyval) :
  forall a, py_get v k d <> Raise (WebSocketError a).
Proof. intros a. destruct v; simpl; discriminate. Qed.

Lemma lowered_headers_no_WebSocketError (event : dict) (w : world) :
  forall a w', lowered_headers str_lower event w <> (Raise (WebSocketError a), w').
Proof.
  intros a w'. unfold lowered_headers.
  destruct (truthy _); [|discriminate].
  unfold bind, lift, ret.
  destruct (py_items _) as [items|e] eqn:E; [discriminate|].
  destruct (default PNone (dict_get "headers" event)); simpl in E;
    inversion E; discriminate.
Qed.

Lemma get_server_no_WebSocketError (headers : dict) (w : world) :
  (forall v a, py_int v <> Raise (WebSocketError a)) ->
  forall a w', get_server py_int headers w <> (Raise (WebSocketError a), w').
Proof.
  intros Hint. unfold get_server.
  apply bind_no_WebSocketError.
  { apply lift_no_WebSocketError. intros a.
    destruct (default (PStr "mangum") (dict_get "host" headers)); simpl; discriminate. }
  intros has_colon w1 a w' _.
  apply bind_no_WebSocketError.
  { destruct (negb has_colon); [discriminate|].
    apply bind_no_WebSocketError.
    - apply lift_no_WebSocketError. intros a0.
      destruct (default (PStr "mangum") (dict_get "host" headers)); simpl; discriminate.
    - intros parts w2 a0 w0 _.
      destruct parts as [|x [|y [|z parts]]]; discriminate. }
  intros name_port w2 a0 w0 _.
  apply bind_no_WebSocketError.
  { apply lift_no_WebSocketError. apply Hint. }
  intros port w3 a1 w4 _. discriminate.
Qed.


(** The same store failure on a CONNECT event (one without headers, so
    that the server is the default one) is answered with status 500. *)
Lemma connect_failure_answers_500 (self : Mangum ASGIApp) (event req : dict)
    (c name region : string) (port : Z) (context : pyval) (w : world) :
  configured self w = true ->
  ws_event event "CONNECT" c req ->
  dict_get "headers" event = None ->
  dict_get "identity" req = None ->
  py_int (PInt 80) = Ok port ->
  dynamodb_table_name self = Some name ->
  or_opt (dynamodb_region self) (environ w !! "AWS_REGION") = Some region ->
  tables w !! (dynamodb_endpoint self, region, name) = None ->
  handle self event context w
  = (Ok (status 500),
     log_call (DescribeTable (dynamodb_endpoint self, region, name)) w).
Proof.
  unfold configured. intros Hc (Hreq & Hty & Hid) Hh Hidn Hport Hname Hr Ht.
  unfold handle_ws. simpl.
  unfold bind at 1. unfold ret at 1.
  unfold bind at 1. unfold environ_get.
  simpl in Hc. simpl. rewrite Hc. simpl.
  unfold bind at 1, lift at 1. rewrite Hreq.
  unfold bind at 1, lift at 1. simpl. rewrite Hty.
  unfold bind at 1, lift at 1. rewrite Hid. simpl.
  unfold bind at 1. unfold lowered_headers. rewrite Hh. simpl. unfold ret at 1.
  unfold bind at 1. unfold get_server. simpl.
  unfold bind at 1, lift at 1. simpl.
  unfold bind at 1, ret at 1. simpl.
  unfold bind at 1, lift at 1. rewrite Hport.
  unfold ret at 1.
  unfold bind at 1, lift at 1. rewrite Hidn. simpl.
  unfold bind at 1, lift at 1.
  unfold try_except. unfold bind at 1, lift at 1. simpl.
  unfold bind at 1. rewrite Hname.
  rewrite (Connection_init_no_table c name region _ _ _ w Hr Ht). reflexivity.
Qed.

(** C7 (the defect): with a table name and no region, neither in the
    configuration nor in the environment, the guard lets the event
    through ([any] where [all] is meant). On a CONNECT event the handler
    then cannot raise a [WebSocketError] at all: the scope is built
    without the store, and everything the connection does stands in the
    [try] whose [except WebSocketError] answers status 500. So the missing
    region is not reported by a raised configuration error, whatever the
    connection makes of it ([int] is supposed not to raise the adapter's
    own [WebSocketError]). *)
Theorem guard_passes_without_region (self : Mangum ASGIApp) (event req : dict)
    (c name : string) (context : pyval) (w : world) :
  (forall v a, py_int v <> Raise (WebSocketError a)) ->
  dynamodb_region self = None ->
  environ w !! "AWS_REGION" = None ->
  dynamodb_table_name self = Some name ->
  name <> "" ->
  ws_event event "CONNECT" c req ->
  configured self w = true
  /\ forall a w', handle self event context w <> (Raise (WebSocketError a), w').
Proof.
  intros Hint Hr Henv Hname Hne (Hreq & Hty & Hid).
  assert (Hc : configured self w = true).
  { unfold configured. rewrite Hr, Henv, Hname. simpl.
    destruct (String.eqb name "") eqn:E; [|reflexivity].
    apply String.eqb_eq in E. contradiction. }
  split; [exact Hc|].
  unfold configured in Hc. unfold handle_ws. simpl.
  unfold bind at 1. unfold ret at 1.
  unfold bind at 1. unfold environ_get.
  simpl in Hc. simpl. rewrite Hc. simpl.
  unfold bind at 1, lift at 1. rewrite Hreq.
  unfold bind at 1, lift at 1. simpl. rewrite Hty.
  unfold bind at 1, lift at 1. rewrite Hid. simpl.
  apply bind_no_WebSocketError; [apply lowered_headers_no_WebSocketError|].
  intros headers w1 a w' _.
  apply bind_no_WebSocketError; [apply get_server_no_WebSocketError; exact Hint|].
  intros server w2 a0 w0 _.
  apply bind_no_WebSocketError.
  { apply lift_no_WebSocketError. intros a1.
    first [discriminate | apply py_get_no_WebSocketError]. }
  intros identity w3 a1 w4 _.
  apply bind_no_WebSocketError.
  { apply lift_no_WebSocketError. intros a2.
    first [discriminate | apply py_get_no_WebSocketError]. }
  intros source_ip w5 a2 w6 _.
  apply try_except_WebSocketError.
Qed.

(** With the connection as the spec describes it, the missing region is
    answered with status 500 on a CONNECT event and on a MESSAGE event, and
    the store is not touched. *)
Lemma missing_region_answers_500 (self : Mangum ASGIApp) (c name : string)
    (context : pyval) (w : world) :
  dynamodb_region self = None ->
  environ w !! "AWS_REGION" = None ->
  dynamodb_table_name self = Some name ->
  name <> "" ->
  (forall event req port,
     ws_event event "CONNECT" c req ->
     dict_get "headers" event = None ->
     dict_get "identity" req = None ->
     py_int (PInt 80) = Ok port ->
     handle self event context w = (Ok (status 500), w))
  /\ (forall event req stage domain,
        ws_event event "MESSAGE" c req ->
        dict_get "stage" req = Some stage ->
        dict_get "domainName" req = Some domain ->
        handle self event context w = (Ok (status 500), w)).
Proof.
  intros Hr Henv Hname Hne.
  assert (Hc : configured self w = true).
  { unfold configured. rewrite Hr, Henv, Hname. simpl.
    destruct (String.eqb name "") eqn:E; [|reflexivity].
    apply String.eqb_eq in E. contradiction. }
  assert (Hnone : or_opt (dynamodb_region self) (environ w !! "AWS_REGION") = None).
  { rewrite Hr, Henv. reflexivity. }
  split.
  - intros event req port (Hreq & Hty & Hid) Hh Hidn Hport.
    unfold configured in Hc. unfold handle_ws. simpl.
    unfold bind at 1. unfold ret at 1.
    unfold bind at 1. unfold environ_get.
    simpl in Hc. simpl. rewrite Hc. simpl.
    unfold bind at 1, lift at 1. rewrite Hreq.
    unfold bind at 1, lift at 1. simpl. rewrite Hty.
    unfold bind at 1, lift at 1. rewrite Hid. simpl.
    unfold bind at 1. unfold lowered_headers. rewrite Hh. simpl. unfold ret at 1.
    unfold bind at 1. unfold get_server. simpl.
    unfold bind at 1, lift at 1. simpl.
    unfold bind at 1, ret at 1. simpl.
    unfold bind at 1, lift at 1. rewrite Hport.
    unfold ret at 1.
    unfold bind at 1, lift at 1. rewrite Hidn. simpl.
    unfold bind at 1, lift at 1.
    unfold try_except. unfold bind at 1, lift at 1. simpl.
    unfold bind at 1. rewrite Hname.
    rewrite (Connection_init_no_region c name _ _ _ w Hnone). reflexivity.
  - intros event req stage domain Hev Hst Hdn.
    rewrite (handle_ws_message self event req c stage domain context w Hc Hev Hst Hdn).
    unfold try_except_else, bind. rewrite Hname.
    rewrite (Connection_init_no_region c name _ _ _ w Hnone). reflexivity.
Qed.

(** C10: for a DISCONNECT event the handler answers status 200 whenever
    the connection is built and deleted without an exception, and an
    exception of either step leaves the handler as it is: with the table
    (of a non-empty name) missing the handler raises the [WebSocketError]
    of the constructor, where a MESSAGE event under the same configuration
    is answered with status 500. *)
Theorem disconnect_not_guarded (self : Mangum ASGIApp) (event req : dict)
    (c : string) (context : pyval) (w : world) :
  configured self w = true ->
  ws_event event "DISCONNECT" c req ->
  handle self event context w
  = match (websocket <- Connection_init c (dynamodb_region self)
                          (dynamodb_table_name self) (dynamodb_endpoint self)
                          (mangum_api_gateway_endpoint_url self) ;;
           Connection_disconnect websocket) w with
    | (Ok _, w') => (Ok (status 200), w')
    | (Raise e, w') => (Raise e, w')
    end
  /\ forall name region,
       dynamodb_table_name self = Some name ->
       name <> "" ->
       or_opt (dynamodb_region self) (environ w !! "AWS_REGION") = Some region ->
       let t := (dynamodb_endpoint self, region, name) in
       tables w !! t = None ->
       let failure := WebSocketError (WsExc (error_of "ResourceNotFoundException" 400)) in
       handle self event context w = (Raise failure, log_call (DescribeTable t) w)
       /\ forall event' req' stage domain,
            ws_event event' "MESSAGE" c req' ->
            dict_get "stage" req' = Some stage ->
            dict_get "domainName" req' = Some domain ->
            handle self event' context w
            = (Ok (status 500), log_call (DescribeTable t) w).
Proof.
  intros Hc Hev.
  rewrite (handle_ws_disconnect self event req c context w Hc Hev).
  split.
  - unfold bind.
    destruct (Connection_init c _ _ _ _ w) as [[ws|e] w1]; [|reflexivity].
    destruct (Connection_disconnect ws w1) as [[[]|e] w2]; reflexivity.
  - intros name region Hname _ Hr t Ht failure. split.
    + unfold bind. rewrite Hname.
      rewrite (Connection_init_no_table c name region _ _ _ w Hr Ht). reflexivity.
    + intros event' req' stage domain Hev' Hst Hdn.
      rewrite (handle_ws_message self event' req' c stage domain context w Hc Hev' Hst Hdn).
      unfold try_except_else, bind. rewrite Hname.
      rewrite (Connection_init_no_table c name region _ _ _ w Hr Ht). reflexivity.
Qed.

End Handler.

(** * The properties on the concrete deployment *)

Lemma create_duplicate_fails_witness :
  stored (table example_backend) "abc" open_world = Some example_item
  /\ exists w',
       DynamoDBBackend_create example_backend "abc" JNull open_world
       = (Raise ConditionalCheckFailed, w')
       /\ tables w' = tables open_world
       /\ stored (table example_backend) "abc" w' = Some example_item
       /\ calls w' = (calls open_world ++
            [PutItem (table example_backend)
               {| connectionId := "abc"; initial_scope := JNull |}
               (Some (attribute_not_exists "connectionId"))])%list.
Proof.
  split; [reflexivity|].
  apply (create_duplicate_fails example_backend "abc" JNull example_item open_world).
  reflexivity.
Defined.

Lemma fetch_absent_not_found_witness :
  "abc" <> ""
  /\ is_Some (tables absent_world !! table example_backend)
  /\ stored (table example_backend) "abc" absent_world = None
  /\ exists w',
       DynamoDBBackend_fetch example_backend "abc" absent_world
       = (Raise (WebSocketError (WsMsg "Connection not found: abc")), w')
       /\ tables w' = tables absent_world.
Proof.
  assert (Hne : "abc" <> "") by discriminate.
  assert (H : is_Some (tables absent_world !! table example_backend))
    by (eexists; reflexivity).
  split; [exact Hne|]. split; [exact H|]. split; [reflexivity|].
  exact (proj1 (fetch_absent_not_found example_backend "abc" absent_world Hne H)
           eq_refl).
Defined.

Lemma delete_idempotent_witness :
  "abc" <> ""
  /\ is_Some (tables open_world !! table example_backend)
  /\ exists w1 w2,
       DynamoDBBackend_delete example_backend "abc" open_world = (Ok tt, w1)
       /\ DynamoDBBackend_delete example_backend "abc" w1 = (Ok tt, w2)
       /\ stored (table example_backend) "abc" w1 = None
       /\ tables w2 = tables w1
       /\ (stored (table example_backend) "abc" open_world = None ->
           tables w1 = tables open_world).
Proof.
  assert (Hne : "abc" <> "") by discriminate.
  assert (H : is_Some (tables open_world !! table example_backend))
    by (eexists; reflexivity).
  split; [exact Hne|]. split; [exact H|].
  exact (delete_idempotent example_backend "abc" open_world Hne H).
Defined.

Lemma post_init_pops_backend_witness :
  (forall kw w0, heap (snd (example_sqlite3 kw w0)) = heap w0)
  /\ heap absent_world !! 1%nat = Some dynamodb_config
  /\ dict_get "backend" dynamodb_config = Some (PStr "dynamodb")
  /\ exists r w1,
       WebSocket_init example_sqlite3 "abc" "https://example.org/dev" (Some 1%nat)
         absent_world = (r, w1)
       /\ heap w1 !! 1%nat = Some (dict_del "backend" dynamodb_config)
       /\ dict_get "backend" (dict_del "backend" dynamodb_config) = None
       /\ forall c2 url2,
            WebSocket_init example_sqlite3 c2 url2 (Some 1%nat) w1
            = (Raise (KeyError "backend"), w1).
Proof.
  assert (H : forall kw w0, heap (snd (example_sqlite3 kw w0)) = heap w0)
    by (intros; reflexivity).
  split; [exact H|]. split; [reflexivity|]. split; [reflexivity|].
  exact (proj1 (post_init_pops_backend example_sqlite3 "abc"
                  "https://example.org/dev" 1%nat dynamodb_config absent_world
                  H eq_refl)
           (PStr "dynamodb") eq_refl).
Defined.

Lemma sqlite3_tag_never_constructs_witness :
  heap absent_world !! 0%nat = Some sqlite3_config
  /\ dict_get "backend" sqlite3_config = Some (PStr "sqlite3")
  /\ WebSocket_init example_sqlite3 "abc" "https://example.org/dev" (Some 0%nat)
       absent_world
     = (Raise (WebSocketError (WsFmt "Invalid backend specified: " (PStr "sqlite3"))),
        popped 0%nat sqlite3_config absent_world).
Proof.
  split; [reflexivity|]. split; [reflexivity|].
  exact (proj2 (sqlite3_tag_never_constructs example_sqlite3 "abc"
                  "https://example.org/dev" 0%nat sqlite3_config absent_world
                  eq_refl eq_refl)
           tt _ eq_refl).
Defined.

Lemma post_to_connection_gone_or_error_witness :
  _backend (example_websocket "abc") = Some (DynamoDB example_backend)
  /\ gateway open_world "https://example.org/dev" "abc" [] = Some (ClientError gone)
  /\ status_code_of gone = Some 410
  /\ "abc" <> ""
  /\ is_Some (tables open_world !! table example_backend)
  /\ exists w',
       WebSocket_post_to_connection (example_websocket "abc") [] open_world
       = (Ok tt, w')
       /\ stored (table example_backend) "abc" w' = None
       /\ calls w' = (calls open_world ++
            [PostToConnection "https://example.org/dev" "abc" [];
             DeleteItem (table example_backend) "abc"])%list.
Proof.
  assert (Hne : "abc" <> "") by discriminate.
  assert (H : is_Some (tables open_world !! table example_backend))
    by (eexists; reflexivity).
  split; [reflexivity|]. split; [reflexivity|]. split; [reflexivity|].
  split; [exact Hne|]. split; [exact H|].
  exact (proj1 (post_to_connection_gone_or_error (example_websocket "abc")
                  example_backend [] (ClientError gone) open_world eq_refl eq_refl)
           gone eq_refl eq_refl Hne H).
Defined.

(** C3 as the spec states it fails: when the management API cannot be
    reached the error leaves [post_to_connection] as it is, not as a
    [WebSocketError]. *)
Lemma transport_error_not_wrapped :
  WebSocket_post_to_connection (example_websocket "abc") [] unreachable_world
  = (Raise EndpointConnectionError,
     log_call (PostToConnection "https://example.org/dev" "abc" []) unreachable_world)
  /\ forall a w',
       WebSocket_post_to_connection (example_websocket "abc") [] unreachable_world
       <> (Raise (WebSocketError a), w').
Proof.
  split; [reflexivity|]. intros a w' H. discriminate H.
Defined.

Lemma create_fetch_restores_witness :
  _backend (example_websocket "abc") = Some (DynamoDB example_backend)
  /\ connection_id (example_websocket "abc") <> ""
  /\ tables absent_world !! table example_backend = Some ∅
  /\ (∅ : gmap string item) !! connection_id (example_websocket "abc") = None
  /\ py_wf example_scope = true
  /\ json_dumps example_scope = Ok example_doc
  /\ dict_get "query_string" example_fields = Some (PStr "")
  /\ has_surrogate "" = false
  /\ dict_get "headers" example_fields = Some (str_dict example_headers)
  /\ encodable example_headers = true
  /\ exists w',
       (WebSocket_create (example_websocket "abc") example_scope ;;;
        WebSocket_fetch (example_websocket "abc")) absent_world
       = (Ok (set_scope
                (PDict (dict_update
                          (map (fun kv => (fst kv, json_norm (snd kv))) example_fields)
                          [("headers", restored_headers example_headers);
                           ("query_string", PBytes (encode ""))]))
                (example_websocket "abc")),
          w').
Proof.
  assert (Hne : connection_id (example_websocket "abc") <> "") by discriminate.
  split; [reflexivity|]. split; [exact Hne|].
  repeat (split; [reflexivity|]).
  exact (create_fetch_restores (example_websocket "abc") example_backend ∅
           example_fields example_doc "" example_headers absent_world
           eq_refl Hne eq_refl eq_refl eq_refl eq_refl eq_refl eq_refl eq_refl
           eq_refl).
Defined.

(** C1 as the spec states it fails: the scope that comes back is not the
    scope that went in (its headers are a list of byte pairs, its query
    string is [bytes], its tuples are lists). *)
Lemma create_fetch_not_identity :
  exists self' w',
    (WebSocket_create (example_websocket "abc") example_scope ;;;
     WebSocket_fetch (example_websocket "abc")) absent_world
    = (Ok self', w')
    /\ scope self' <> Some example_scope.
Proof.
  eexists. eexists. split; [reflexivity|].
  simpl. intros H. discriminate H.
Defined.


Lemma guard_passes_without_region_witness :
  (forall v a, example_int v <> Raise (WebSocketError a))
  /\ environ bare_world !! "AWS_REGION" = None
  /\ "connections" <> ""
  /\ ws_event (example_event "CONNECT") "CONNECT" "abc" (example_context "CONNECT")
  /\ configured (example_mangum None (Some "connections")) bare_world = true
  /\ forall a w',
       example_handle (example_mangum None (Some "connections"))
         (example_event "CONNECT") PNone bare_world
       <> (Raise (WebSocketError a), w').
Proof.
  assert (Hint : forall v a, example_int v <> Raise (WebSocketError a))
    by (intros v a; destruct v; discriminate).
  assert (Hev : ws_event (example_event "CONNECT") "CONNECT" "abc"
                  (example_context "CONNECT"))
    by (repeat split; reflexivity).
  assert (Hne : "connections" <> "") by discriminate.
  split; [exact Hint|]. split; [reflexivity|]. split; [exact Hne|].
  split; [exact Hev|].
  exact (guard_passes_without_region example_cycle (fun s => s) example_int
           (fun _ => "") (example_mangum None (Some "connections"))
           (example_event "CONNECT") (example_context "CONNECT")
           "abc" "connections" PNone bare_world
           Hint eq_refl eq_refl eq_refl Hne Hev).
Defined.

Lemma disconnect_not_guarded_witness :
  configured (example_mangum (Some "us-east-1") (Some "connections")) bare_world = true
  /\ ws_event (example_event "DISCONNECT") "DISCONNECT" "abc"
       (example_context "DISCONNECT")
  /\ "connections" <> ""
  /\ example_handle (example_mangum (Some "us-east-1") (Some "connections"))
       (example_event "DISCONNECT") PNone bare_world
     = (Raise (WebSocketError (WsExc (error_of "ResourceNotFoundException" 400))),
        log_call (DescribeTable example_table) bare_world).
Proof.
  assert (Hev : ws_event (example_event "DISCONNECT") "DISCONNECT" "abc"
                  (example_context "DISCONNECT"))
    by (repeat split; reflexivity).
  assert (Hne : "connections" <> "") by discriminate.
  split; [reflexivity|]. split; [exact Hev|]. split; [exact Hne|].
  exact (proj1 (proj2 (disconnect_not_guarded example_cycle (fun s => s) example_int
                  (fun _ => "")
                  (example_mangum (Some "us-east-1") (Some "connections"))
                  (example_event "DISCONNECT") (example_context "DISCONNECT")
                  "abc" PNone bare_world eq_refl Hev)
           "connections" "us-east-1" eq_refl Hne eq_refl eq_refl)).
Defined.

(** ** Runs of the model *)

Example split_host_port :
  str_split ":" "example.org:8000" = ["example.org"; "8000"]
  /\ str_split ":" "mangum" = ["mangum"]
  /\ str_contains ":" "example.org:8000" = true
  /\ str_contains ":" "mangum" = false.
Proof. repeat split. Qed.

Example construct_dynamodb :
  fst (WebSocket_init example_sqlite3 "abc" "https://example.org/dev" (Some 1%nat)
         absent_world)
  = Ok (example_websocket "abc").
Proof. reflexivity. Qed.

Example create_then_fetch :
  fst ((WebSocket_create (example_websocket "abc") example_scope ;;;
        ws <- WebSocket_fetch (example_websocket "abc") ;;
        ret (scope ws)) absent_world)
  = Ok (Some (PDict [("type", PStr "websocket");
                     ("path", PStr "/");
                     ("headers", PList [PList [PBytes (encode "host");
                                               PBytes (encode "example.org")]]);
                     ("scheme", PStr "wss");
                     ("query_string", PBytes []);
                     ("server", PList [PStr "example.org"; PInt 80]);
                     ("client", PList [PNone; PInt 0])])).
Proof. reflexivity. Qed.

Example post_to_forbidden_connection :
  let r := WebSocket_post_to_connection (example_websocket "def") [] open_world in
  fst r = Raise (WebSocketError (WsExc forbidden))
  /\ tables (snd r) = tables open_world
  /\ calls (snd r) = [PostToConnection "https://example.org/dev" "def" []].
Proof. repeat split. Qed.

Example connect_then_message :
  let self := example_mangum (Some "us-east-1") (Some "connections") in
  fst ((example_handle self (example_event "CONNECT") PNone ;;;
        example_handle self (example_event "MESSAGE") PNone) absent_world)
  = Ok (PList (message_queue self (PStr "ping"))).
Proof. reflexivity. Qed.

Example connect_twice :
  let self := example_mangum (Some "us-east-1") (Some "connections") in
  fst ((example_handle self (example_event "CONNECT") PNone ;;;
        example_handle self (example_event "CONNECT") PNone) absent_world)
  = Ok (status 500).
Proof. reflexivity. Qed.

Example disconnect_then_message :
  let self := example_mangum (Some "us-east-1") (Some "connections") in
  let r := (first <- example_handle self (example_event "DISCONNECT") PNone ;;
            second <- example_handle self (example_event "MESSAGE") PNone ;;
            ret (first, second)) open_world in
  fst r = Ok (status 200, status 500)
  /\ stored example_table "abc" (snd r) = None.
Proof. split; reflexivity. Qed.

Example unconfigured_handler :
  fst (example_handle (example_mangum None None) (example_event "MESSAGE") PNone
         open_world)
  = Raise (WebSocketError (WsMsg guard_message)).
Proof. reflexivity. Qed.

Example table_name_alone :
  example_handle (example_mangum None (Some "connections"))
    (example_event "MESSAGE") PNone open_world
  = (Ok (status 500), open_world).
Proof. reflexivity. Qed.

Example region_alone :
  fst (example_handle (example_mangum (Some "us-east-1") None)
         (example_event "MESSAGE") PNone open_world)
  = Ok (status 500).
Proof. reflexivity. Qed.

Example fetch_lone_surrogate :
  has_surrogate lone_surrogate = true
  /\ has_surrogate "example.org" = false
  /\ fst (WebSocket_fetch (example_websocket "abc") surrogate_world)
     = Raise UnicodeEncodeError.
Proof. repeat split. Qed.

Example keyword_values_unchecked :
  fst (DynamoDBBackend_kwargs [("table_name", PInt 5)] bare_world)
  = Raise (KeyError "AWS_REGION")
  /\ fst (DynamoDBBackend_kwargs
            [("table_name", PStr "connections"); ("region_name", PInt 0)] bare_world)
     = Raise (KeyError "AWS_REGION")
  /\ DynamoDBBackend_kwargs
       [("table_name", PInt 5); ("region_name", PStr "us-east-1")] bare_world
     = (Raise ParamValidationError, bare_world).
Proof. repeat split. Qed.

(** * Further properties of the code *)

(** ** backends/dynamodb.py *)

(** X1: on a non-empty id with no stored scope, [create] then [fetch] hands
    back exactly the text that was created, and the fetch leaves it
    stored. *)
Theorem backend_create_then_fetch (b : DynamoDBBackend) (c : string) (doc : json)
    (tb : gmap string item) (w : world) :
  c <> "" ->
  tables w !! table b = Some tb ->
  tb !! c = None ->
  exists w1 w2,
    DynamoDBBackend_create b c doc w = (Ok tt, w1)
    /\ DynamoDBBackend_fetch b c w1 = (Ok doc, w2)
    /\ tables w2 = tables w1
    /\ stored (table b) c w2 = Some {| connectionId := c; initial_scope := doc |}.
Proof.
  intros _ Ht Hc. unfold DynamoDBBackend_create.
  pose proof (put_item_fresh (table b) {| connectionId := c; initial_scope := doc |}
                tb w Ht Hc) as Hput.
  simpl in Hput. rewrite Hput. clear Hput.
  do 2 eexists. split; [reflexivity|].
  assert (Hst : stored (table b) c
                  (set_tables
                     (<[table b := <[c := {| connectionId := c; initial_scope := doc |}]> tb]>
                        (tables w))
                     (log_call (PutItem (table b)
                                  {| connectionId := c; initial_scope := doc |}
                                  (Some (attribute_not_exists "connectionId"))) w))
                = Some {| connectionId := c; initial_scope := doc |}).
  { unfold stored. simpl. rewrite lookup_insert_eq. simpl. apply lookup_insert_eq. }
  rewrite (fetch_present b c _ _ Hst). simpl.
  split; [reflexivity|]. split; [reflexivity|]. exact Hst.
Qed.

(** X2: whatever their outcome, [create] and [delete] on one id leave the
    scope stored under every other id, and in every other table, as it
    was; [fetch] changes no table at all. *)
Theorem backend_other_ids_untouched (b : DynamoDBBackend) (c : string) (doc : json)
    (t' : table_key) (c' : string) (w : world) :
  t' <> table b \/ c' <> c ->
  stored t' c' (snd (DynamoDBBackend_create b c doc w)) = stored t' c' w
  /\ stored t' c' (snd (DynamoDBBackend_delete b c w)) = stored t' c' w
  /\ tables (snd (DynamoDBBackend_fetch b c w)) = tables w.
Proof.
  intros Hne. split; [|split].
  - unfold DynamoDBBackend_create, put_item. simpl.
    destruct (tables w !! table b) as [tb|] eqn:Ht; [|reflexivity].
    destruct (tb !! c) eqn:Hc; simpl; [reflexivity|].
    unfold stored. simpl.
    destruct (decide (t' = table b)) as [->|Hd].
    + rewrite lookup_insert_eq, Ht. simpl.
      destruct Hne as [Hn|Hn]; [contradiction|].
      apply lookup_insert_ne. congruence.
    + rewrite lookup_insert_ne by congruence. reflexivity.
  - unfold DynamoDBBackend_delete, delete_item. simpl.
    destruct (tables w !! table b) as [tb|] eqn:Ht; [|reflexivity].
    unfold stored. simpl.
    destruct (decide (t' = table b)) as [->|Hd].
    + rewrite lookup_insert_eq, Ht. simpl.
      destruct Hne as [Hn|Hn]; [contradiction|].
      apply lookup_delete_ne. congruence.
    + rewrite lookup_insert_ne by congruence. reflexivity.
  - unfold DynamoDBBackend_fetch, get_item. unfold_M. simpl.
    destruct (tables w !! table b) as [tb|]; [|reflexivity].
    destruct (tb !! c); reflexivity.
Qed.

(** X3: a [delete] undoes a [create]: after creating a scope under a free
    non-empty id and deleting it, the tables are exactly what they were, so
    the id can be created again. *)
Theorem create_then_delete_restores (b : DynamoDBBackend) (c : string) (doc : json)
    (tb : gmap string item) (w : world) :
  c <> "" ->
  tables w !! table b = Some tb ->
  tb !! c = None ->
  exists w1 w2,
    DynamoDBBackend_create b c doc w = (Ok tt, w1)
    /\ DynamoDBBackend_delete b c w1 = (Ok tt, w2)
    /\ tables w2 = tables w
    /\ forall doc', exists w3, DynamoDBBackend_create b c doc' w2 = (Ok tt, w3).
Proof.
  intros _ Ht Hc. unfold DynamoDBBackend_create.
  pose proof (put_item_fresh (table b) {| connectionId := c; initial_scope := doc |}
                tb w Ht Hc) as Hput.
  simpl in Hput. rewrite Hput. clear Hput.
  do 2 eexists. split; [reflexivity|].
  split.
  - apply delete_reachable. simpl. apply lookup_insert_eq.
  - assert (Hback : <[table b := delete c
                                   (<[c := {| connectionId := c; initial_scope := doc |}]> tb)]>
                      (<[table b := <[c := {| connectionId := c; initial_scope := doc |}]> tb]>
                         (tables w))
                    = tables w).
    { rewrite insert_insert_eq. rewrite delete_insert_eq.
      rewrite (delete_id tb c Hc). apply insert_id. exact Ht. }
    split.
    + simpl. exact Hback.
    + intros doc'. eexists.
      apply (put_item_fresh (table b) {| connectionId := c; initial_scope := doc' |} tb).
      * simpl. rewrite Hback. exact Ht.
      * exact Hc.
Qed.

(** X4: for a non-empty table name, the constructor resolves the region
    from its argument, or from [AWS_REGION] when the argument is [None] or
    empty; with neither it raises [KeyError] before any call to AWS. With
    a region it makes one [describe_table] call and nothing else: it
    returns the backend bound to that table when the table exists and
    raises [WebSocketError] around the [ClientError] when it does not. *)
Theorem DynamoDBBackend_init_outcome (name : string) (region endpoint : option string)
    (w : world) :
  name <> "" ->
  match or_opt region (environ w !! "AWS_REGION") with
  | None =>
      DynamoDBBackend_init name region endpoint w = (Raise (KeyError "AWS_REGION"), w)
  | Some r =>
      DynamoDBBackend_init name region endpoint w
      = (match tables w !! (endpoint, r, name) with
         | Some _ =>
             Ok {| table_name := name; region_name := region;
                   endpoint_url := endpoint; table := (endpoint, r, name) |}
         | None =>
             Raise (WebSocketError
                      (WsExc (error_of "ResourceNotFoundException" 400)))
         end,
         log_call (DescribeTable (endpoint, r, name)) w)
  end.
Proof.
  intros _.
  destruct (or_opt region (environ w !! "AWS_REGION")) as [r|] eqn:Hr.
  - destruct (tables w !! (endpoint, r, name)) as [tb|] eqn:Ht.
    + apply DynamoDBBackend_init_ok; [exact Hr | exists tb; exact Ht].
    + apply DynamoDBBackend_init_no_table; assumption.
  - apply DynamoDBBackend_init_no_region. exact Hr.
Qed.

(** ** websockets.py *)

Lemma dict_get_set_eq (k : string) (v : pyval) (d : dict) :
  dict_get k (dict_set k v d) = Some v.
Proof.
  induction d as [|[k' v'] d IH]; simpl.
  - rewrite String.eqb_refl. reflexivity.
  - destruct (String.eqb k' k) eqn:E; simpl; rewrite E; [reflexivity|exact IH].
Qed.

Lemma dict_get_set_ne (k k' : string) (v : pyval) (d : dict) :
  k <> k' -> dict_get k' (dict_set k v d) = dict_get k' d.
Proof.
  intros Hne. induction d as [|[k0 v0] d IH]; simpl.
  - destruct (String.eqb k k') eqn:E; [|reflexivity].
    apply String.eqb_eq in E. contradiction.
  - destruct (String.eqb k0 k) eqn:E; simpl.
    + apply String.eqb_eq in E. subst k0.
      destruct (String.eqb k k') eqn:E'; [|reflexivity].
      apply String.eqb_eq in E'. contradiction.
    + rewrite IH. reflexivity.
Qed.

Lemma dict_keys_set_present (k : string) (v x : pyval) (d : dict) :
  dict_get k d = Some x -> dict_keys (dict_set k v d) = dict_keys d.
Proof.
  unfold dict_keys. induction d as [|[k' v'] d IH]; simpl; [discriminate|].
  destruct (String.eqb k' k) eqn:E; simpl; [reflexivity|].
  intros H. rewrite (IH H). reflexivity.
Qed.

Lemma dict_get_In (k : string) (v : pyval) (d : dict) :
  dict_get k d = Some v -> In (k, v) d.
Proof.
  induction d as [|[k' v'] d IH]; simpl; [discriminate|].
  destruct (String.eqb k' k) eqn:E.
  - apply String.eqb_eq in E. intros H. inversion H. subst. left. reflexivity.
  - intros H. right. exact (IH H).
Qed.

Lemma traverse_raises {A B} (f : A -> result B) (E : exn) (l : list A) (x : A) :
  (forall y e, f y = Raise e -> e = E) ->
  In x l ->
  f x = Raise E ->
  traverse f l = Raise E.
Proof.
  intros Hall. induction l as [|y l IH]; simpl; [tauto|].
  intros [->|Hin] Hx.
  - rewrite Hx. reflexivity.
  - destruct (f y) as [z|e] eqn:Ey.
    + rewrite (IH Hin Hx). reflexivity.
    + rewrite (Hall y e Ey). reflexivity.
Qed.

Lemma traverse_raises_only {A B} (f : A -> result B) (E : exn) (l : list A) :
  Forall (fun y => forall e, f y = Raise e -> e = E) l ->
  forall e, traverse f l = Raise e -> e = E.
Proof.
  induction 1 as [|y l Hy _ IH]; simpl; intros e He; [discriminate|].
  destruct (f y) as [z|e'] eqn:Ey.
  - destruct (traverse f l) as [zs|e''] eqn:Et; [discriminate|].
    inversion He; subst. apply IH. reflexivity.
  - inversion He; subst. apply Hy. reflexivity.
Qed.

(** [json.dumps] raises nothing but [TypeError]. *)
Lemma json_dumps_raises_TypeError (v : pyval) :
  forall e, json_dumps v = Raise e -> e = TypeError.
Proof.
  induction v as [ | b | n | s | bs | xs IH | xs IH | kvs IH] using pyval_nested_ind;
    intros e He; simpl in He; try discriminate.
  - inversion He. reflexivity.
  - destruct (traverse json_dumps xs) as [js|e'] eqn:Et; [discriminate|].
    inversion He; subst. apply (traverse_raises_only json_dumps TypeError xs IH e Et).
  - destruct (traverse json_dumps xs) as [js|e'] eqn:Et; [discriminate|].
    inversion He; subst. apply (traverse_raises_only json_dumps TypeError xs IH e Et).
  - destruct (traverse _ kvs) as [js|e'] eqn:Et; [discriminate|].
    inversion He; subst.
    refine (traverse_raises_only _ TypeError kvs _ e Et).
    eapply Forall_impl; [exact IH|]. simpl. intros kv Hkv e0.
    destruct (json_dumps (snd kv)) as [j|e1] eqn:Ej; [discriminate|].
    intros H. inversion H; subst. apply Hkv. reflexivity.
Qed.

Lemma json_dumps_bytes_field (k : string) (bs : list Byte.byte) (d : dict) :
  dict_get k d = Some (PBytes bs) -> json_dumps (PDict d) = Raise TypeError.
Proof.
  intros Hk. simpl.
  rewrite (traverse_raises _ TypeError d (k, PBytes bs)).
  - reflexivity.
  - intros kv e. destruct (json_dumps (snd kv)) as [j|e1] eqn:Ej; [discriminate|].
    intros H. inversion H; subst. apply (json_dumps_raises_TypeError _ _ Ej).
  - apply dict_get_In. exact Hk.
  - reflexivity.
Qed.

Lemma encode_pairs_shape (keep : bool) (items : dict) (pairs : list pyval) :
  encode_pairs keep items = Ok pairs ->
  Forall (fun p => exists k v, p = PList [PBytes k; PBytes v]) pairs.
Proof.
  revert pairs. induction items as [|[k v] items IH]; simpl; intros pairs H.
  - inversion H. constructor.
  - destruct keep.
    + unfold py_encode in H.
      destruct (has_surrogate k); [discriminate|].
      destruct v; try discriminate.
      destruct (has_surrogate s); [discriminate|].
      destruct (encode_pairs true items) as [rest|e]; [|discriminate].
      inversion H; subst. constructor; [eauto|]. apply IH. reflexivity.
    + apply IH. exact H.
Qed.

Section FacadeMore.

Context {SQLite3Backend : Type} `{!WebSocketBackend SQLite3Backend}.
Variable SQLite3Backend_init : dict -> M SQLite3Backend.

(** What a successful [fetch] did. *)
Lemma fetch_inversion (self self' : WebSocket SQLite3Backend) (w w' : world) :
  WebSocket_fetch self w = (Ok self', w') ->
  exists b doc d q h h',
    _backend self = Some b
    /\ backend_fetch b (connection_id self) w = (Ok doc, w')
    /\ json_loads doc = PDict d
    /\ dict_get "query_string" d = Some (PStr q)
    /\ dict_get "headers" d = Some h
    /\ (if truthy h
        then exists items pairs,
               py_items h = Ok items /\ encode_pairs true items = Ok pairs
               /\ h' = PList pairs
        else h' = h)
    /\ self' = set_scope
                 (PDict (dict_update d [("headers", h');
                                        ("query_string", PBytes (encode q))]))
                 self.
Proof.
  unfold WebSocket_fetch, get_backend.
  destruct (_backend self) as [b|]; [|discriminate].
  unfold bind at 1. unfold ret at 1. unfold bind at 1.
  destruct (backend_fetch b (connection_id self) w) as [[doc|e] w1] eqn:Hf;
    [|discriminate].
  unfold bind at 1, lift at 1.
  destruct (json_loads doc) as [ | | | | | | |d] eqn:Hd; simpl; try discriminate.
  destruct (dict_get "query_string" d) as [qv|] eqn:Hq; [|discriminate].
  unfold bind at 1, lift at 1.
  destruct (dict_get "headers" d) as [h|] eqn:Hh; [|discriminate].
  unfold bind at 1.
  destruct (truthy h) eqn:Htr.
  - unfold bind at 1, lift at 1.
    destruct (py_items h) as [items|e] eqn:Hi; [|discriminate].
    unfold bind at 1, lift at 1.
    destruct (encode_pairs true items) as [pairs|e] eqn:Hp; [|discriminate].
    unfold ret at 1. unfold bind at 1, lift at 1.
    destruct qv; simpl; try discriminate.
    destruct (has_surrogate s); [discriminate|].
    unfold bind, lift, ret. simpl. intros H. inversion H; subst.
    exists b, doc, d, s, h, (PList pairs). rewrite Htr.
    repeat split; eauto.
  - unfold ret at 1. unfold bind at 1, lift at 1.
    destruct qv; simpl; try discriminate.
    destruct (has_surrogate s); [discriminate|].
    unfold bind, lift, ret. simpl. intros H. inversion H; subst.
    exists b, doc, d, s, h, h. rewrite Htr. repeat split; eauto.
Qed.

(** X5: a construction that succeeds was asked for the tag ["dynamodb"]:
    the object it returns holds the durable backend, the arguments it was
    given and no scope. *)
Theorem constructed_websocket (c url : string) (cfg : option nat) (w w' : world)
    (ws : WebSocket SQLite3Backend) :
  WebSocket_init SQLite3Backend_init c url cfg w = (Ok ws, w') ->
  exists l b,
    cfg = Some l
    /\ dict_get "backend" (default [] (heap w !! l)) = Some (PStr "dynamodb")
    /\ ws = {| connection_id := c; api_gateway_endpoint_url := url;
               ws_config := Some l; _backend := Some (DynamoDB b);
               scope := None |}.
Proof.
  unfold WebSocket_init, WebSocket_post_init. simpl.
  destruct cfg as [l|]; [|discriminate].
  unfold bind at 1. unfold dict_pop.
  destruct (dict_get "backend" (default [] (heap w !! l))) as [tag|] eqn:Htag;
    [|discriminate].
  unfold bind at 1.
  destruct (py_eq_str tag "sqlite3") eqn:Esq.
  - unfold bind at 1. unfold deref at 1. unfold bind at 1.
    destruct (SQLite3Backend_init _ _) as [[b|e] w2]; [|discriminate].
    unfold ret at 1.
    destruct (py_eq_str tag "dynamodb") eqn:Edy; [|discriminate].
    destruct tag; try discriminate. simpl in Esq, Edy.
    apply String.eqb_eq in Esq. apply String.eqb_eq in Edy. congruence.
  - unfold ret at 1.
    destruct (py_eq_str tag "dynamodb") eqn:Edy; [|discriminate].
    unfold bind at 1. unfold deref at 1. unfold bind.
    destruct (DynamoDBBackend_kwargs _ _) as [[b|e] w2]; [|discriminate].
    unfold ret. intros H. inversion H; subst.
    destruct tag; try discriminate. simpl in Edy. apply String.eqb_eq in Edy.
    subst. exists l, b. split; [reflexivity|]. split; [exact Htag|reflexivity].
Qed.

Lemma forallb_allowed_false (allowed : list string) (k : string) (ks : list string) :
  In k ks -> ~ In k allowed ->
  forallb (fun k => existsb (String.eqb k) allowed) ks = false.
Proof.
  intros Hin Hnot. apply not_true_is_false. intros Hall.
  rewrite forallb_forall in Hall. specialize (Hall k Hin).
  apply existsb_exists in Hall as (a & Ha & Heq).
  apply String.eqb_eq in Heq. subst. contradiction.
Qed.

Lemma In_keys_del (k k0 : string) (d : dict) :
  In k (dict_keys d) -> k <> k0 -> In k (dict_keys (dict_del k0 d)).
Proof.
  unfold dict_keys, dict_del. intros Hin Hne.
  apply in_map_iff in Hin as ([k' v] & Hk & Hin). simpl in Hk. subst k'.
  apply in_map_iff. exists (k, v). split; [reflexivity|].
  apply filter_In. split; [exact Hin|]. simpl.
  apply negb_true_iff. apply String.eqb_neq. exact Hne.
Qed.

(** X6: with the tag ["dynamodb"] the other entries of [ws_config] are the
    keyword arguments of the backend: an entry that is not one of its
    fields, or no [table_name] entry, makes the construction raise
    [TypeError] after the pop and before any call to AWS. *)
Theorem dynamodb_keyword_errors (c url : string) (l : nat) (d : dict) (w : world) :
  heap w !! l = Some d ->
  dict_get "backend" d = Some (PStr "dynamodb") ->
  (exists k, In k (dict_keys d)
             /\ ~ In k ["backend"; "table_name"; "region_name"; "endpoint_url"])
  \/ dict_get "table_name" d = None ->
  WebSocket_init SQLite3Backend_init c url (Some l) w
  = (Raise TypeError, popped l d w).
Proof.
  intros Hl Hd Hbad. unfold WebSocket_init, WebSocket_post_init. simpl.
  unfold bind at 1. rewrite (pop_backend l d _ w Hl Hd). simpl.
  unfold bind at 1. unfold ret at 1.
  unfold bind at 1. rewrite deref_popped. unfold bind.
  assert (Hkw : DynamoDBBackend_kwargs (dict_del "backend" d) (popped l d w)
                = (Raise TypeError, popped l d w)).
  { unfold DynamoDBBackend_kwargs.
    destruct (forallb _ (dict_keys (dict_del "backend" d))) eqn:Hall; [|reflexivity].
    destruct Hbad as [(k & Hin & Hnot)|Hnone].
    - rewrite (forallb_allowed_false ["table_name"; "region_name"; "endpoint_url"] k)
        in Hall; [discriminate| |].
      + apply In_keys_del; [exact Hin|]. intros ->. apply Hnot. left. reflexivity.
      + intros Hk. apply Hnot. right. exact Hk.
    - rewrite dict_get_del_ne by discriminate. rewrite Hnone. reflexivity. }
  rewrite Hkw. reflexivity.
Qed.

(** X7: a tag that is neither ["sqlite3"] nor ["dynamodb"] (a value that is
    not a [str] included) raises the invalid-backend [WebSocketError]; the
    pop is all that happened. *)
Theorem other_tag_is_invalid (c url : string) (l : nat) (d : dict) (tag : pyval)
    (w : world) :
  heap w !! l = Some d ->
  dict_get "backend" d = Some tag ->
  tag <> PStr "sqlite3" ->
  tag <> PStr "dynamodb" ->
  WebSocket_init SQLite3Backend_init c url (Some l) w
  = (Raise (WebSocketError (WsFmt "Invalid backend specified: " tag)), popped l d w).
Proof.
  intros Hl Hd Hs Hy.
  assert (Hne : forall s, tag <> PStr s -> py_eq_str tag s = false).
  { intros s Hn. destruct tag; try reflexivity. simpl.
    apply String.eqb_neq. congruence. }
  unfold WebSocket_init, WebSocket_post_init. simpl.
  unfold bind at 1. rewrite (pop_backend l d _ w Hl Hd).
  rewrite (Hne _ Hs), (Hne _ Hy). reflexivity.
Qed.

(** X8: whatever was stored, a [fetch] that succeeds leaves a scope that is
    a dict whose query string is [bytes] and whose headers are either the
    falsy value that was stored or a list of [[bytes, bytes]] pairs. *)
Theorem fetch_yields_bytes (self self' : WebSocket SQLite3Backend) (w w' : world) :
  WebSocket_fetch self w = (Ok self', w') ->
  exists d bs h,
    scope self' = Some (PDict d)
    /\ dict_get "query_string" d = Some (PBytes bs)
    /\ dict_get "headers" d = Some h
    /\ (truthy h = false
        \/ exists pairs,
             h = PList pairs
             /\ Forall (fun p => exists k v, p = PList [PBytes k; PBytes v]) pairs).
Proof.
  intros Hf.
  destruct (fetch_inversion self self' w w' Hf)
    as (b & doc & d & q & h & h' & _ & _ & _ & Hq & Hh & Hh' & ->).
  exists (dict_update d [("headers", h'); ("query_string", PBytes (encode q))]),
    (encode q), h'.
  unfold dict_update. simpl. split; [reflexivity|].
  split; [apply dict_get_set_eq|].
  split.
  - rewrite dict_get_set_ne by discriminate. apply dict_get_set_eq.
  - destruct (truthy h) eqn:Htr.
    + destruct Hh' as (items & pairs & _ & Hp & ->). right.
      exists pairs. split; [reflexivity|]. exact (encode_pairs_shape _ _ _ Hp).
    + subst h'. left. exact Htr.
Qed.

(** X9: a [fetch] that succeeds keeps the keys of the stored document, in
    their order, and the value of every key but ["headers"] and
    ["query_string"] as [json.loads] read it; the object keeps its
    connection id and its backend. *)
Theorem fetch_keeps_other_fields (self self' : WebSocket SQLite3Backend)
    (w w' : world) :
  WebSocket_fetch self w = (Ok self', w') ->
  exists b doc d d',
    _backend self = Some b
    /\ backend_fetch b (connection_id self) w = (Ok doc, w')
    /\ json_loads doc = PDict d
    /\ scope self' = Some (PDict d')
    /\ dict_keys d' = dict_keys d
    /\ (forall k, k <> "headers" -> k <> "query_string" ->
                  dict_get k d' = dict_get k d)
    /\ connection_id self' = connection_id self
    /\ _backend self' = _backend self.
Proof.
  intros Hf.
  destruct (fetch_inversion self self' w w' Hf)
    as (b & doc & d & q & h & h' & Hb & Hbf & Hd & Hq & Hh & _ & ->).
  exists b, doc, d,
    (dict_update d [("headers", h'); ("query_string", PBytes (encode q))]).
  unfold dict_update. simpl.
  repeat (split; [first [assumption | reflexivity]|]).
  split; [|split; [|split; reflexivity]].
  - rewrite (dict_keys_set_present "query_string" _ (PStr q)).
    + apply (dict_keys_set_present "headers" _ h). exact Hh.
    + rewrite dict_get_set_ne by discriminate. exact Hq.
  - intros k Hk1 Hk2.
    rewrite dict_get_set_ne by congruence.
    apply dict_get_set_ne. congruence.
Qed.

(** X10: a stored document that is not an object makes [fetch] raise
    [TypeError], one without ["query_string"] raises [KeyError] for that
    key, and one with it but without ["headers"] raises [KeyError] for
    ["headers"]; the read is the only thing that happened. *)
Theorem fetch_malformed_scope (self : WebSocket SQLite3Backend) (b : DynamoDBBackend)
    (it : item) (w : world) :
  _backend self = Some (DynamoDB b) ->
  stored (table b) (connection_id self) w = Some it ->
  let w' := log_call (GetItem (table b) (connection_id self)) w in
  ((forall d, json_loads (initial_scope it) <> PDict d) ->
   WebSocket_fetch self w = (Raise TypeError, w'))
  /\ (forall d, json_loads (initial_scope it) = PDict d ->
                dict_get "query_string" d = None ->
                WebSocket_fetch self w = (Raise (KeyError "query_string"), w'))
  /\ (forall d q, json_loads (initial_scope it) = PDict d ->
                  dict_get "query_string" d = Some q ->
                  dict_get "headers" d = None ->
                  WebSocket_fetch self w = (Raise (KeyError "headers"), w')).
Proof.
  intros Hb Hst w'.
  assert (Hfetch : WebSocket_fetch self w
                   = (let sc := json_loads (initial_scope it) in
                      query_string <- lift (py_getitem sc "query_string") ;;
                      headers <- lift (py_getitem sc "headers") ;;
                      headers <- (if truthy headers
                                  then
                                    items <- lift (py_items headers) ;;
                                    pairs <- lift (encode_pairs (truthy headers) items) ;;
                                    ret (PList pairs)
                                  else ret headers) ;;
                      query_string <- lift (py_encode query_string) ;;
                      sc <- lift (py_update sc [("headers", headers);
                                                ("query_string", query_string)]) ;;
                      ret (set_scope sc self)) w').
  { unfold WebSocket_fetch, get_backend. rewrite Hb.
    unfold bind at 1. unfold ret at 1. unfold bind at 1. simpl backend_fetch.
    rewrite (fetch_present b _ it w Hst). reflexivity. }
  rewrite Hfetch. clear Hfetch. cbv zeta.
  split; [|split].
  - intros Hnd. unfold bind at 1, lift at 1.
    destruct (json_loads (initial_scope it)) as [ | | | | | | |d]; try reflexivity.
    exfalso. apply (Hnd d). reflexivity.
  - intros d Hd Hq. rewrite Hd. unfold bind at 1, lift at 1. simpl.
    rewrite Hq. reflexivity.
  - intros d q Hd Hq Hh. rewrite Hd. unfold bind at 1, lift at 1. simpl.
    rewrite Hq. unfold bind at 1, lift at 1. rewrite Hh. reflexivity.
Qed.

(** X11: the scope a [fetch] hands back cannot be stored again: its query
    string is [bytes], so [create] with it raises [TypeError], for every
    connection and before anything is written. *)
Theorem fetched_scope_not_storable (self self' : WebSocket SQLite3Backend)
    (w w' : world) (sc : pyval) :
  WebSocket_fetch self w = (Ok self', w') ->
  scope self' = Some sc ->
  forall (other : WebSocket SQLite3Backend) (w2 : world),
    WebSocket_create other sc w2 = (Raise TypeError, w2).
Proof.
  intros Hf Hsc other w2.
  destruct (fetch_inversion self self' w w' Hf)
    as (b & doc & d & q & h & h' & _ & _ & _ & _ & _ & _ & ->).
  simpl in Hsc. inversion Hsc; subst sc. clear Hsc.
  unfold WebSocket_create, bind, lift.
  rewrite (json_dumps_bytes_field "query_string" (encode q)); [reflexivity|].
  unfold dict_update. simpl. apply dict_get_set_eq.
Qed.

(** X12: unless the management API answers with a [ClientError] of status
    410, posting a message touches no table: the post is the one call
    made, a delivered message returns normally, and an exception that is
    not a [ClientError] leaves as it is. *)
Theorem post_to_connection_store_untouched (self : WebSocket SQLite3Backend)
    (msg_data : list Byte.byte) (w : world) :
  let answer :=
    gateway w (api_gateway_endpoint_url self) (connection_id self) msg_data in
  (forall r, answer = Some (ClientError r) -> status_code_of r <> Some 410) ->
  let out := WebSocket_post_to_connection self msg_data w in
  snd out = log_call (PostToConnection (api_gateway_endpoint_url self)
                        (connection_id self) msg_data) w
  /\ (answer = None -> fst out = Ok tt)
  /\ (forall e, answer = Some e -> (forall r, e <> ClientError r) ->
                fst out = Raise e).
Proof.
  intros answer Hnot out. subst out answer.
  unfold WebSocket_post_to_connection, try_except, apigw_post_to_connection.
  simpl.
  destruct (gateway w (api_gateway_endpoint_url self) (connection_id self) msg_data)
    as [e|] eqn:Hg.
  - destruct e; simpl;
      try (split; [reflexivity|split; [discriminate|intros e' He' _; congruence]]).
    rewrite bool_decide_eq_false_2 by (apply Hnot; reflexivity). simpl.
    split; [reflexivity|]. split; [discriminate|].
    intros e' He' Hne. inversion He'; subst. exfalso. apply (Hne r). reflexivity.
  - simpl. split; [reflexivity|]. split; [reflexivity|]. discriminate.
Qed.

End FacadeMore.

(** ** adapter.py: the server address and the base path *)

Lemma append_cons (c : ascii) (a b : string) :
  String c a +:+ b = String c (a +:+ b).
Proof. reflexivity. Qed.

Lemma append_nil (b : string) : "" +:+ b = b.
Proof. reflexivity. Qed.

Lemma prefix_colon (c : ascii) (s : string) :
  String.prefix ":" (String c s) = Ascii.eqb c ":".
Proof.
  cbn [String.prefix]. destruct (ascii_dec ":" c) as [<-|Hne].
  - destruct s; reflexivity.
  - symmetry. apply Ascii.eqb_neq. congruence.
Qed.

Lemma str_split_nonempty (sep : ascii) (s : string) : str_split sep s <> [].
Proof.
  induction s as [|c s IH]; simpl; [discriminate|].
  destruct (Ascii.eqb c sep); [discriminate|].
  destruct (str_split sep s); discriminate.
Qed.

(** Without a colon there is one part, the string itself. *)
Lemma str_split_no_colon (s : string) :
  str_contains ":" s = false -> str_split ":" s = [s].
Proof.
  induction s as [|c s IH]; [reflexivity|].
  cbn [str_contains str_split]. rewrite prefix_colon.
  intros H. apply orb_false_iff in H as [Hc Hs].
  rewrite Hc, (IH Hs). reflexivity.
Qed.

Lemma str_split_app (a b : string) :
  str_contains ":" a = false ->
  str_split ":" (a +:+ String ":" b) = a :: str_split ":" b.
Proof.
  induction a as [|c a IH]; [reflexivity|].
  cbn [str_contains]. rewrite prefix_colon.
  intros H. apply orb_false_iff in H as [Hc Ha].
  rewrite append_cons. cbn [str_split]. rewrite Hc, (IH Ha). reflexivity.
Qed.

Lemma str_contains_app (a b : string) :
  str_contains ":" (a +:+ String ":" b) = true.
Proof.
  induction a as [|c a IH].
  - rewrite append_nil. cbn [str_contains]. rewrite prefix_colon. reflexivity.
  - rewrite append_cons. cbn [str_contains]. rewrite IH. apply orb_true_r.
Qed.

Lemma str_split_length_app (a b : string) :
  length (str_split ":" (a +:+ String ":" b))
  = (length (str_split ":" a) + length (str_split ":" b))%nat.
Proof.
  induction a as [|c a IH]; [reflexivity|].
  rewrite append_cons. cbn [str_split].
  destruct (Ascii.eqb c ":"); simpl; [rewrite IH; reflexivity|].
  pose proof (str_split_nonempty ":" (a +:+ String ":" b)) as H1.
  pose proof (str_split_nonempty ":" a) as H2.
  destruct (str_split ":" (a +:+ String ":" b)); [contradiction|].
  destruct (str_split ":" a); [contradiction|]. simpl in *. exact IH.
Qed.

Lemma prefix_app (a b : string) : String.prefix a (a +:+ b) = true.
Proof.
  induction a as [|c a IH]; [destruct b; reflexivity|].
  rewrite append_cons. cbn [String.prefix].
  destruct (ascii_dec c c); [exact IH|contradiction].
Qed.

Lemma str_drop_app (a b : string) : str_drop (String.length a) (a +:+ b) = b.
Proof. induction a as [|c a IH]; [destruct b; reflexivity|exact IH]. Qed.

(** Two colons give three parts at least. *)
Lemma str_split_two_colons (a b c : string) :
  exists p1 p2 p3 ps,
    str_split ":" (a +:+ String ":" (b +:+ String ":" c)) = p1 :: p2 :: p3 :: ps.
Proof.
  pose proof (str_split_length_app a (b +:+ String ":" c)) as Hlen.
  rewrite (str_split_length_app b c) in Hlen.
  pose proof (str_split_nonempty ":" a) as Ha.
  pose proof (str_split_nonempty ":" b) as Hb.
  pose proof (str_split_nonempty ":" c) as Hc.
  destruct (str_split ":" (a +:+ String ":" (b +:+ String ":" c)))
    as [|p1 [|p2 [|p3 ps]]]; [exfalso..|eauto];
    (destruct (str_split ":" a); [contradiction|]);
    (destruct (str_split ":" b); [contradiction|]);
    (destruct (str_split ":" c); [contradiction|]);
    simpl in Hlen; rewrite ?Nat.add_succ_r in Hlen; discriminate.
Qed.

Section AdapterMore.

Context {ASGIApp : Type}.
Variable WebSocketCycle_call : WebSocketCycle -> ASGIApp -> M pyval.
Variable str_lower : string -> string.
Variable py_int : pyval -> result Z.
Variable py_format : pyval -> string.
Variable unquote : pyval -> result pyval.
Variable urlencode : pyval -> result string.
Variable b64decode : pyval -> result (list Byte.byte).
Variable HTTPCycle_call : HTTPCycle -> ASGIApp -> M pyval.
Variable lifespan_is_supported : M bool.
Variable lifespan_shutdown : M unit.

(** X13: a host header without a colon (or no host header, the name is
    then ["mangum"]) gives that name, with the port read from
    [x-forwarded-port], 80 when that header is absent. *)
Theorem get_server_without_port (headers : dict) (host : string) (w : world) :
  default (PStr "mangum") (dict_get "host" headers) = PStr host ->
  str_contains ":" host = false ->
  get_server py_int headers w
  = (match py_int (default (PInt 80) (dict_get "x-forwarded-port" headers)) with
     | Ok port => Ok (PTuple [PStr host; PInt port])
     | Raise e => Raise e
     end, w).
Proof.
  intros Hhost Hno. unfold get_server. rewrite Hhost.
  unfold bind at 1, lift at 1. simpl py_contains. rewrite Hno. simpl negb.
  unfold bind at 1, ret at 1. unfold bind, lift. simpl.
  destruct (py_int _); reflexivity.
Qed.

(** X14: a host header ["name:port"] gives the name and the port of the
    header itself; [x-forwarded-port] is not looked at. *)
Theorem get_server_host_port (headers : dict) (name port : string) (w : world) :
  dict_get "host" headers = Some (PStr (name +:+ String ":" port)) ->
  str_contains ":" name = false ->
  str_contains ":" port = false ->
  get_server py_int headers w
  = (match py_int (PStr port) with
     | Ok p => Ok (PTuple [PStr name; PInt p])
     | Raise e => Raise e
     end, w).
Proof.
  intros Hhost Hn Hp. unfold get_server. rewrite Hhost. simpl default.
  unfold bind at 1, lift at 1. simpl py_contains.
  rewrite str_contains_app. simpl negb.
  unfold bind at 1. unfold bind at 1, lift at 1. simpl py_split_colon.
  rewrite (str_split_app name port Hn), (str_split_no_colon port Hp). simpl map.
  unfold ret at 1. unfold bind, lift. simpl.
  destruct (py_int (PStr port)); reflexivity.
Qed.

(** X15: a host header with two colons or more (an IPv6 literal, say)
    makes [get_server] raise [ValueError]. *)
Theorem get_server_two_colons (headers : dict) (a b c : string) (w : world) :
  dict_get "host" headers = Some (PStr (a +:+ String ":" (b +:+ String ":" c))) ->
  get_server py_int headers w = (Raise ValueError, w).
Proof.
  intros Hhost. unfold get_server. rewrite Hhost. simpl default.
  unfold bind at 1, lift at 1. simpl py_contains.
  rewrite str_contains_app. simpl negb.
  unfold bind at 1. unfold bind at 1, lift at 1. simpl py_split_colon.
  destruct (str_split_two_colons a b c) as (p1 & p2 & p3 & ps & ->).
  reflexivity.
Qed.

(** X16: with a base path configured, a path that starts with ["/"] and
    the base path loses that prefix, wherever the prefix ends, and a path
    that does not is kept; in both cases an empty remainder becomes
    ["/"] and the result is unquoted. *)
Theorem strip_base_path_prefix (self : Mangum ASGIApp) (base : string) :
  api_gateway_base_path self = Some base ->
  base <> "" ->
  (forall rest,
     strip_base_path unquote self (PStr ("/" +:+ base +:+ rest))
     = unquote (PStr (if String.eqb rest "" then "/" else rest)))
  /\ (forall p,
        String.prefix ("/" +:+ base) p = false ->
        strip_base_path unquote self (PStr p)
        = unquote (PStr (if String.eqb p "" then "/" else p))).
Proof.
  intros Hbase Hne.
  assert (Htr : truthy_opt (api_gateway_base_path self) = true).
  { rewrite Hbase. simpl. apply negb_true_iff. apply String.eqb_neq. exact Hne. }
  split.
  - intros rest. unfold strip_base_path. rewrite Htr, Hbase. simpl default.
    change ("/" +:+ base +:+ rest) with (("/" +:+ base) +:+ rest).
    rewrite prefix_app, str_drop_app. simpl truthy.
    destruct (String.eqb rest ""); reflexivity.
  - intros p Hp. unfold strip_base_path. rewrite Htr, Hbase. simpl default.
    rewrite Hp. simpl truthy. destruct (String.eqb p ""); reflexivity.
Qed.

(** ** adapter.py: the handlers *)

Abbreviation handle_ws' :=
  (handle_ws WebSocketCycle_call str_lower py_int py_format).

Abbreviation handle_http' :=
  (handle_http str_lower py_int unquote urlencode b64decode HTTPCycle_call).

Abbreviation handler' :=
  (handler WebSocketCycle_call str_lower py_int py_format unquote urlencode
     b64decode HTTPCycle_call lifespan_is_supported lifespan_shutdown).

Lemma lowered_headers_pure (event : dict) :
  exists r, forall w, lowered_headers str_lower event w = (r, w).
Proof.
  unfold lowered_headers.
  destruct (truthy (default PNone (dict_get "headers" event))).
  - unfold bind, lift, ret.
    destruct (py_items (default PNone (dict_get "headers" event))); eauto.
  - eexists. reflexivity.
Qed.

Lemma get_server_pure (headers : dict) :
  exists r, forall w, get_server py_int headers w = (r, w).
Proof.
  unfold get_server, bind, lift, ret, raise.
  destruct (py_contains ":" _) as [[|]|e]; simpl; eauto.
  - destruct (py_split_colon _) as [[|p1 [|p2 [|p3 ps]]]|e]; simpl; eauto.
    destruct (py_int p2); eauto.
  - destruct (py_int _); eauto.
Qed.

(** X17: an event whose type is none of CONNECT, MESSAGE and DISCONNECT is
    answered with status 200 and nothing is done: no call to AWS, no
    change of the world. *)
Theorem handle_ws_other_event_type (self : Mangum ASGIApp) (event req : dict)
    (ty cid context : pyval) (w : world) :
  configured self w = true ->
  dict_get "requestContext" event = Some (PDict req) ->
  dict_get "eventType" req = Some ty ->
  dict_get "connectionId" req = Some cid ->
  ty <> PStr "CONNECT" -> ty <> PStr "MESSAGE" -> ty <> PStr "DISCONNECT" ->
  handle_ws' self event context w = (Ok (status 200), w).
Proof.
  unfold configured. intros Hc Hreq Hty Hid H1 H2 H3.
  assert (Hne : forall s, ty <> PStr s -> py_eq_str ty s = false).
  { intros s Hn. destruct ty; try reflexivity. simpl.
    apply String.eqb_neq. congruence. }
  unfold handle_ws. simpl.
  unfold bind at 1. unfold ret at 1.
  unfold bind at 1. unfold environ_get.
  simpl in Hc. simpl. rewrite Hc. simpl.
  unfold bind at 1, lift at 1. rewrite Hreq.
  unfold bind at 1, lift at 1. simpl. rewrite Hty.
  unfold bind at 1, lift at 1. rewrite Hid.
  rewrite (Hne _ H1), (Hne _ H2), (Hne _ H3). reflexivity.
Qed.

(** X18: on a CONNECT event the headers are parsed before the [try]: a
    host header with two colons makes the handler raise [ValueError]; it
    is not answered with status 500, and the store is not reached. *)
Theorem connect_bad_host_escapes (self : Mangum ASGIApp) (event req hs : dict)
    (cid a b c : string) (context : pyval) (w : world) :
  configured self w = true ->
  ws_event event "CONNECT" cid req ->
  dict_get "headers" event = Some (PDict hs) ->
  hs <> [] ->
  dict_get "host" (dict_of_pairs (map (fun kv => (str_lower (fst kv), snd kv)) hs))
  = Some (PStr (a +:+ String ":" (b +:+ String ":" c))) ->
  handle_ws' self event context w = (Raise ValueError, w).
Proof.
  unfold configured. intros Hc (Hreq & Hty & Hid) Hh Hne Hhost.
  unfold handle_ws. simpl.
  unfold bind at 1. unfold ret at 1.
  unfold bind at 1. unfold environ_get.
  simpl in Hc. simpl. rewrite Hc. simpl.
  unfold bind at 1, lift at 1. rewrite Hreq.
  unfold bind at 1, lift at 1. simpl. rewrite Hty.
  unfold bind at 1, lift at 1. rewrite Hid. simpl.
  unfold bind at 1. unfold lowered_headers. rewrite Hh.
  change (default PNone (Some (PDict hs))) with (PDict hs).
  assert (Htr : truthy (PDict hs) = true) by (destruct hs; [contradiction|reflexivity]).
  rewrite Htr. unfold bind at 1, lift at 1. simpl py_items. unfold ret at 1.
  unfold bind at 1. unfold get_server. rewrite Hhost.
  change (default (PStr "mangum") (Some (PStr (a +:+ String ":" (b +:+ String ":" c)))))
    with (PStr (a +:+ String ":" (b +:+ String ":" c))).
  unfold bind at 1, lift at 1. simpl py_contains.
  rewrite str_contains_app. simpl negb.
  unfold bind at 1. unfold bind at 1, lift at 1. simpl py_split_colon.
  destruct (str_split_two_colons a b c) as (p1 & p2 & p3 & ps & ->).
  reflexivity.
Qed.

(** X19: with no region in the configuration or in [AWS_REGION] and no
    table name (an empty string counts as none), every event, whatever it
    holds, is refused with the guard's [WebSocketError]; the event is not
    read and the world is untouched. *)
Theorem handle_ws_requires_configuration (self : Mangum ASGIApp) (w : world) :
  truthy_opt (dynamodb_region self) = false ->
  truthy_opt (environ w !! "AWS_REGION") = false ->
  truthy_opt (dynamodb_table_name self) = false ->
  forall event context,
    handle_ws' self event context w
    = (Raise (WebSocketError (WsMsg guard_message)), w).
Proof.
  intros Hr He Ht event context. unfold handle_ws. simpl.
  unfold bind, environ_get, ret, or_opt. simpl.
  rewrite Hr, He, Ht. reflexivity.
Qed.

(** How [handle_http] ends: with an exception, the world untouched, or in
    the run of a cycle whose parts are these. *)
Lemma handle_http_cases (self : Mangum ASGIApp) (event : dict) (context : pyval)
    (is_http_api : bool) (w : world) (P : result pyval * world -> Prop) :
  (forall e, P (Raise e, w)) ->
  (forall d body,
     dict_keys d = ["type"; "http_version"; "method"; "headers"; "path";
                    "raw_path"; "root_path"; "scheme"; "query_string";
                    "server"; "client"; "asgi"; "aws.event"; "aws.context"] ->
     (if is_http_api
      then dict_get "query_string" d
           = Some (default PNone (dict_get "rawQueryString" event))
      else exists bs, dict_get "query_string" d = Some (PBytes bs)) ->
     (let given := default PNone (dict_get "body" event) in
      let b0 := if truthy given then given else PBytes [] in
      if truthy (default (PBool false) (dict_get "isBase64Encoded" event))
      then b64decode b0 = Ok body
      else b0 = PBytes body \/ exists s, b0 = PStr s /\ body = encode s) ->
     P (HTTPCycle_call
          {| http_scope := PDict d;
             http_text_mime_types :=
               match text_mime_types self with
               | Some (t :: ts) => ((t :: ts) ++ DEFAULT_TEXT_MIME_TYPES)%list
               | _ => DEFAULT_TEXT_MIME_TYPES
               end;
             http_log_level := log_level self;
             http_queue := [PDict [("type", PStr "http.request");
                                   ("body", PBytes body);
                                   ("more_body", PBool false)]] |}
          (app self) w)) ->
  P (handle_http' self event context is_http_api w).
Proof.
  intros Hraise Hcall. unfold handle_http.
  unfold bind at 1, lift at 1.
  destruct (py_getitem (PDict event) "requestContext") as [req|e]; [|apply Hraise].
  unfold bind at 1.
  assert (Hrest : forall (parts : pyval * pyval * pyval * pyval),
             (if is_http_api
              then snd (fst (fst parts)) = default PNone (dict_get "rawQueryString" event)
              else exists bs, snd (fst (fst parts)) = PBytes bs) ->
             P ((fun parts : pyval * pyval * pyval * pyval =>
                   let source_ip := fst (fst (fst parts)) in
                   let query_string := snd (fst (fst parts)) in
                   let path := snd (fst parts) in
                   let http_method := snd parts in
                   headers <- lowered_headers str_lower event ;;
                   server <- get_server py_int headers ;;
                   let client := PTuple [source_ip; PInt 0] in
                   encoded_headers <- lift (encode_pairs true headers) ;;
                   stripped <- lift (strip_base_path unquote self path) ;;
                   let scope :=
                     PDict [("type", PStr "http");
                            ("http_version", PStr "1.1");
                            ("method", http_method);
                            ("headers", PList encoded_headers);
                            ("path", stripped);
                            ("raw_path", PNone);
                            ("root_path", PStr "");
                            ("scheme", default (PStr "https")
                                         (dict_get "x-forwarded-proto" headers));
                            ("query_string", query_string);
                            ("server", server);
                            ("client", client);
                            ("asgi", PDict [("version", PStr "3.0")]);
                            ("aws.event", PDict event);
                            ("aws.context", context)] in
                   let is_binary := default (PBool false) (dict_get "isBase64Encoded" event) in
                   let body :=
                     let b := default PNone (dict_get "body" event) in
                     if truthy b then b else PBytes [] in
                   body <- (if truthy is_binary
                            then
                              decoded <- lift (b64decode body) ;;
                              ret (PBytes decoded)
                            else
                              match body with
                              | PBytes _ => ret body
                              | _ => lift (py_encode body)
                              end) ;;
                   let text_mime_types :=
                     match text_mime_types self with
                     | Some (t :: ts) => ((t :: ts) ++ DEFAULT_TEXT_MIME_TYPES)%list
                     | _ => DEFAULT_TEXT_MIME_TYPES
                     end in
                   let asgi_cycle := HTTPCycle_init scope text_mime_types (log_level self) in
                   let asgi_cycle :=
                     http_put_message
                       (PDict [("type", PStr "http.request");
                               ("body", body);
                               ("more_body", PBool false)]) asgi_cycle in
                   HTTPCycle_call asgi_cycle (app self)) parts w)).
  { intros [[[source_ip query_string] path] http_method] Hqs. cbv beta zeta.
    cbn [fst snd] in *.
    destruct (lowered_headers_pure event) as [rh Hrh].
    unfold bind at 1. rewrite Hrh.
    destruct rh as [headers|e]; [|apply Hraise].
    destruct (get_server_pure headers) as [rs Hrs].
    unfold bind at 1. rewrite Hrs.
    destruct rs as [server|e]; [|apply Hraise].
    unfold bind at 1, lift at 1.
    destruct (encode_pairs true headers) as [encoded|e]; [|apply Hraise].
    unfold bind at 1, lift at 1.
    destruct (strip_base_path unquote self path) as [stripped|e]; [|apply Hraise].
    unfold bind at 1.
    destruct (truthy (default (PBool false) (dict_get "isBase64Encoded" event)))
      eqn:Hbin.
    - unfold bind at 1, lift at 1.
      destruct (b64decode _) as [decoded|e] eqn:Hdec; [|apply Hraise].
      unfold ret at 1. unfold HTTPCycle_init, http_put_message. simpl app.
      apply Hcall.
      + reflexivity.
      + destruct is_http_api.
        * simpl. rewrite Hqs. reflexivity.
        * destruct Hqs as [bs ->]. exists bs. reflexivity.
      + cbv zeta; try rewrite Hbin; first [exact Hdec | reflexivity].
    - destruct (if truthy (default PNone (dict_get "body" event))
                then default PNone (dict_get "body" event)
                else PBytes []) as [ | | |s|bs| | | ] eqn:Hb0;
        try (unfold lift, py_encode; apply Hraise).
      + unfold lift, py_encode.
        destruct (has_surrogate s); [apply Hraise|].
        unfold HTTPCycle_init, http_put_message. simpl app.
        apply Hcall.
        * reflexivity.
        * destruct is_http_api.
          -- simpl. rewrite Hqs. reflexivity.
          -- destruct Hqs as [bs ->]. exists bs. reflexivity.
        * cbv zeta; try rewrite Hbin; try rewrite Hb0.
          right. exists s. split; reflexivity.
      + unfold ret at 1. unfold HTTPCycle_init, http_put_message. simpl app.
        apply Hcall.
        * reflexivity.
        * destruct is_http_api.
          -- simpl. rewrite Hqs. reflexivity.
          -- destruct Hqs as [bs' ->]. exists bs'. reflexivity.
        * cbv zeta; try rewrite Hbin; try rewrite Hb0. left. reflexivity. }
  destruct is_http_api.
  - unfold bind at 1, lift at 1.
    destruct (py_getitem req "http") as [http|e]; [|apply Hraise].
    unfold bind at 1, lift at 1.
    destruct (py_getitem http "sourceIp") as [ip|e]; [|apply Hraise].
    unfold bind at 1, lift at 1.
    destruct (py_getitem http "path") as [pa|e]; [|apply Hraise].
    unfold bind at 1, lift at 1.
    destruct (py_getitem http "method") as [me|e]; [|apply Hraise].
    unfold ret at 1. apply Hrest. reflexivity.
  - unfold bind at 1, lift at 1.
    destruct (py_get req "identity" (PDict [])) as [idn|e]; [|apply Hraise].
    unfold bind at 1, lift at 1.
    destruct (py_get idn "sourceIp" PNone) as [ip|e]; [|apply Hraise].
    unfold bind at 1, lift at 1.
    destruct (py_getitem (PDict event) "multiValueQueryStringParameters")
      as [params|e]; [|apply Hraise].
    unfold bind at 1.
    destruct (truthy params).
    + unfold bind at 1, lift at 1.
      destruct (urlencode params) as [enc|e]; [|apply Hraise].
      unfold lift at 1, py_encode.
      destruct (has_surrogate enc); [apply Hraise|].
      unfold bind at 1, lift at 1.
      destruct (py_getitem (PDict event) "path") as [pa|e]; [|apply Hraise].
      unfold bind at 1, lift at 1.
      destruct (py_getitem (PDict event) "httpMethod") as [me|e]; [|apply Hraise].
      unfold ret at 1. apply Hrest. simpl. eauto.
    + unfold ret at 1. unfold bind at 1, lift at 1.
      destruct (py_getitem (PDict event) "path") as [pa|e]; [|apply Hraise].
      unfold bind at 1, lift at 1.
      destruct (py_getitem (PDict event) "httpMethod") as [me|e]; [|apply Hraise].
      unfold ret at 1. apply Hrest. simpl. eauto.
Qed.

(** X20: [handle_http] either raises with the world untouched or ends in
    the run of one cycle on the application. That cycle was given exactly
    one message, an [http.request] whose body is [bytes] and whose
    [more_body] is false; its scope has the fourteen keys of an HTTP
    scope; its text types end with the four default ones. *)
Theorem handle_http_one_request (self : Mangum ASGIApp) (event : dict)
    (context : pyval) (is_http_api : bool) (w : world) :
  (exists e, handle_http' self event context is_http_api w = (Raise e, w))
  \/ (exists cycle body,
        handle_http' self event context is_http_api w
        = HTTPCycle_call cycle (app self) w
        /\ http_queue cycle = [PDict [("type", PStr "http.request");
                                      ("body", PBytes body);
                                      ("more_body", PBool false)]]
        /\ (exists d,
              http_scope cycle = PDict d
              /\ dict_keys d = ["type"; "http_version"; "method"; "headers"; "path";
                                "raw_path"; "root_path"; "scheme"; "query_string";
                                "server"; "client"; "asgi"; "aws.event";
                                "aws.context"])
        /\ (exists own,
              http_text_mime_types cycle = (own ++ DEFAULT_TEXT_MIME_TYPES)%list)
        /\ http_log_level cycle = log_level self).
Proof.
  apply handle_http_cases.
  - intros e. left. exists e. reflexivity.
  - intros d body Hkeys _ _. right. eexists. exists body.
    split; [reflexivity|]. split; [reflexivity|]. split; [eauto|].
    split; [|reflexivity]. simpl.
    destruct (text_mime_types self) as [[|t ts]|].
    + exists []. reflexivity.
    + exists (t :: ts). reflexivity.
    + exists []. reflexivity.
Qed.

(** X21: the body the application receives. Without the base64 flag an
    absent, null or empty body is [b""], a [str] body is its encoding and
    a [bytes] body is passed as it is; with the flag it is what
    [b64decode] makes of the body ([b""] when there is none). *)
Theorem handle_http_body (self : Mangum ASGIApp) (event : dict)
    (context : pyval) (is_http_api : bool) (w : world) :
  let given := default PNone (dict_get "body" event) in
  let flag := truthy (default (PBool false) (dict_get "isBase64Encoded" event)) in
  (exists e, handle_http' self event context is_http_api w = (Raise e, w))
  \/ (exists cycle body,
        handle_http' self event context is_http_api w
        = HTTPCycle_call cycle (app self) w
        /\ http_queue cycle = [PDict [("type", PStr "http.request");
                                      ("body", PBytes body);
                                      ("more_body", PBool false)]]
        /\ (flag = false ->
            (truthy given = false -> body = [])
            /\ (forall s, given = PStr s -> body = encode s)
            /\ (forall bs, given = PBytes bs -> body = bs))
        /\ (flag = true ->
            b64decode (if truthy given then given else PBytes []) = Ok body)).
Proof.
  intros given flag. subst given flag.
  apply handle_http_cases.
  - intros e. left. exists e. reflexivity.
  - intros d body _ _ Hbody. right. eexists. exists body.
    split; [reflexivity|]. split; [reflexivity|].
    cbv zeta in Hbody.
    destruct (truthy (default (PBool false) (dict_get "isBase64Encoded" event))).
    + split; [discriminate|]. intros _. exact Hbody.
    + split; [|discriminate]. intros _.
      destruct (truthy (default PNone (dict_get "body" event))) eqn:Htr.
      * split; [discriminate|]. split.
        -- intros s Hs. rewrite Hs in Hbody.
           destruct Hbody as [Hb|(s' & Hs' & ->)]; [discriminate|].
           inversion Hs'. reflexivity.
        -- intros bs Hbs. rewrite Hbs in Hbody.
           destruct Hbody as [Hb|(s' & Hs' & _)]; [|discriminate].
           inversion Hb. reflexivity.
      * assert (Hempty : body = []).
        { destruct Hbody as [Hb|(s' & Hs' & _)]; [|discriminate].
          inversion Hb. reflexivity. }
        subst body. split; [reflexivity|]. split.
        -- intros s Hs. rewrite Hs in Htr. simpl in Htr.
           apply negb_false_iff in Htr. apply String.eqb_eq in Htr. subst s.
           reflexivity.
        -- intros bs Hbs. rewrite Hbs in Htr. simpl in Htr.
           destruct bs; [reflexivity|discriminate].
Qed.

(** X22: the query string of the scope. For an HTTP API event it is the
    value of [rawQueryString] as the event holds it, a [str] that is not
    encoded, and [None] when the key is absent; for a REST API event it is
    always [bytes]. *)
Theorem handle_http_query_string (self : Mangum ASGIApp) (event : dict)
    (context : pyval) (is_http_api : bool) (w : world) :
  (exists e, handle_http' self event context is_http_api w = (Raise e, w))
  \/ (exists cycle d,
        handle_http' self event context is_http_api w
        = HTTPCycle_call cycle (app self) w
        /\ http_scope cycle = PDict d
        /\ (is_http_api = true ->
            dict_get "query_string" d
            = Some (default PNone (dict_get "rawQueryString" event)))
        /\ (is_http_api = false ->
            exists bs, dict_get "query_string" d = Some (PBytes bs))).
Proof.
  apply handle_http_cases.
  - intros e. left. exists e. reflexivity.
  - intros d body _ Hqs _. right. eexists. exists d.
    split; [reflexivity|]. split; [reflexivity|].
    destruct is_http_api.
    + split; [intros _; exact Hqs|discriminate].
    + split; [discriminate|intros _; exact Hqs].
Qed.

(** X23: an exception of the event handler leaves [handler] at once: the
    lifespan is not asked whether it is supported and its shutdown is not
    run, whatever [enable_lifespan] says. *)
Theorem handler_exception_skips_shutdown (self : Mangum ASGIApp) (event : dict)
    (req context : pyval) (e : exn) (w w' : world) :
  dict_get "requestContext" event = Some req ->
  (py_contains "eventType" req = Ok true
   /\ handle_ws' self event context w = (Raise e, w'))
  \/ (py_contains "eventType" req = Ok false
      /\ exists is_http_api,
           py_contains "http" req = Ok is_http_api
           /\ handle_http' self event context is_http_api w = (Raise e, w')) ->
  handler' self event context w = (Raise e, w').
Proof.
  intros Hreq Hcase.
  assert (Hget : py_getitem (PDict event) "requestContext" = Ok req)
    by (simpl; rewrite Hreq; reflexivity).
  unfold handler.
  unfold bind at 1, lift at 1. rewrite Hget.
  unfold bind at 1, lift at 1.
  destruct Hcase as [[Hws Hr]|(Hws & api & Hapi & Hr)]; rewrite Hws.
  - unfold bind at 1. rewrite Hr. reflexivity.
  - unfold bind, lift. cbv beta iota. rewrite Hapi. cbv beta iota.
    rewrite Hr. reflexivity.
Qed.

End AdapterMore.

(** ** scope.py *)

(** X24: the dict of a [Scope] is never JSON-serialisable, its query
    string being [bytes]: [json.dumps] raises [TypeError] on it, and so
    does the [create] of the connection facade, before anything is
    written. *)
Theorem as_dict_not_serialisable (s : Scopes.Scope) :
  json_dumps (Scopes.as_dict s) = Raise TypeError
  /\ forall (B : Type) (HB : WebSocketBackend B) (ws : WebSocket B) (w : world),
       WebSocket_create ws (Scopes.as_dict s) w = (Raise TypeError, w).
Proof.
  assert (H : json_dumps (Scopes.as_dict s) = Raise TypeError).
  { unfold Scopes.as_dict.
    apply (json_dumps_bytes_field "query_string" (Scopes.query_string s)).
    reflexivity. }
  split; [exact H|].
  intros B HB ws w. unfold WebSocket_create, bind, lift. rewrite H. reflexivity.
Qed.

(** ** adapter.py: the headers and the keys of an HTTP event *)

Lemma dict_get_app (k : string) (d1 d2 : dict) :
  dict_get k (d1 ++ d2)
  = match dict_get k d1 with
    | Some v => Some v
    | None => dict_get k d2
    end.
Proof.
  induction d1 as [|[k' v'] d1 IH]; simpl; [reflexivity|].
  destruct (String.eqb k' k); [reflexivity|exact IH].
Qed.

(** In [d.update(u)] the last entry of [u] for a key wins, and a key that
    [u] does not have keeps the value of [d]. *)
Lemma dict_get_update (k : string) (u acc : dict) :
  dict_get k (dict_update acc u)
  = match dict_get k (rev u) with
    | Some v => Some v
    | None => dict_get k acc
    end.
Proof.
  revert acc. induction u as [|[k0 v0] u IH]; intros acc; [reflexivity|].
  unfold dict_update in *. simpl fold_left. rewrite IH.
  simpl rev. rewrite dict_get_app.
  destruct (dict_get k (rev u)); [reflexivity|]. simpl.
  destruct (String.eqb k0 k) eqn:E.
  - apply String.eqb_eq in E. subst. apply dict_get_set_eq.
  - apply String.eqb_neq in E. apply dict_get_set_ne. exact E.
Qed.

Lemma dict_set_keys_NoDup (k : string) (v : pyval) (d : dict) :
  List.NoDup (dict_keys d) -> List.NoDup (dict_keys (dict_set k v d)).
Proof.
  unfold dict_keys. induction d as [|[k' v'] d IH]; simpl; intros Hnd.
  - constructor; [tauto|constructor].
  - destruct (String.eqb k' k) eqn:E; simpl; [exact Hnd|].
    inversion Hnd as [|? ? Hnot Hnd']; subst. constructor; [|exact (IH Hnd')].
    intros Hin. apply Hnot.
    apply in_map_iff in Hin as ([k1 v1] & Hk & Hin). simpl in Hk. subst k1.
    apply in_map_iff.
    assert (Hget : dict_get k' (dict_set k v d) <> None).
    { intros Hnone. apply dict_get_None_notin in Hnone. apply Hnone.
      apply in_map_iff. exists (k', v1). split; [reflexivity|exact Hin]. }
    rewrite dict_get_set_ne in Hget by (apply String.eqb_neq in E; congruence).
    destruct (dict_get k' d) as [x|] eqn:Hx; [|contradiction].
    exists (k', x). split; [reflexivity|]. apply dict_get_In. exact Hx.
Qed.

Lemma dict_update_keys_NoDup (u acc : dict) :
  List.NoDup (dict_keys acc) -> List.NoDup (dict_keys (dict_update acc u)).
Proof.
  revert acc. induction u as [|[k v] u IH]; intros acc Hnd; [exact Hnd|].
  unfold dict_update in *. simpl. apply IH. apply dict_set_keys_NoDup. exact Hnd.
Qed.

Section HeadersMore.

Context {ASGIApp : Type}.
Variable str_lower : string -> string.
Variable py_int : pyval -> result Z.
Variable unquote : pyval -> result pyval.
Variable urlencode : pyval -> result string.
Variable b64decode : pyval -> result (list Byte.byte).
Variable HTTPCycle_call : HTTPCycle -> ASGIApp -> M pyval.

(** X25: the headers both handlers work with have their names
    lower-cased, with no name twice: of the header entries of the event
    whose names agree once lower-cased, the last one gives the value. An
    event without headers (absent, null or empty) gives no headers. *)
Theorem lowered_headers_last_wins (event : dict) (w : world) :
  (forall hs,
     dict_get "headers" event = Some (PDict hs) ->
     exists headers,
       lowered_headers str_lower event w = (Ok headers, w)
       /\ List.NoDup (dict_keys headers)
       /\ forall k,
            dict_get k headers
            = dict_get k (rev (map (fun kv => (str_lower (fst kv), snd kv)) hs)))
  /\ (truthy (default PNone (dict_get "headers" event)) = false ->
      lowered_headers str_lower event w = (Ok [], w)).
Proof.
  split.
  - intros hs Hh. unfold lowered_headers. rewrite Hh.
    change (default PNone (Some (PDict hs))) with (PDict hs).
    destruct hs as [|h hs].
    + exists []. split; [reflexivity|]. split; [constructor|reflexivity].
    + exists (dict_of_pairs (map (fun kv => (str_lower (fst kv), snd kv)) (h :: hs))).
      split; [reflexivity|]. split.
      * apply dict_update_keys_NoDup. constructor.
      * intros k. unfold dict_of_pairs. rewrite dict_get_update.
        destruct (dict_get k (rev _)); reflexivity.
  - intros Hf. unfold lowered_headers. rewrite Hf. reflexivity.
Qed.

(** X26: what [handle_http] insists on before anything has happened. For
    a REST API event the address of the caller is read first, from
    [requestContext.get("identity", {})]: an identity that is there and is
    not a mapping (null, say) raises [AttributeError]. With the identity a
    mapping, or absent, an event without [multiValueQueryStringParameters]
    raises [KeyError] for that key. An HTTP API event whose request
    context has no ["http"] entry raises [KeyError] for ["http"]. *)
Theorem handle_http_missing_keys (self : Mangum ASGIApp) (event req : dict)
    (context : pyval) (w : world) :
  dict_get "requestContext" event = Some (PDict req) ->
  (forall idn,
     default (PDict []) (dict_get "identity" req) = PDict idn ->
     dict_get "multiValueQueryStringParameters" event = None ->
     handle_http str_lower py_int unquote urlencode b64decode HTTPCycle_call
       self event context false w
     = (Raise (KeyError "multiValueQueryStringParameters"), w))
  /\ (forall v,
        dict_get "identity" req = Some v ->
        (forall idn, v <> PDict idn) ->
        handle_http str_lower py_int unquote urlencode b64decode HTTPCycle_call
          self event context false w
        = (Raise AttributeError, w))
  /\ (dict_get "http" req = None ->
      handle_http str_lower py_int unquote urlencode b64decode HTTPCycle_call
        self event context true w
      = (Raise (KeyError "http"), w)).
Proof.
  intros Hreq.
  assert (Hget : py_getitem (PDict event) "requestContext" = Ok (PDict req))
    by (simpl; rewrite Hreq; reflexivity).
  split; [|split].
  - intros idn Hidn Hmv. unfold handle_http.
    unfold bind at 1, lift at 1. rewrite Hget.
    unfold bind at 1. unfold bind at 1, lift at 1. simpl py_get. rewrite Hidn.
    unfold bind at 1, lift at 1. simpl py_get.
    unfold bind at 1, lift at 1. simpl py_getitem. rewrite Hmv. reflexivity.
  - intros v Hv Hnd. unfold handle_http.
    unfold bind at 1, lift at 1. rewrite Hget.
    unfold bind at 1. unfold bind at 1, lift at 1. simpl py_get. rewrite Hv.
    change (default (PDict []) (Some v)) with v.
    unfold bind at 1, lift at 1.
    destruct v; try reflexivity. exfalso. apply (Hnd kvs). reflexivity.
  - intros Hhttp. unfold handle_http.
    unfold bind at 1, lift at 1. rewrite Hget.
    unfold bind at 1. unfold bind at 1, lift at 1. simpl py_getitem.
    rewrite Hhttp. reflexivity.
Qed.

End HeadersMore.

(** ** The further properties on the concrete deployment *)

Lemma backend_create_then_fetch_witness :
  "abc" <> ""
  /\ tables absent_world !! table example_backend = Some ∅
  /\ (∅ : gmap string item) !! "abc" = None
  /\ exists w1 w2,
       DynamoDBBackend_create example_backend "abc" example_doc absent_world
       = (Ok tt, w1)
       /\ DynamoDBBackend_fetch example_backend "abc" w1 = (Ok example_doc, w2)
       /\ tables w2 = tables w1
       /\ stored (table example_backend) "abc" w2 = Some example_item.
Proof.
  assert (Hne : "abc" <> "") by discriminate.
  split; [exact Hne|]. split; [reflexivity|]. split; [reflexivity|].
  exact (backend_create_then_fetch example_backend "abc" example_doc ∅ absent_world
           Hne eq_refl eq_refl).
Defined.

Lemma backend_other_ids_untouched_witness :
  (example_table <> table example_backend \/ "abc" <> "def")
  /\ stored example_table "abc"
       (snd (DynamoDBBackend_create example_backend "def" JNull open_world))
     = Some example_item
  /\ stored example_table "abc"
       (snd (DynamoDBBackend_delete example_backend "def" open_world))
     = Some example_item.
Proof.
  assert (H : example_table <> table example_backend \/ "abc" <> "def")
    by (right; discriminate).
  split; [exact H|].
  pose proof (backend_other_ids_untouched example_backend "def" JNull
                example_table "abc" open_world H) as (H1 & H2 & _).
  split; [rewrite H1|rewrite H2]; reflexivity.
Defined.

Lemma create_then_delete_restores_witness :
  "abc" <> ""
  /\ tables absent_world !! table example_backend = Some ∅
  /\ (∅ : gmap string item) !! "abc" = None
  /\ exists w1 w2,
       DynamoDBBackend_create example_backend "abc" example_doc absent_world
       = (Ok tt, w1)
       /\ DynamoDBBackend_delete example_backend "abc" w1 = (Ok tt, w2)
       /\ tables w2 = tables absent_world
       /\ forall doc', exists w3,
            DynamoDBBackend_create example_backend "abc" doc' w2 = (Ok tt, w3).
Proof.
  assert (Hne : "abc" <> "") by discriminate.
  split; [exact Hne|]. split; [reflexivity|]. split; [reflexivity|].
  exact (create_then_delete_restores example_backend "abc" example_doc ∅
           absent_world Hne eq_refl eq_refl).
Defined.

Lemma DynamoDBBackend_init_outcome_witness :
  "connections" <> ""
  /\ DynamoDBBackend_init "connections" (Some "us-east-1") None absent_world
     = (Ok example_backend, log_call (DescribeTable example_table) absent_world).
Proof.
  assert (Hne : "connections" <> "") by discriminate.
  split; [exact Hne|].
  exact (DynamoDBBackend_init_outcome "connections" (Some "us-east-1") None
           absent_world Hne).
Defined.

Lemma constructed_websocket_witness :
  WebSocket_init example_sqlite3 "abc" "https://example.org/dev" (Some 1%nat)
    absent_world
  = (Ok (example_websocket "abc"), constructed_world)
  /\ exists l b,
       Some 1%nat = Some l
       /\ dict_get "backend" (default [] (heap absent_world !! l))
          = Some (PStr "dynamodb")
       /\ example_websocket "abc"
          = {| connection_id := "abc";
               api_gateway_endpoint_url := "https://example.org/dev";
               ws_config := Some l; _backend := Some (DynamoDB b);
               scope := None |}.
Proof.
  split; [reflexivity|].
  exact (constructed_websocket example_sqlite3 "abc" "https://example.org/dev"
           (Some 1%nat) absent_world constructed_world (example_websocket "abc")
           eq_refl).
Defined.

Lemma dynamodb_keyword_errors_witness :
  heap misconfigured_world !! 0%nat = Some misspelt_config
  /\ dict_get "backend" misspelt_config = Some (PStr "dynamodb")
  /\ In "table" (dict_keys misspelt_config)
  /\ ~ In "table" ["backend"; "table_name"; "region_name"; "endpoint_url"]
  /\ WebSocket_init example_sqlite3 "abc" "https://example.org/dev" (Some 0%nat)
       misconfigured_world
     = (Raise TypeError, popped 0%nat misspelt_config misconfigured_world).
Proof.
  assert (Hin : In "table" (dict_keys misspelt_config)) by (simpl; tauto).
  assert (Hnot : ~ In "table" ["backend"; "table_name"; "region_name"; "endpoint_url"]).
  { simpl. intros [H|[H|[H|[H|[]]]]]; discriminate H. }
  split; [reflexivity|]. split; [reflexivity|]. split; [exact Hin|].
  split; [exact Hnot|].
  exact (dynamodb_keyword_errors example_sqlite3 "abc" "https://example.org/dev"
           0%nat misspelt_config misconfigured_world eq_refl eq_refl
           (or_introl (ex_intro _ "table" (conj Hin Hnot)))).
Defined.

Lemma other_tag_is_invalid_witness :
  heap misconfigured_world !! 1%nat = Some redis_config
  /\ dict_get "backend" redis_config = Some (PStr "redis")
  /\ PStr "redis" <> PStr "sqlite3"
  /\ PStr "redis" <> PStr "dynamodb"
  /\ WebSocket_init example_sqlite3 "abc" "https://example.org/dev" (Some 1%nat)
       misconfigured_world
     = (Raise (WebSocketError (WsFmt "Invalid backend specified: " (PStr "redis"))),
        popped 1%nat redis_config misconfigured_world).
Proof.
  assert (H1 : PStr "redis" <> PStr "sqlite3") by discriminate.
  assert (H2 : PStr "redis" <> PStr "dynamodb") by discriminate.
  split; [reflexivity|]. split; [reflexivity|]. split; [exact H1|].
  split; [exact H2|].
  exact (other_tag_is_invalid example_sqlite3 "abc" "https://example.org/dev"
           1%nat redis_config (PStr "redis") misconfigured_world
           eq_refl eq_refl H1 H2).
Defined.

Lemma fetch_yields_bytes_witness :
  WebSocket_fetch (example_websocket "abc") open_world
  = (Ok fetched_websocket, fetched_world)
  /\ exists d bs h,
       scope fetched_websocket = Some (PDict d)
       /\ dict_get "query_string" d = Some (PBytes bs)
       /\ dict_get "headers" d = Some h
       /\ (truthy h = false
           \/ exists pairs,
                h = PList pairs
                /\ Forall (fun p => exists k v, p = PList [PBytes k; PBytes v]) pairs).
Proof.
  split; [reflexivity|].
  exact (fetch_yields_bytes (example_websocket "abc") fetched_websocket
           open_world fetched_world eq_refl).
Defined.

Lemma fetch_keeps_other_fields_witness :
  WebSocket_fetch (example_websocket "abc") open_world
  = (Ok fetched_websocket, fetched_world)
  /\ exists b doc d d',
       _backend (example_websocket "abc") = Some b
       /\ backend_fetch b "abc" open_world = (Ok doc, fetched_world)
       /\ json_loads doc = PDict d
       /\ scope fetched_websocket = Some (PDict d')
       /\ dict_keys d' = dict_keys d
       /\ (forall k, k <> "headers" -> k <> "query_string" ->
                     dict_get k d' = dict_get k d)
       /\ connection_id fetched_websocket = "abc"
       /\ _backend fetched_websocket = _backend (example_websocket "abc").
Proof.
  split; [reflexivity|].
  exact (fetch_keeps_other_fields (example_websocket "abc") fetched_websocket
           open_world fetched_world eq_refl).
Defined.

Lemma fetch_malformed_scope_witness :
  _backend (example_websocket "abc") = Some (DynamoDB example_backend)
  /\ stored (table example_backend) "abc" truncated_world = Some truncated_item
  /\ WebSocket_fetch (example_websocket "abc") truncated_world
     = (Raise (KeyError "query_string"),
        log_call (GetItem (table example_backend) "abc") truncated_world).
Proof.
  split; [reflexivity|]. split; [reflexivity|].
  exact (proj1 (proj2 (fetch_malformed_scope (example_websocket "abc")
                         example_backend truncated_item truncated_world
                         eq_refl eq_refl))
           _ eq_refl eq_refl).
Defined.

Lemma fetched_scope_not_storable_witness :
  WebSocket_fetch (example_websocket "abc") open_world
  = (Ok fetched_websocket, fetched_world)
  /\ scope fetched_websocket = Some fetched_scope
  /\ forall (other : WebSocket unit) (w2 : world),
       WebSocket_create other fetched_scope w2 = (Raise TypeError, w2).
Proof.
  split; [reflexivity|]. split; [reflexivity|].
  exact (fetched_scope_not_storable (example_websocket "abc") fetched_websocket
           open_world fetched_world fetched_scope eq_refl eq_refl).
Defined.

Lemma post_to_connection_store_untouched_witness :
  (forall r,
     gateway open_world "https://example.org/dev" "def" [] = Some (ClientError r) ->
     status_code_of r <> Some 410)
  /\ snd (WebSocket_post_to_connection (example_websocket "def") [] open_world)
     = log_call (PostToConnection "https://example.org/dev" "def" []) open_world.
Proof.
  assert (H : forall r,
             gateway open_world "https://example.org/dev" "def" []
             = Some (ClientError r) ->
             status_code_of r <> Some 410).
  { intros r Hr. injection Hr as <-. discriminate. }
  split; [exact H|].
  exact (proj1 (post_to_connection_store_untouched (example_websocket "def") []
                  open_world H)).
Defined.

Lemma get_server_without_port_witness :
  default (PStr "mangum") (dict_get "host" [("x-forwarded-port", PInt 8443)])
  = PStr "mangum"
  /\ str_contains ":" "mangum" = false
  /\ get_server example_port [("x-forwarded-port", PInt 8443)] bare_world
     = (Ok (PTuple [PStr "mangum"; PInt 8443]), bare_world).
Proof.
  split; [reflexivity|]. split; [reflexivity|].
  exact (get_server_without_port example_port [("x-forwarded-port", PInt 8443)]
           "mangum" bare_world eq_refl eq_refl).
Defined.

Lemma get_server_host_port_witness :
  dict_get "host" [("host", PStr "example.org:8000"); ("x-forwarded-port", PInt 443)]
  = Some (PStr ("example.org" +:+ String ":" "8000"))
  /\ str_contains ":" "example.org" = false
  /\ str_contains ":" "8000" = false
  /\ get_server example_port
       [("host", PStr "example.org:8000"); ("x-forwarded-port", PInt 443)]
       bare_world
     = (Ok (PTuple [PStr "example.org"; PInt 8000]), bare_world).
Proof.
  split; [reflexivity|]. split; [reflexivity|]. split; [reflexivity|].
  exact (get_server_host_port example_port
           [("host", PStr "example.org:8000"); ("x-forwarded-port", PInt 443)]
           "example.org" "8000" bare_world eq_refl eq_refl eq_refl).
Defined.

Lemma get_server_two_colons_witness :
  dict_get "host" ipv6_headers
  = Some (PStr ("[" +:+ String ":" ("" +:+ String ":" "1]:8000")))
  /\ get_server example_port ipv6_headers bare_world = (Raise ValueError, bare_world).
Proof.
  split; [reflexivity|].
  exact (get_server_two_colons example_port ipv6_headers "[" "" "1]:8000"
           bare_world eq_refl).
Defined.

Lemma strip_base_path_prefix_witness :
  api_gateway_base_path based_mangum = Some "api"
  /\ "api" <> ""
  /\ strip_base_path example_unquote based_mangum (PStr "/api/users")
     = Ok (PStr "/users")
  /\ strip_base_path example_unquote based_mangum (PStr "/apiary")
     = Ok (PStr "ary")
  /\ strip_base_path example_unquote based_mangum (PStr "/api") = Ok (PStr "/").
Proof.
  assert (Hne : "api" <> "") by discriminate.
  split; [reflexivity|]. split; [exact Hne|].
  pose proof (proj1 (strip_base_path_prefix example_unquote based_mangum "api"
                       eq_refl Hne)) as H.
  split; [exact (H "/users")|]. split; [exact (H "ary")|exact (H "")].
Defined.

Lemma handle_ws_other_event_type_witness :
  configured (example_mangum (Some "us-east-1") (Some "connections")) open_world = true
  /\ PStr "PING" <> PStr "CONNECT"
  /\ PStr "PING" <> PStr "MESSAGE"
  /\ PStr "PING" <> PStr "DISCONNECT"
  /\ example_handle (example_mangum (Some "us-east-1") (Some "connections"))
       ping_event PNone open_world
     = (Ok (status 200), open_world).
Proof.
  assert (H1 : PStr "PING" <> PStr "CONNECT") by discriminate.
  assert (H2 : PStr "PING" <> PStr "MESSAGE") by discriminate.
  assert (H3 : PStr "PING" <> PStr "DISCONNECT") by discriminate.
  split; [reflexivity|]. split; [exact H1|]. split; [exact H2|]. split; [exact H3|].
  exact (handle_ws_other_event_type example_cycle (fun s => s) example_int
           (fun _ => "") (example_mangum (Some "us-east-1") (Some "connections"))
           ping_event _ (PStr "PING") (PStr "abc") PNone open_world
           eq_refl eq_refl eq_refl eq_refl H1 H2 H3).
Defined.

Lemma connect_bad_host_escapes_witness :
  configured (example_mangum (Some "us-east-1") (Some "connections")) absent_world = true
  /\ ws_event ipv6_connect_event "CONNECT" "abc" (example_context "CONNECT")
  /\ ipv6_headers <> []
  /\ example_handle (example_mangum (Some "us-east-1") (Some "connections"))
       ipv6_connect_event PNone absent_world
     = (Raise ValueError, absent_world).
Proof.
  assert (Hev : ws_event ipv6_connect_event "CONNECT" "abc" (example_context "CONNECT"))
    by (repeat split; reflexivity).
  assert (Hne : ipv6_headers <> []) by discriminate.
  split; [reflexivity|]. split; [exact Hev|]. split; [exact Hne|].
  exact (connect_bad_host_escapes example_cycle (fun s => s) example_int
           (fun _ => "") (example_mangum (Some "us-east-1") (Some "connections"))
           ipv6_connect_event (example_context "CONNECT") ipv6_headers
           "abc" "[" "" "1]:8000" PNone absent_world
           eq_refl Hev eq_refl Hne eq_refl).
Defined.

Lemma handle_ws_requires_configuration_witness :
  truthy_opt (dynamodb_region (example_mangum (Some "") None)) = false
  /\ truthy_opt (environ bare_world !! "AWS_REGION") = false
  /\ truthy_opt (dynamodb_table_name (example_mangum (Some "") None)) = false
  /\ example_handle (example_mangum (Some "") None) [] PNone bare_world
     = (Raise (WebSocketError (WsMsg guard_message)), bare_world).
Proof.
  split; [reflexivity|]. split; [reflexivity|]. split; [reflexivity|].
  exact (handle_ws_requires_configuration example_cycle (fun s => s) example_int
           (fun _ => "") (example_mangum (Some "") None) bare_world
           eq_refl eq_refl eq_refl [] PNone).
Defined.

Lemma handler_exception_skips_shutdown_witness :
  dict_get "requestContext" (example_event "DISCONNECT")
  = Some (PDict (example_context "DISCONNECT"))
  /\ py_contains "eventType" (PDict (example_context "DISCONNECT")) = Ok true
  /\ example_handler based_mangum (example_event "DISCONNECT") PNone bare_world
     = (Raise (WebSocketError (WsExc (error_of "ResourceNotFoundException" 400))),
        log_call (DescribeTable example_table) bare_world).
Proof.
  split; [reflexivity|]. split; [reflexivity|].
  exact (handler_exception_skips_shutdown example_cycle (fun s => s) example_port
           (fun _ => "") example_unquote example_urlencode example_b64decode
           example_http_cycle (ret true) (ret tt) based_mangum
           (example_event "DISCONNECT") (PDict (example_context "DISCONNECT")) PNone
           (WebSocketError (WsExc (error_of "ResourceNotFoundException" 400)))
           bare_world (log_call (DescribeTable example_table) bare_world)
           eq_refl (or_introl (conj eq_refl eq_refl))).
Defined.

(** ** Runs of the HTTP path *)

Example rest_request :
  fst (example_handler based_mangum rest_event PNone bare_world)
  = Ok (PList [PDict [("type", PStr "http.request");
                      ("body", PBytes []);
                      ("more_body", PBool false)]]).
Proof. reflexivity. Qed.

Example http_api_request :
  fst (example_handler based_mangum http_api_event PNone bare_world)
  = Ok (PList [PDict [("type", PStr "http.request");
                      ("body", PBytes (encode "hi"));
                      ("more_body", PBool false)]]).
Proof. reflexivity. Qed.

Example rest_scope :
  fst (handle_http (fun s => s) example_port example_unquote example_urlencode
         example_b64decode scope_cycle based_mangum rest_event PNone false
         bare_world)
  = Ok (PList [PStr "/users"; PBytes []; PTuple [PStr "example.org"; PInt 80]]).
Proof. reflexivity. Qed.

Example http_api_scope :
  fst (handle_http (fun s => s) example_port example_unquote example_urlencode
         example_b64decode scope_cycle based_mangum http_api_event PNone true
         bare_world)
  = Ok (PList [PStr "/users"; PStr "a=1"; PTuple [PStr "example.org"; PInt 8000]]).
Proof. reflexivity. Qed.

Lemma lowered_headers_last_wins_witness :
  dict_get "headers" mixed_case_event = Some (PDict mixed_case_headers)
  /\ lowered_headers example_lower mixed_case_event bare_world
     = (Ok [("host", PStr "second.example.org"); ("accept", PStr "*/*")], bare_world)
  /\ exists headers,
       lowered_headers example_lower mixed_case_event bare_world = (Ok headers, bare_world)
       /\ List.NoDup (dict_keys headers)
       /\ forall k,
            dict_get k headers
            = dict_get k (rev (map (fun kv => (example_lower (fst kv), snd kv))
                                 mixed_case_headers)).
Proof.
  split; [reflexivity|]. split; [reflexivity|].
  exact (proj1 (lowered_headers_last_wins example_lower mixed_case_event bare_world)
           mixed_case_headers eq_refl).
Defined.

Lemma handle_http_missing_keys_witness :
  dict_get "requestContext" identified_event
  = Some (PDict [("identity", PDict [("sourceIp", PStr "10.0.0.1")])])
  /\ dict_get "requestContext" anonymous_event = Some (PDict [("identity", PNone)])
  /\ (forall idn, PNone <> PDict idn)
  /\ handle_http (fun s => s) example_port example_unquote example_urlencode
       example_b64decode example_http_cycle based_mangum identified_event PNone
       false bare_world
     = (Raise (KeyError "multiValueQueryStringParameters"), bare_world)
  /\ handle_http (fun s => s) example_port example_unquote example_urlencode
       example_b64decode example_http_cycle based_mangum anonymous_event PNone
       false bare_world
     = (Raise AttributeError, bare_world)
  /\ handle_http (fun s => s) example_port example_unquote example_urlencode
       example_b64decode example_http_cycle based_mangum identified_event PNone
       true bare_world
     = (Raise (KeyError "http"), bare_world).
Proof.
  assert (Hnd : forall idn, PNone <> PDict idn) by (intros idn; discriminate).
  split; [reflexivity|]. split; [reflexivity|]. split; [exact Hnd|].
  pose proof (handle_http_missing_keys (fun s => s) example_port example_unquote
                example_urlencode example_b64decode example_http_cycle
                based_mangum identified_event
                [("identity", PDict [("sourceIp", PStr "10.0.0.1")])]
                PNone bare_world eq_refl) as [H1 [_ H3]].
  pose proof (handle_http_missing_keys (fun s => s) example_port example_unquote
                example_urlencode example_b64decode example_http_cycle
                based_mangum anonymous_event [("identity", PNone)]
                PNone bare_world eq_refl) as [_ [H2 _]].
  split; [exact (H1 _ eq_refl eq_refl)|].
  split; [exact (H2 PNone eq_refl Hnd)|exact (H3 eq_refl)].
Defined.
